(** * Freelance platform: bid lifecycle and session lifecycle

    A shallow embedding of [BidsService] (modules/bids/bids.service),
    [BidsController.updateBid] with [updateBidSchema]
    (modules/bids/bids.controller, bids.validate) and [AuthService]
    (modules/auth/auth.service) over the Mongoose models [Bid], [Gig] and
    [User].

    Conventions.
    - A collection is the list of its documents in insertion order.
    - An [ObjectId] is its canonical hex string (what [toString()] gives and
      what [req.user.userId] carries). A string that arrives where a schema
      or a query has an ObjectId is cast by Mongoose ([castObjectId]): every
      spelling of an id that [ObjectId.isValid] accepts becomes the canonical
      one before it is compared or stored. Where the code compares strings
      itself ([toString() === ...]), the model compares the text.
    - A [Date] is its number of milliseconds since the epoch.
    - Every service call is an [M]: it receives the database, returns the
      database it leaves behind and either a value or the error it threw.
      Writes made before a throw stay (the services open no transaction).
      A call runs from its first query to its last write before the next
      call starts; interleavings of concurrent requests are not modelled.
    - What the services get from libraries (ObjectId validation, bcrypt,
      SHA-256, the regular expressions of the schemas, Joi's rules for single
      fields) is a field of the class [Platform]. JSON Web Tokens are modelled
      symbolically: a token is the data that was signed together with the
      secret that signed it. *)

From Stdlib Require Import String Ascii List ZArith QArith Bool Lia.
Import ListNotations.

#[local] Open Scope string_scope.
#[local] Open Scope Z_scope.
#[local] Set Warnings "-register-all".

(** ** Values *)

Definition ObjectId := string.

(** JavaScript numbers that reach the services are finite; a rational holds
    each of them exactly and the services do no arithmetic on them. *)
Definition Number := Q.

(** [Date] values, in milliseconds. *)
Definition Date := Z.

Inductive JSON :=
| JNull
| JBool (b : bool)
| JNum (q : Number)
| JStr (s : string)
| JArr (items : list JSON)
| JObj (fields : list (string * JSON)).

(** ** Errors

    [ApiError] (utils/apierror) is constructed everywhere as
    [new ApiError(statusCode, message)]; the other constructors are the
    errors the libraries throw. *)

Inductive Error :=
| ApiError (statusCode : Z) (message : string)
| CastError (path : string)
| ValidationError (path : string)
| MongoServerError (code : Z)
| JsonWebTokenError (message : string)
| TokenExpiredError.

(** [error instanceof jwt.JsonWebTokenError]: [TokenExpiredError] extends
    [JsonWebTokenError]. *)
Definition instanceof_JsonWebTokenError (e : Error) : bool :=
  match e with
  | JsonWebTokenError _ | TokenExpiredError => true
  | _ => false
  end.

(** The failure kinds of the error taxonomy, read off the HTTP status code an
    [ApiError] carries. *)
Inductive ErrorKind :=
| BadRequest | Unauthorized | Forbidden | NotFound | Conflict | Internal.

Definition kindOfStatus (statusCode : Z) : ErrorKind :=
  if statusCode =? 400 then BadRequest
  else if statusCode =? 401 then Unauthorized
  else if statusCode =? 403 then Forbidden
  else if statusCode =? 404 then NotFound
  else if statusCode =? 409 then Conflict
  else Internal.

Definition errorKind (e : Error) : ErrorKind :=
  match e with
  | ApiError statusCode _ => kindOfStatus statusCode
  | _ => Internal
  end.

(** ** Documents *)

(** [IGig]: the fields the bid workflow reads. *)
Record Gig := mkGig {
  gig_id : ObjectId;
  gig_title : string;
  gig_freelancerId : ObjectId;
  gig_isActive : bool
}.

Inductive BidStatus := pending | accepted | rejected | withdrawn.

Definition BidStatus_eqb (a b : BidStatus) : bool :=
  match a, b with
  | pending, pending | accepted, accepted
  | rejected, rejected | withdrawn, withdrawn => true
  | _, _ => false
  end.

(** [IBid]. *)
Record Bid := mkBid {
  bid_id : ObjectId;
  bid_gigId : ObjectId;
  bid_freelancerId : ObjectId;
  bid_clientId : ObjectId;
  bid_amount : Number;
  bid_deliveryTime : Number;
  bid_proposal : string;
  bid_status : BidStatus;
  bid_attachments : list string;
  bid_createdAt : Date;
  bid_updatedAt : Date
}.

(** [Partial<IBid>]: what [createBid] and [updateBid] receive, and the shape
    of the update documents [{ status }] the service writes itself. Ids
    arrive as strings and are cast by Mongoose. *)
Record PartialBid := mkPartialBid {
  p_gigId : option string;
  p_freelancerId : option string;
  p_clientId : option string;
  p_amount : option Number;
  p_deliveryTime : option Number;
  p_proposal : option string;
  p_status : option BidStatus;
  p_attachments : option (list string)
}.

Definition emptyPatch : PartialBid :=
  mkPartialBid None None None None None None None None.

(** The update document [{ status }]. *)
Definition statusPatch (s : BidStatus) : PartialBid :=
  mkPartialBid None None None None None None (Some s) None.

Inductive Role := freelancer | client.

(** The claims a token carries: [generateAuthToken] signs
    [{ userId, email, role }], [generateRefreshToken] signs [{ userId }]. *)
Inductive JwtPayload :=
| AuthClaims (userId : ObjectId) (email : string) (role : Role)
| RefreshClaims (userId : ObjectId).

Definition payload_userId (p : JwtPayload) : ObjectId :=
  match p with
  | AuthClaims userId _ _ => userId
  | RefreshClaims userId => userId
  end.

(** A token string. [JwtSigned p iat exp secret] is the compact serialisation
    of payload [p] with the registered claims [iat] and [exp] (in seconds),
    signed with [secret]; two such strings are equal exactly when all four
    parts are. Any other string is [JwtOpaque]. *)
Inductive Jwt :=
| JwtSigned (payload : JwtPayload) (iat exp : Z) (secret : string)
| JwtOpaque (raw : string).

Definition Role_eq_dec (a b : Role) : {a = b} + {a <> b}.
Proof. decide equality. Defined.

Definition JwtPayload_eq_dec (a b : JwtPayload) : {a = b} + {a <> b}.
Proof. decide equality; auto using string_dec, Role_eq_dec. Defined.

Definition Jwt_eq_dec (a b : Jwt) : {a = b} + {a <> b}.
Proof.
  decide equality; auto using string_dec, Z.eq_dec, JwtPayload_eq_dec.
Defined.

Definition Jwt_eqb (a b : Jwt) : bool :=
  if Jwt_eq_dec a b then true else false.

(** [IUser]: identity, credentials, flags and token fields. The profile
    fields (bio, skills, portfolio, ...) are carried along unchanged by every
    operation of [AuthService] modelled here. *)
Record User := mkUser {
  user_id : ObjectId;
  user_email : string;
  user_password : string;
  user_firstName : string;
  user_lastName : string;
  user_role : Role;
  user_isActive : bool;
  user_lastLogin : option Date;
  user_refreshToken : option Jwt;
  user_passwordResetToken : option string;
  user_passwordResetExpires : option Date;
  user_createdAt : Date;
  user_updatedAt : Date
}.

(** The argument of [AuthService.register]. *)
Record RegisterData := mkRegisterData {
  reg_email : string;
  reg_password : string;
  reg_firstName : string;
  reg_lastName : string;
  reg_role : Role
}.

(** The [userResponse] object literals: the user without password, refresh
    token and reset fields. *)
Record UserResponse := mkUserResponse {
  resp_id : ObjectId;
  resp_email : string;
  resp_firstName : string;
  resp_lastName : string;
  resp_role : Role;
  resp_lastLogin : option Date;
  resp_createdAt : Date
}.

(** config/config.ts, [jwt] section; the [expiresIn] spans in seconds. *)
Record Config := mkConfig {
  jwt_secret : string;
  jwt_expiresIn : Z;
  jwt_refreshSecret : string;
  jwt_refreshExpiresIn : Z
}.

(** The defaults of config.ts: ['7d'] and ['30d']. *)
Definition defaultConfig : Config :=
  mkConfig "your-super-secret-jwt-key-change-this-in-production" (7 * 86400)
           "your-refresh-secret-key" (30 * 86400).

(** ** The database and the monad of service calls *)

Record Db := mkDb {
  Gigs : list Gig;
  Bids : list Bid;
  Users : list User
}.

Definition set_Bids (bs : list Bid) (db : Db) : Db :=
  mkDb (Gigs db) bs (Users db).

Definition set_Users (us : list User) (db : Db) : Db :=
  mkDb (Gigs db) (Bids db) us.

Definition M (A : Type) : Type := Db -> (Error + A) * Db.

Definition ret {A} (a : A) : M A := fun db => (inr a, db).

Definition throw {A} (e : Error) : M A := fun db => (inl e, db).

Definition bind {A B} (m : M A) (k : A -> M B) : M B :=
  fun db =>
    match m db with
    | (inl e, db') => (inl e, db')
    | (inr a, db') => k a db'
    end.

(** [try { m } catch (error) { h error }]. *)
Definition try_catch {A} (m : M A) (h : Error -> M A) : M A :=
  fun db =>
    match m db with
    | (inl e, db') => h e db'
    | (inr a, db') => (inr a, db')
    end.

Definition gets {A} (f : Db -> A) : M A := fun db => (inr (f db), db).

Definition modify (f : Db -> Db) : M unit := fun db => (inr tt, f db).

Notation "x <- m ;; k" := (bind m (fun x => k))
  (at level 61, m at next level, right associativity).

(** ** What the libraries provide *)

Class Platform := {
  (** [mongoose.Types.ObjectId.isValid]. *)
  ObjectId_isValid : string -> bool;
  (** [new mongoose.Types.ObjectId(s).toString()] for a string [s] that
      [isValid] accepts: the id in canonical form. This is what Mongoose
      makes of a string in a query or a document where the schema has an
      ObjectId. *)
  ObjectId_cast : string -> ObjectId;
  (** The [validator] of [bidSchema.attachments]. *)
  attachmentUrl_test : string -> bool;
  (** The setters of [userSchema.email] ([lowercase], [trim]); Mongoose runs
      them when a document is built and when a query is cast. *)
  email_set : string -> string;
  (** The [trim] setter of [userSchema.firstName] and [lastName]. *)
  name_set : string -> string;
  (** The validators of [userSchema] on a new document, run by [save()]
      before the [pre('save')] hook hashes the password. *)
  userSchema_validate : User -> bool;
  (** [bcrypt.hash(plain, salt)] and [bcrypt.compare(candidate, hash)]. *)
  bcrypt_hash : string -> string -> string;
  bcrypt_compare : string -> string -> bool;
  (** [crypto.createHash('sha256').update(s).digest('hex')]. *)
  sha256_hex : string -> string;
  config : Config;
  (** Joi's rules for the four keys of [updateBidSchema]: the converted value
      or the message of the first error. *)
  joi_amount : JSON -> string + Number;
  joi_deliveryTime : JSON -> string + Number;
  joi_proposal : JSON -> string + string;
  joi_attachments : JSON -> string + list string
}.

(** ** Generic collection operations *)

(** [updateOne]: the first document matching [p] is replaced by its image. *)
Fixpoint updateFirst {A} (p : A -> bool) (f : A -> A) (l : list A) : list A :=
  match l with
  | [] => []
  | x :: r => if p x then f x :: r else x :: updateFirst p f r
  end.

Definition default {A} (d : A) (o : option A) : A :=
  match o with Some a => a | None => d end.

(** A query condition [{ key }] whose value may be [undefined]. *)
Definition eqb_some (o : option string) (s : string) : bool :=
  match o with Some x => String.eqb s x | None => false end.

(** ** The [Bid] and [Gig] models *)

Section BidModel.
Context `{Platform}.

(** A string handed to Mongoose where the schema has an ObjectId: the
    canonical id, or a [CastError]. *)
Definition castObjectId (path s : string) : M ObjectId :=
  if ObjectId_isValid s then ret (ObjectId_cast s) else throw (CastError path).

Definition castOptionalId (path : string) (o : option string)
  : M (option ObjectId) :=
  match o with
  | Some s => id <- castObjectId path s ;; ret (Some id)
  | None => ret None
  end.

(** [Gig.findById(gigId)]; [findById(undefined)] finds nothing. *)
Definition Gig_findById (gigId : option string) : M (option Gig) :=
  match gigId with
  | None => ret None
  | Some s =>
      id <- castObjectId "_id" s ;;
      gets (fun db => find (fun g => String.eqb (gig_id g) id) (Gigs db))
  end.

(** [Bid.findOne(filter)], the filter already cast. *)
Definition Bid_findOne (filter : Bid -> bool) : M (option Bid) :=
  gets (fun db => find filter (Bids db)).

(** The guard [Bid.findOne({ _id: bidId, <who>: userId, status: 'pending' })]
    of [updateBid], [updateBidStatus] and [withdrawBid], with its filter cast;
    [who] is the path [freelancerId] or [clientId]. *)
Definition Bid_findPending (bidId : string) (path : string)
           (who : Bid -> ObjectId) (userId : string) : M (option Bid) :=
  id <- castObjectId "_id" bidId ;;
  uid <- castObjectId path userId ;;
  Bid_findOne (fun b =>
    String.eqb (bid_id b) id
    && String.eqb (who b) uid
    && BidStatus_eqb (bid_status b) pending).

(** The unique compound index [{ gigId: 1, freelancerId: 1 }]. *)
Definition samePair (a b : Bid) : bool :=
  String.eqb (bid_gigId a) (bid_gigId b)
  && String.eqb (bid_freelancerId a) (bid_freelancerId b).

Definition E11000 : Error := MongoServerError 11000.

(** The validators of [bidSchema] ([min], [max], [minlength], [maxlength]
    and the attachment validator). *)
Definition bidSchema_validate (b : Bid) : bool :=
  Qle_bool 5 (bid_amount b)
  && Qle_bool 1 (bid_deliveryTime b) && Qle_bool (bid_deliveryTime b) 365
  && (50 <=? String.length (bid_proposal b))%nat
  && (String.length (bid_proposal b) <=? 1000)%nat
  && forallb attachmentUrl_test (bid_attachments b).

(** Insertion of a new document: the server refuses a second document with
    the same [_id] or the same indexed pair. *)
Definition Bid_insert (b : Bid) : M Bid :=
  fun db =>
    if existsb (fun x => String.eqb (bid_id x) (bid_id b) || samePair x b)
               (Bids db)
    then (inl E11000, db)
    else (inr b, set_Bids (Bids db ++ [b]) db).

(** [new Bid({ ...doc, freelancerId, clientId }).save()]: required paths,
    schema defaults, validation, insertion. [freelancerId] and [clientId]
    are ObjectIds already; [newId] is the [_id] the driver generates for
    the document and [now] the time of the call ([timestamps: true]). *)
Definition Bid_create (doc : PartialBid) (freelancerId clientId : ObjectId)
           (newId : ObjectId) (now : Date) : M Bid :=
  match p_gigId doc, p_amount doc, p_deliveryTime doc, p_proposal doc with
  | Some g, Some a, Some t, Some p =>
      gid <- castObjectId "gigId" g ;;
      let b := mkBid newId gid freelancerId clientId a t p
                     (default pending (p_status doc))
                     (default [] (p_attachments doc)) now now in
      if bidSchema_validate b then Bid_insert b
      else throw (ValidationError "Bid validation failed")
  | _, _, _, _ => throw (ValidationError "Bid validation failed")
  end.

(** The effect of an update document, already cast, on a bid ([$set] of the
    keys present, and [updatedAt]). *)
Definition applyPatch (u : PartialBid) (now : Date) (b : Bid) : Bid :=
  mkBid (bid_id b)
        (default (bid_gigId b) (p_gigId u))
        (default (bid_freelancerId b) (p_freelancerId u))
        (default (bid_clientId b) (p_clientId u))
        (default (bid_amount b) (p_amount u))
        (default (bid_deliveryTime b) (p_deliveryTime u))
        (default (bid_proposal b) (p_proposal u))
        (default (bid_status b) (p_status u))
        (default (bid_attachments b) (p_attachments u))
        (bid_createdAt b) now.

(** The update document after the cast of its ObjectId paths. *)
Definition castPatch (u : PartialBid) : M PartialBid :=
  gigId <- castOptionalId "gigId" (p_gigId u) ;;
  freelancerId <- castOptionalId "freelancerId" (p_freelancerId u) ;;
  clientId <- castOptionalId "clientId" (p_clientId u) ;;
  ret (mkPartialBid gigId freelancerId clientId (p_amount u)
                    (p_deliveryTime u) (p_proposal u) (p_status u)
                    (p_attachments u)).

(** [Bid.findByIdAndUpdate(bidId, update, { new: true })]: the updated
    document, [null] when no document has this [_id]; the server refuses an
    update that moves the document onto the indexed pair of another one. *)
Definition Bid_findByIdAndUpdate (bidId : string) (u : PartialBid)
           (now : Date) : M (option Bid) :=
  id <- castObjectId "_id" bidId ;;
  u <- castPatch u ;;
  fun db =>
    match find (fun b => String.eqb (bid_id b) id) (Bids db) with
    | None => (inr None, db)
    | Some b =>
        let b' := applyPatch u now b in
        if negb (samePair b b')
           && existsb (fun x => negb (String.eqb (bid_id x) id)
                                && samePair x b') (Bids db)
        then (inl E11000, db)
        else (inr (Some b'),
              set_Bids (updateFirst (fun x => String.eqb (bid_id x) id)
                                    (applyPatch u now) (Bids db)) db)
    end.

(** [Bid.updateMany(filter, update)] with an update that leaves the indexed
    pair alone. *)
Definition Bid_updateMany (filter : Bid -> bool) (u : PartialBid)
           (now : Date) : M unit :=
  modify (fun db =>
    set_Bids (map (fun b => if filter b then applyPatch u now b else b)
                  (Bids db)) db).
End BidModel.

(** ** Populated documents *)

(** A populated reference: the selected fields of the document it names that
    the model carries. *)
Record UserCard := mkUserCard {
  card_id : ObjectId;
  card_firstName : string;
  card_lastName : string
}.

Record GigCard := mkGigCard {
  gcard_id : ObjectId;
  gcard_title : string
}.

(** A bid after [populate]: a reference whose document is missing is
    [null]. *)
Record PopulatedBid := mkPopulatedBid {
  pop_bid : Bid;
  pop_gig : option GigCard;
  pop_freelancer : option UserCard;
  pop_client : option UserCard
}.

Definition populateUser (id : ObjectId) (db : Db) : option UserCard :=
  option_map (fun u => mkUserCard (user_id u) (user_firstName u)
                                  (user_lastName u))
             (find (fun u => String.eqb (user_id u) id) (Users db)).

Definition populateGig (id : ObjectId) (db : Db) : option GigCard :=
  option_map (fun g => mkGigCard (gig_id g) (gig_title g))
             (find (fun g => String.eqb (gig_id g) id) (Gigs db)).

Definition populateBid (b : Bid) (db : Db) : PopulatedBid :=
  mkPopulatedBid b (populateGig (bid_gigId b) db)
                 (populateUser (bid_freelancerId b) db)
                 (populateUser (bid_clientId b) db).

(** [query.populate('gigId', ...).populate('freelancerId', ...)
    .populate('clientId', ...)] on the result of a [findByIdAndUpdate]: the
    references are looked up after the write. *)
Definition populated (res : option Bid) : M (option PopulatedBid) :=
  gets (fun db => option_map (fun b => populateBid b db) res).

(** ** BidsService *)

(** The [status] parameter of [updateBidStatus]: ['accepted' | 'rejected']. *)
Inductive Decision := accept | reject.

Definition Decision_status (d : Decision) : BidStatus :=
  match d with accept => accepted | reject => rejected end.

Module BidsService.
Section Service.
Context `{Platform}.

Definition notUpdatable : string :=
  "Bid not found or cannot be updated (only pending bids can be updated)".

Definition notWithdrawable : string :=
  "Bid not found or cannot be withdrawn (only pending bids can be withdrawn)".

Definition createBid (bidData : PartialBid) (freelancerId : string)
           (newId : ObjectId) (now : Date) : M Bid :=
  let gigId := p_gigId bidData in
  gig <- Gig_findById gigId ;;
  match gig with
  | None => throw (ApiError 404 "Gig not found or is not active")
  | Some gig =>
      if negb (gig_isActive gig)
      then throw (ApiError 404 "Gig not found or is not active")
      else if String.eqb (gig_freelancerId gig) freelancerId
      then throw (ApiError 400 "You cannot bid on your own gig")
      else
        gid <- castOptionalId "gigId" gigId ;;
        fid <- castObjectId "freelancerId" freelancerId ;;
        existingBid <- Bid_findOne (fun b =>
          eqb_some gid (bid_gigId b)
          && String.eqb (bid_freelancerId b) fid) ;;
        match existingBid with
        | Some _ =>
            throw (ApiError 400 "You have already placed a bid on this gig")
        | None =>
            Bid_create bidData fid (gig_freelancerId gig) newId now
        end
  end.

Definition updateBid (bidId : string) (updateData : PartialBid)
           (freelancerId : string) (now : Date) : M (option PopulatedBid) :=
  if negb (ObjectId_isValid bidId)
  then throw (ApiError 400 "Invalid bid ID")
  else
    bid <- Bid_findPending bidId "freelancerId" bid_freelancerId
                           freelancerId ;;
    match bid with
    | None =>
        throw (ApiError 404 notUpdatable)
    | Some _ =>
        updated <- Bid_findByIdAndUpdate bidId updateData now ;;
        populated updated
    end.

Definition updateBidStatus (bidId : string) (status : Decision)
           (clientId : string) (now : Date) : M (option PopulatedBid) :=
  if negb (ObjectId_isValid bidId)
  then throw (ApiError 400 "Invalid bid ID")
  else
    bid <- Bid_findPending bidId "clientId" bid_clientId clientId ;;
    match bid with
    | None =>
        throw (ApiError 404 notUpdatable)
    | Some bid =>
        _ <- match status with
             | accept =>
                 id <- castObjectId "_id" bidId ;;
                 Bid_updateMany (fun b =>
                   String.eqb (bid_gigId b) (bid_gigId bid)
                   && BidStatus_eqb (bid_status b) pending
                   && negb (String.eqb (bid_id b) id))
                   (statusPatch rejected) now
             | reject => ret tt
             end ;;
        updated <- Bid_findByIdAndUpdate bidId
                     (statusPatch (Decision_status status)) now ;;
        populated updated
    end.

Definition withdrawBid (bidId : string) (freelancerId : string)
           (now : Date) : M unit :=
  if negb (ObjectId_isValid bidId)
  then throw (ApiError 400 "Invalid bid ID")
  else
    bid <- Bid_findPending bidId "freelancerId" bid_freelancerId
                           freelancerId ;;
    match bid with
    | None =>
        throw (ApiError 404 notWithdrawable)
    | Some _ =>
        _ <- Bid_findByIdAndUpdate bidId (statusPatch withdrawn) now ;;
        ret tt
    end.
End Service.
End BidsService.

(** ** BidsController.updateBid and updateBidSchema *)

Module BidsController.
Section Controller.
Context `{Platform}.

Definition lookup (k : string) (body : list (string * JSON)) : option JSON :=
  match find (fun kv => String.eqb (fst kv) k) body with
  | Some kv => Some (snd kv)
  | None => None
  end.

(** An [.optional()] key: absent, or present and accepted by its rule. *)
Definition optionalKey {A} (k : string) (rule : JSON -> string + A)
           (body : list (string * JSON)) : string + option A :=
  match lookup k body with
  | None => inr None
  | Some v =>
      match rule v with
      | inl msg => inl msg
      | inr a => inr (Some a)
      end
  end.

Definition dquote : string := String (ascii_of_nat 34) EmptyString.

Definition updateBidSchema_keys : list string :=
  ["amount"; "deliveryTime"; "proposal"; "attachments"].

(** [updateBidSchema.validate(req.body)] on a JSON object: the keys of the
    schema in their order, then the keys the schema does not know (a
    [Joi.object] does not allow them). *)
Definition updateBidSchema_validate (body : list (string * JSON))
  : string + PartialBid :=
  match optionalKey "amount" joi_amount body with
  | inl msg => inl msg
  | inr amount =>
  match optionalKey "deliveryTime" joi_deliveryTime body with
  | inl msg => inl msg
  | inr deliveryTime =>
  match optionalKey "proposal" joi_proposal body with
  | inl msg => inl msg
  | inr proposal =>
  match optionalKey "attachments" joi_attachments body with
  | inl msg => inl msg
  | inr attachments =>
      match find (fun kv => negb (existsb (String.eqb (fst kv))
                                          updateBidSchema_keys)) body with
      | Some kv => inl (dquote ++ fst kv ++ dquote ++ " is not allowed")
      | None =>
          inr (mkPartialBid None None None amount deliveryTime proposal
                            None attachments)
      end
  end end end end.

(** The handler, from the validated body to what it passes to [res.json]
    or to [next]; [bidId] is [req.params.bidId] and [freelancerId] is
    [req.user.userId]. *)
Definition updateBid (body : list (string * JSON)) (bidId : string)
           (freelancerId : string) (now : Date) : M (option PopulatedBid) :=
  match updateBidSchema_validate body with
  | inl msg => throw (ApiError 400 msg)
  | inr value => BidsService.updateBid bidId value freelancerId now
  end.
End Controller.
End BidsController.

(** ** The [User] model *)

Section UserModel.
Context `{Platform}.

(** [User.findOne(filter)], the filter already cast. *)
Definition User_findOne (filter : User -> bool) : M (option User) :=
  gets (fun db => find filter (Users db)).

(** [userSchema.pre('save')]: the password is hashed when it was modified. *)
Definition hashPassword (salt : string) (u : User) : User :=
  mkUser (user_id u) (user_email u) (bcrypt_hash (user_password u) salt)
         (user_firstName u) (user_lastName u) (user_role u)
         (user_isActive u) (user_lastLogin u) (user_refreshToken u)
         (user_passwordResetToken u) (user_passwordResetExpires u)
         (user_createdAt u) (user_updatedAt u).

(** [new User(userData)]: setters and schema defaults. *)
Definition User_new (userData : RegisterData) (newId : ObjectId)
           (now : Date) : User :=
  mkUser newId (email_set (reg_email userData)) (reg_password userData)
         (name_set (reg_firstName userData))
         (name_set (reg_lastName userData)) (reg_role userData)
         true None None None None now now.

(** [save()] of a new document: validation, the hashing hook, insertion
    under the unique indexes on [_id] and [email]. *)
Definition User_saveNew (u : User) (salt : string) : M User :=
  if userSchema_validate u then
    let u' := hashPassword salt u in
    fun db =>
      if existsb (fun x => String.eqb (user_id x) (user_id u')
                           || String.eqb (user_email x) (user_email u'))
                 (Users db)
      then (inl (MongoServerError 11000), db)
      else (inr u', set_Users (Users db ++ [u']) db)
  else throw (ValidationError "User validation failed").

(** Writing the modified paths of a loaded document back
    ([updateOne({ _id }, { $set })]), and [findByIdAndUpdate]: [change] is
    applied to the stored document with this [_id]. *)
Definition User_update (id : ObjectId) (change : User -> User) : M unit :=
  modify (fun db =>
    set_Users (updateFirst (fun x => String.eqb (user_id x) id) change
                           (Users db)) db).

Definition touch (now : Date) (u : User) : User :=
  mkUser (user_id u) (user_email u) (user_password u)
         (user_firstName u) (user_lastName u) (user_role u)
         (user_isActive u) (user_lastLogin u) (user_refreshToken u)
         (user_passwordResetToken u) (user_passwordResetExpires u)
         (user_createdAt u) now.

Definition set_refreshToken (t : option Jwt) (u : User) : User :=
  mkUser (user_id u) (user_email u) (user_password u)
         (user_firstName u) (user_lastName u) (user_role u)
         (user_isActive u) (user_lastLogin u) t
         (user_passwordResetToken u) (user_passwordResetExpires u)
         (user_createdAt u) (user_updatedAt u).

Definition set_lastLogin (d : Date) (u : User) : User :=
  mkUser (user_id u) (user_email u) (user_password u)
         (user_firstName u) (user_lastName u) (user_role u)
         (user_isActive u) (Some d) (user_refreshToken u)
         (user_passwordResetToken u) (user_passwordResetExpires u)
         (user_createdAt u) (user_updatedAt u).

Definition set_password (pw : string) (u : User) : User :=
  mkUser (user_id u) (user_email u) pw
         (user_firstName u) (user_lastName u) (user_role u)
         (user_isActive u) (user_lastLogin u) (user_refreshToken u)
         (user_passwordResetToken u) (user_passwordResetExpires u)
         (user_createdAt u) (user_updatedAt u).

Definition set_isActive (a : bool) (u : User) : User :=
  mkUser (user_id u) (user_email u) (user_password u)
         (user_firstName u) (user_lastName u) (user_role u)
         a (user_lastLogin u) (user_refreshToken u)
         (user_passwordResetToken u) (user_passwordResetExpires u)
         (user_createdAt u) (user_updatedAt u).

Definition set_passwordReset (token : option string) (expires : option Date)
           (u : User) : User :=
  mkUser (user_id u) (user_email u) (user_password u)
         (user_firstName u) (user_lastName u) (user_role u)
         (user_isActive u) (user_lastLogin u) (user_refreshToken u)
         token expires (user_createdAt u) (user_updatedAt u).

(** [jwt.sign(payload, secret, { expiresIn })] at time [now]: [iat] is the
    time in whole seconds and [exp] is [iat] plus the span. *)
Definition jwt_sign (payload : JwtPayload) (secret : string)
           (expiresIn : Z) (now : Date) : Jwt :=
  JwtSigned payload (now / 1000) (now / 1000 + expiresIn) secret.

(** [jwt.verify(token, secret)] at time [now]. *)
Definition jwt_verify (token : Jwt) (secret : string) (now : Date)
  : M JwtPayload :=
  match token with
  | JwtOpaque _ => throw (JsonWebTokenError "jwt malformed")
  | JwtSigned payload _ exp signedWith =>
      if negb (String.eqb signedWith secret)
      then throw (JsonWebTokenError "invalid signature")
      else if exp <=? now / 1000 then throw TokenExpiredError
      else ret payload
  end.

(** [userSchema.methods.generateAuthToken]. *)
Definition generateAuthToken (u : User) (now : Date) : Jwt :=
  jwt_sign (AuthClaims (user_id u) (user_email u) (user_role u))
           (jwt_secret config) (jwt_expiresIn config) now.

(** [userSchema.methods.generateRefreshToken]. *)
Definition generateRefreshToken (u : User) (now : Date) : Jwt :=
  jwt_sign (RefreshClaims (user_id u))
           (jwt_refreshSecret config) (jwt_refreshExpiresIn config) now.

(** [userSchema.methods.comparePassword]. *)
Definition comparePassword (u : User) (candidatePassword : string) : bool :=
  bcrypt_compare candidatePassword (user_password u).

Definition userResponse (u : User) : UserResponse :=
  mkUserResponse (user_id u) (user_email u) (user_firstName u)
                 (user_lastName u) (user_role u) (user_lastLogin u)
                 (user_createdAt u).

(** [minlength: 6] of [userSchema.password], the validator of the one path
    with a validator that [changePassword] and [resetPassword] modify. *)
Definition password_validate (pw : string) : bool :=
  (6 <=? String.length pw)%nat.
End UserModel.

(** ** AuthService

    Every method wraps its body in [try { ... } catch (error) {
    logger.error(...); throw error; }], which rethrows what it caught;
    [refreshToken] is the one method whose handler does more. Each call reads
    the clock once, as [now]; [salt] is the salt [bcrypt.genSalt] draws and
    [resetToken] the hex string of [crypto.randomBytes(32)]. *)

Module AuthService.
Section Service.
Context `{Platform}.

Definition register (userData : RegisterData) (newId : ObjectId)
           (salt : string) (now : Date) : M (UserResponse * Jwt * Jwt) :=
  existingUser <- User_findOne (fun u =>
    String.eqb (user_email u) (email_set (reg_email userData))) ;;
  match existingUser with
  | Some _ => throw (ApiError 400 "User already exists with this email")
  | None =>
      user <- User_saveNew (User_new userData newId now) salt ;;
      let token := generateAuthToken user now in
      let refreshToken := generateRefreshToken user now in
      let user := set_refreshToken (Some refreshToken) user in
      _ <- User_update (user_id user)
             (fun u => touch now (set_refreshToken (Some refreshToken) u)) ;;
      ret (userResponse user, token, refreshToken)
  end.

Definition login (email password : string) (rememberMe : bool) (now : Date)
  : M (UserResponse * Jwt * Jwt) :=
  user <- User_findOne (fun u =>
    String.eqb (user_email u) (email_set email) && user_isActive u) ;;
  match user with
  | None => throw (ApiError 401 "Invalid email or password")
  | Some user =>
      if negb (comparePassword user password)
      then throw (ApiError 401 "Invalid email or password")
      else
        let token := generateAuthToken user now in
        let refreshToken := generateRefreshToken user now in
        let user := set_refreshToken (Some refreshToken)
                      (set_lastLogin now user) in
        _ <- User_update (user_id user)
               (fun u => touch now (set_refreshToken (Some refreshToken)
                                      (set_lastLogin now u))) ;;
        ret (userResponse user, token, refreshToken)
  end.

Definition logout (userId : string) (now : Date) : M unit :=
  id <- castObjectId "_id" userId ;;
  User_update id (fun u => touch now (set_refreshToken None u)).

Definition refreshToken (refreshToken : Jwt) (now : Date) : M (Jwt * Jwt) :=
  try_catch
    (decoded <- jwt_verify refreshToken (jwt_refreshSecret config) now ;;
     id <- castObjectId "_id" (payload_userId decoded) ;;
     user <- User_findOne (fun u =>
       String.eqb (user_id u) id
       && match user_refreshToken u with
          | Some stored => Jwt_eqb stored refreshToken
          | None => false
          end
       && user_isActive u) ;;
     match user with
     | None => throw (ApiError 401 "Invalid refresh token")
     | Some user =>
         let newToken := generateAuthToken user now in
         let newRefreshToken := generateRefreshToken user now in
         _ <- User_update (user_id user)
                (fun u => touch now
                            (set_refreshToken (Some newRefreshToken) u)) ;;
         ret (newToken, newRefreshToken)
     end)
    (fun error =>
       if instanceof_JsonWebTokenError error
       then throw (ApiError 401 "Invalid refresh token")
       else throw error).

Definition changePassword (userId currentPassword newPassword : string)
           (salt : string) (now : Date) : M unit :=
  id <- castObjectId "_id" userId ;;
  user <- User_findOne (fun u => String.eqb (user_id u) id) ;;
  match user with
  | None => throw (ApiError 404 "User not found")
  | Some user =>
      if negb (comparePassword user currentPassword)
      then throw (ApiError 400 "Current password is incorrect")
      else if negb (password_validate newPassword)
      then throw (ValidationError "User validation failed")
      else
        User_update (user_id user)
          (fun u => touch now (set_password (bcrypt_hash newPassword salt) u))
  end.

Definition forgotPassword (email : string) (resetToken : string)
           (now : Date) : M string :=
  user <- User_findOne (fun u =>
    String.eqb (user_email u) (email_set email) && user_isActive u) ;;
  match user with
  | None => throw (ApiError 404 "No user found with this email address")
  | Some user =>
      let hashedToken := sha256_hex resetToken in
      _ <- User_update (user_id user)
             (fun u => touch now
                (set_passwordReset (Some hashedToken)
                                   (Some (now + 10 * 60 * 1000)) u)) ;;
      ret resetToken
  end.

Definition resetPassword (token newPassword : string) (salt : string)
           (now : Date) : M unit :=
  let hashedToken := sha256_hex token in
  user <- User_findOne (fun u =>
    match user_passwordResetToken u with
    | Some stored => String.eqb stored hashedToken
    | None => false
    end
    && match user_passwordResetExpires u with
       | Some expires => now <? expires
       | None => false
       end
    && user_isActive u) ;;
  match user with
  | None => throw (ApiError 400 "Invalid or expired reset token")
  | Some user =>
      if negb (password_validate newPassword)
      then throw (ValidationError "User validation failed")
      else
        User_update (user_id user)
          (fun u => touch now
             (set_passwordReset None None
                (set_password (bcrypt_hash newPassword salt) u)))
  end.

Definition verifyToken (token : Jwt) (now : Date) : M JwtPayload :=
  try_catch (jwt_verify token (jwt_secret config) now)
    (fun error =>
       if instanceof_JsonWebTokenError error
       then throw (ApiError 401 "Invalid or expired token")
       else throw error).

Definition deactivateAccount (userId : string) (now : Date) : M unit :=
  id <- castObjectId "_id" userId ;;
  User_update id
    (fun u => touch now (set_refreshToken None (set_isActive false u))).
End Service.
End AuthService.

(** ** A platform to run the services on

    Stand-ins for the libraries, used to evaluate the services on concrete
    databases. *)

Definition isHexDigit (c : ascii) : bool :=
  let n := nat_of_ascii c in
  ((48 <=? n) && (n <=? 57) || (65 <=? n) && (n <=? 70)
   || (97 <=? n) && (n <=? 102))%nat.

(** The pattern [/^[0-9a-fA-F]{24}$/] of the request schemas. *)
Definition isHex24 (s : string) : bool :=
  (String.length s =? 24)%nat && forallb isHexDigit (list_ascii_of_string s).

Definition ascii_lower (c : ascii) : ascii :=
  let n := nat_of_ascii c in
  if ((65 <=? n) && (n <=? 90))%nat then ascii_of_nat (n + 32) else c.

Fixpoint dropSpaces (l : list ascii) : list ascii :=
  match l with
  | c :: r => if (nat_of_ascii c =? 32)%nat then dropSpaces r else l
  | [] => []
  end.

Definition trim (s : string) : string :=
  string_of_list_ascii
    (rev (dropSpaces (rev (dropSpaces (list_ascii_of_string s))))).

Definition lowercase (s : string) : string :=
  string_of_list_ascii (map ascii_lower (list_ascii_of_string s)).

Definition numberAtLeast (name : string) (lo : Q) (v : JSON)
  : string + Number :=
  match v with
  | JNum q => if Qle_bool lo q then inr q else inl (name ++ " is too small")
  | _ => inl (name ++ " must be a number")
  end.

Definition stringOf (name : string) (lo hi : nat) (v : JSON)
  : string + string :=
  match v with
  | JStr x =>
      if ((lo <=? String.length x) && (String.length x <=? hi))%nat
      then inr x else inl (name ++ " has the wrong length")
  | _ => inl (name ++ " must be a string")
  end.

Definition stringsOf (name : string) (v : JSON) : string + list string :=
  match v with
  | JArr items =>
      if forallb (fun i => match i with JStr _ => true | _ => false end) items
      then inr (flat_map (fun i => match i with JStr x => [x] | _ => [] end)
                         items)
      else inl (name ++ " must contain strings")
  | _ => inl (name ++ " must be an array")
  end.

(** The two digits of a byte in lower-case hex. *)
Definition hexDigit (n : nat) : ascii :=
  ascii_of_nat (if (n <? 10)%nat then 48 + n else 87 + n).

Fixpoint hexOfBytes (s : string) : string :=
  match s with
  | EmptyString => EmptyString
  | String c rest =>
      let n := nat_of_ascii c in
      String (hexDigit (n / 16)) (String (hexDigit (n mod 16))
                                         (hexOfBytes rest))
  end.

(** [ObjectId.isValid] on strings: 24 hex digits, or 12 bytes. *)
Definition isObjectIdString (s : string) : bool :=
  isHex24 s || (String.length s =? 12)%nat.

(** The canonical form: the hex digits in lower case, or the hex digits of
    the 12 bytes. *)
Definition canonicalId (s : string) : string :=
  if isHex24 s then lowercase s else hexOfBytes s.

Definition testPlatform : Platform := {|
  ObjectId_isValid := isObjectIdString;
  ObjectId_cast := canonicalId;
  attachmentUrl_test := String.prefix "http";
  email_set := fun s => lowercase (trim s);
  name_set := trim;
  userSchema_validate := fun u =>
    ((6 <=? String.length (user_password u))
     && (String.length (user_firstName u) <=? 50)
     && (String.length (user_lastName u) <=? 50))%nat;
  bcrypt_hash := fun plain salt => "$2b$12$" ++ plain;
  bcrypt_compare := fun candidate hash =>
    String.eqb ("$2b$12$" ++ candidate) hash;
  sha256_hex := fun s => "sha256:" ++ s;
  config := defaultConfig;
  joi_amount := numberAtLeast "amount" 5;
  joi_deliveryTime := numberAtLeast "deliveryTime" 1;
  joi_proposal := stringOf "proposal" 50 1000;
  joi_attachments := stringsOf "attachments"
|}.

(** A database with one active gig of [anna], one inactive gig of hers, and
    the bids the scenarios place on them. *)

Definition anna : ObjectId := "64b000000000000000000001".
(** The id of Anna with its hex digits in upper case. *)
Definition annaUpper : string := "64B000000000000000000001".
Definition bob : ObjectId := "64b0000000000000000000f1".
Definition carl : ObjectId := "64b0000000000000000000f2".
Definition dora : ObjectId := "64b0000000000000000000f3".
Definition logoGig : ObjectId := "64b0000000000000000000a1".
Definition pausedGig : ObjectId := "64b0000000000000000000a2".
Definition bid1 : ObjectId := "64b0000000000000000000b1".
Definition bid2 : ObjectId := "64b0000000000000000000b2".
Definition bid3 : ObjectId := "64b0000000000000000000b3".
Definition bid4 : ObjectId := "64b0000000000000000000b4".

Definition proposalText : string :=
  "I will deliver this work on time and with great care, thanks.".

Definition bidRequest (gigId : string) : PartialBid :=
  mkPartialBid (Some gigId) None None (Some (10 # 1)) (Some (3 # 1))
               (Some proposalText) None None.

Definition sampleBid (id freelancerId : ObjectId) (s : BidStatus) : Bid :=
  mkBid id logoGig freelancerId anna (10 # 1) (3 # 1) proposalText s [] 100 100.

Definition gigsOnly : Db :=
  mkDb [mkGig logoGig "Logo design" anna true;
        mkGig pausedGig "Poster design" anna false] [] [].

(** Three pending bids on the logo gig. *)
Definition threePending : Db :=
  set_Bids [sampleBid bid1 bob pending; sampleBid bid2 carl pending;
            sampleBid bid3 dora pending] gigsOnly.

(** A pending, a withdrawn and a rejected bid on the logo gig. *)
Definition mixedBids : Db :=
  set_Bids [sampleBid bid1 bob pending; sampleBid bid2 carl withdrawn;
            sampleBid bid3 dora rejected] gigsOnly.

Definition annaData : RegisterData :=
  mkRegisterData "anna@example.com" "Secret1" "Anna" "Lee" freelancer.

(** The database after Anna has registered at time 1000. *)
Definition annaRegistered : Db :=
  Eval vm_compute in
    snd (@AuthService.register testPlatform annaData anna "salt" 1000 gigsOnly).

(** ... and after she has then logged in at time 5000. *)
Definition annaLoggedIn : Db :=
  Eval vm_compute in
    snd (@AuthService.login testPlatform "anna@example.com" "Secret1" false
                            5000 annaRegistered).

(** The refresh token that login issued. *)
Definition annaToken5 : Jwt :=
  JwtSigned (RefreshClaims anna) 5 (5 + 30 * 86400) "your-refresh-secret-key".

(** The database after Anna has asked for a password reset at time 10000 and
    the random source has produced ["r4nd0m"]. *)
Definition annaForgot : Db :=
  Eval vm_compute in
    snd (@AuthService.forgotPassword testPlatform "anna@example.com" "r4nd0m"
                                     10000 annaRegistered).

(** The database after Bob has placed a bid on the logo gig. *)
Definition bobHasBid : Db :=
  Eval vm_compute in
    snd (@BidsService.createBid testPlatform (bidRequest logoGig) bob bid1 100
                                gigsOnly).

(** ** Operations as data: sequences of service calls *)

Inductive BidOp :=
| OpCreateBid (bidData : PartialBid) (freelancerId : string)
              (newId : ObjectId) (now : Date)
| OpUpdateBid (bidId : string) (updateData : PartialBid)
              (freelancerId : string) (now : Date)
| OpUpdateBidStatus (bidId : string) (status : Decision)
                    (clientId : string) (now : Date)
| OpWithdrawBid (bidId : string) (freelancerId : string) (now : Date).

Section Runs.
Context `{Platform}.

(** The database a call leaves behind, whether it returned or threw. *)
Definition runBidOp (op : BidOp) (db : Db) : Db :=
  match op with
  | OpCreateBid d f i t => snd (BidsService.createBid d f i t db)
  | OpUpdateBid b u f t => snd (BidsService.updateBid b u f t db)
  | OpUpdateBidStatus b s c t => snd (BidsService.updateBidStatus b s c t db)
  | OpWithdrawBid b f t => snd (BidsService.withdrawBid b f t db)
  end.

Definition runBidOps (ops : list BidOp) (db : Db) : Db :=
  fold_left (fun d op => runBidOp op d) ops db.

(** [Bid.findById]. *)
Definition getBid (id : ObjectId) (db : Db) : option Bid :=
  find (fun b => String.eqb (bid_id b) id) (Bids db).

(** [User.findById]. *)
Definition getUser (id : ObjectId) (db : Db) : option User :=
  find (fun u => String.eqb (user_id u) id) (Users db).

(** [Gig.findById]. *)
Definition getGig (id : ObjectId) (db : Db) : option Gig :=
  find (fun g => String.eqb (gig_id g) id) (Gigs db).

(** [Gig.findById] finds the gig and the gig is active: the condition under
    which [createBid] goes on to its second check. *)
Definition gigIsOpen (id : ObjectId) (db : Db) : bool :=
  match getGig id db with
  | Some g => gig_isActive g
  | None => false
  end.

(** The key of the unique index of [bidSchema]. *)
Definition pairOf (b : Bid) : ObjectId * ObjectId :=
  (bid_gigId b, bid_freelancerId b).
End Runs.

(** ** Facts about collections *)

Section Collections.
Context {A : Type} (key : A -> string).

Lemma same_key_same_doc (l : list A) (a b : A) :
  NoDup (map key l) -> In a l -> In b l -> key a = key b -> a = b.
Proof.
  induction l as [|x r IH]; simpl; [tauto|].
  intros Hnd Ha Hb Hk. inversion Hnd as [|? ? Hx Hr]; subst.
  destruct Ha as [->|Ha], Hb as [->|Hb]; auto.
  - exfalso. apply Hx. rewrite Hk. now apply in_map.
  - exfalso. apply Hx. rewrite <- Hk. now apply in_map.
Qed.

Lemma find_unique (P : A -> bool) (l : list A) (a : A) :
  NoDup (map key l) -> In a l -> P a = true ->
  (forall x, P x = true -> key x = key a) ->
  find P l = Some a.
Proof.
  induction l as [|x r IH]; simpl; [tauto|].
  intros Hnd Ha HP Hk. inversion Hnd as [|? ? Hx Hr]; subst.
  destruct (P x) eqn:Px.
  - destruct Ha as [->|Ha]; [reflexivity|].
    exfalso. apply Hx. rewrite (Hk _ Px). now apply in_map.
  - destruct Ha as [->|Ha]; [congruence|]. now apply IH.
Qed.

Lemma map_if_absent (k : string) (f : A -> A) (l : list A) :
  ~ In k (map key l) ->
  map (fun x => if String.eqb (key x) k then f x else x) l = l.
Proof.
  induction l as [|x r IH]; simpl; [reflexivity|].
  intros Hk. destruct (String.eqb_spec (key x) k) as [E|E].
  - exfalso. apply Hk. now left.
  - f_equal. apply IH. tauto.
Qed.

Lemma updateFirst_as_map (k : string) (f : A -> A) (l : list A) :
  NoDup (map key l) ->
  updateFirst (fun x => String.eqb (key x) k) f l
  = map (fun x => if String.eqb (key x) k then f x else x) l.
Proof.
  induction l as [|x r IH]; simpl; [reflexivity|].
  intros Hnd. inversion Hnd as [|? ? Hx Hr]; subst.
  destruct (String.eqb_spec (key x) k) as [E|E].
  - f_equal. symmetry. apply map_if_absent. now rewrite <- E.
  - f_equal. now apply IH.
Qed.

Lemma map_key_updateFirst (p : A -> bool) (f : A -> A) (l : list A) :
  (forall x, key (f x) = key x) ->
  map key (updateFirst p f l) = map key l.
Proof.
  intros Hf. induction l as [|x r IH]; simpl; [reflexivity|].
  destruct (p x); simpl; [now rewrite Hf | now rewrite IH].
Qed.

Lemma find_map_same_key (h : A -> A) (k : string) (l : list A) :
  (forall x, key (h x) = key x) ->
  find (fun x => String.eqb (key x) k) (map h l)
  = option_map h (find (fun x => String.eqb (key x) k) l).
Proof.
  intros Hh. induction l as [|x r IH]; simpl; [reflexivity|].
  rewrite Hh. destruct (String.eqb (key x) k); [reflexivity | exact IH].
Qed.
End Collections.

Lemma In_updateFirst_other {A} (p : A -> bool) (f : A -> A) (l : list A)
    (b : A) :
  In b l -> p b = false -> In b (updateFirst p f l).
Proof.
  induction l as [|x r IH]; simpl; [tauto|].
  intros [->|Hb] Hp.
  - rewrite Hp. now left.
  - destruct (p x); simpl; [now right | right; now apply IH].
Qed.

Lemma NoDup_snoc {A} (l : list A) (x : A) :
  NoDup l -> ~ In x l -> NoDup (l ++ [x]).
Proof.
  induction l as [|y r IH]; simpl; intros Hnd Hx.
  - constructor; [tauto | constructor].
  - inversion Hnd as [|? ? Hy Hr]; subst. constructor.
    + rewrite in_app_iff. simpl. intros [Hin|[->|[]]]; tauto.
    + apply IH; tauto.
Qed.

Lemma existsb_false_In {A} (p : A -> bool) (l : list A) (x : A) :
  existsb p l = false -> In x l -> p x = false.
Proof.
  intros He Hx. destruct (p x) eqn:E; [|reflexivity].
  assert (existsb p l = true) by (apply existsb_exists; eauto). congruence.
Qed.

(** ** The bid lifecycle *)

Section BidProperties.
Context `{Platform}.

(** What accepting [B] does to a bid: the update of [updateMany], then the
    update of [findByIdAndUpdate]. *)
Definition rejectSibling (B : Bid) (now : Date) (b : Bid) : Bid :=
  if String.eqb (bid_gigId b) (bid_gigId B)
     && BidStatus_eqb (bid_status b) pending
     && negb (String.eqb (bid_id b) (bid_id B))
  then applyPatch (statusPatch rejected) now b else b.

Definition patchTarget (id : ObjectId) (u : PartialBid) (now : Date)
           (b : Bid) : Bid :=
  if String.eqb (bid_id b) id then applyPatch u now b else b.

Lemma applyPatch_id u now b : bid_id (applyPatch u now b) = bid_id b.
Proof. reflexivity. Qed.

Lemma rejectSibling_id B now b : bid_id (rejectSibling B now b) = bid_id b.
Proof. unfold rejectSibling. now destruct (_ && _). Qed.

Lemma patchTarget_id id u now b : bid_id (patchTarget id u now b) = bid_id b.
Proof. unfold patchTarget. now destruct (String.eqb _ _). Qed.

Lemma samePair_refl b : samePair b b = true.
Proof. unfold samePair. now rewrite !String.eqb_refl. Qed.

Lemma samePair_statusPatch s now b :
  samePair b (applyPatch (statusPatch s) now b) = true.
Proof. exact (samePair_refl b). Qed.

Lemma BidStatus_eqb_eq a b : BidStatus_eqb a b = true <-> a = b.
Proof. destruct a, b; simpl; split; congruence. Qed.

(** The target of a status change, found by the guard query. *)
Lemma guard_finds (l : list Bid) (B : Bid) (who : Bid -> ObjectId) :
  NoDup (map bid_id l) -> In B l -> bid_status B = pending ->
  find (fun b => String.eqb (bid_id b) (bid_id B)
                 && String.eqb (who b) (who B)
                 && BidStatus_eqb (bid_status b) pending) l = Some B.
Proof.
  intros Hnd Hin Hst. apply (find_unique bid_id); auto.
  - now rewrite !String.eqb_refl, Hst.
  - intros x Hx. apply andb_prop in Hx as [Hx _].
    apply andb_prop in Hx as [Hx _]. now apply String.eqb_eq.
Qed.

Lemma Bid_findPending_run bidId path who userId db :
  ObjectId_isValid bidId = true ->
  Bid_findPending bidId path who userId db
  = if ObjectId_isValid userId
    then (inr (find (fun b =>
                 String.eqb (bid_id b) (ObjectId_cast bidId)
                 && String.eqb (who b) (ObjectId_cast userId)
                 && BidStatus_eqb (bid_status b) pending) (Bids db)), db)
    else (inl (CastError path), db).
Proof.
  intros Hv. unfold Bid_findPending, bind, castObjectId, Bid_findOne, gets,
    throw, ret.
  rewrite Hv. now destruct (ObjectId_isValid userId).
Qed.

Lemma Bid_findPending_finds (db : Db) (B : Bid) bidId path who userId :
  NoDup (map bid_id (Bids db)) -> In B (Bids db) -> bid_status B = pending ->
  ObjectId_isValid bidId = true -> ObjectId_cast bidId = bid_id B ->
  ObjectId_isValid userId = true -> ObjectId_cast userId = who B ->
  Bid_findPending bidId path who userId db = (inr (Some B), db).
Proof.
  intros Hnd Hin Hst Hv Hc Hu Hw.
  rewrite Bid_findPending_run, Hu, Hc, Hw by exact Hv.
  now rewrite guard_finds.
Qed.

Lemma castPatch_status s db :
  castPatch (statusPatch s) db = (inr (statusPatch s), db).
Proof. reflexivity. Qed.

(** A status-only update of the document with the [_id] of [B]. *)
Lemma statusUpdate_run (db : Db) (B : Bid) (bidId : string) (s : BidStatus)
      (now : Date) :
  NoDup (map bid_id (Bids db)) -> In B (Bids db) ->
  ObjectId_isValid bidId = true -> ObjectId_cast bidId = bid_id B ->
  Bid_findByIdAndUpdate bidId (statusPatch s) now db
  = (inr (Some (applyPatch (statusPatch s) now B)),
     set_Bids (map (patchTarget (bid_id B) (statusPatch s) now) (Bids db)) db).
Proof.
  intros Hnd Hin Hv Hc.
  unfold Bid_findByIdAndUpdate. unfold bind at 1. unfold castObjectId.
  rewrite Hv, Hc. cbn [ret]. unfold bind. rewrite castPatch_status.
  assert (Hf : find (fun b => String.eqb (bid_id b) (bid_id B)) (Bids db)
               = Some B).
  { apply (find_unique bid_id); auto using String.eqb_refl.
    intros x Hx. now apply String.eqb_eq. }
  rewrite Hf.
  rewrite samePair_statusPatch. cbn [negb andb].
  now rewrite (updateFirst_as_map bid_id).
Qed.

(** The database an acceptance of [B] leaves. *)
Definition accepted_db (B : Bid) (now : Date) (db : Db) : Db :=
  set_Bids (map (patchTarget (bid_id B) (statusPatch accepted) now)
                (map (rejectSibling B now) (Bids db))) db.

Lemma accept_run (db : Db) (B : Bid) (bidId caller : string) (now : Date) :
  NoDup (map bid_id (Bids db)) -> In B (Bids db) ->
  ObjectId_isValid bidId = true -> ObjectId_cast bidId = bid_id B ->
  ObjectId_isValid caller = true -> ObjectId_cast caller = bid_clientId B ->
  bid_status B = pending ->
  BidsService.updateBidStatus bidId accept caller now db
  = (inr (Some (populateBid (applyPatch (statusPatch accepted) now B)
                            (accepted_db B now db))),
     accepted_db B now db).
Proof.
  intros Hnd Hin Hv Hi Hc Hw Hst.
  unfold BidsService.updateBidStatus. rewrite Hv. cbn [negb].
  unfold bind at 1.
  rewrite (Bid_findPending_finds db B bidId "clientId" bid_clientId caller)
    by assumption.
  unfold bind at 1. unfold bind at 1. unfold castObjectId.
  rewrite Hv, Hi. cbn [ret]. unfold Bid_updateMany, modify.
  set (db1 := set_Bids _ db).
  assert (Hb : Bids db1 = map (rejectSibling B now) (Bids db)) by reflexivity.
  assert (Hin1 : In B (Bids db1)).
  { rewrite Hb. apply in_map_iff. exists B. split; [|assumption].
    unfold rejectSibling. rewrite !String.eqb_refl. cbn [negb].
    now rewrite andb_false_r. }
  assert (Hnd1 : NoDup (map bid_id (Bids db1))).
  { rewrite Hb, map_map.
    erewrite map_ext; [exact Hnd|]. intros; apply rejectSibling_id. }
  cbn [Decision_status]. unfold bind at 1.
  rewrite (statusUpdate_run db1 B bidId accepted now Hnd1 Hin1 Hv Hi).
  unfold populated, gets. cbn [option_map]. unfold accepted_db.
  now rewrite Hb.
Qed.

(** C1. Accepting a pending bid [B] as the client recorded on it returns
    [B] with status [accepted] (populated from the database the call
    leaves) and leaves a database in which [B] is accepted, every other bid
    on the same gig that was pending is rejected, and every other bid on
    that gig that was rejected or withdrawn is the same document as before.
    [bidId] and [caller] are any spellings of the id of [B] and of its
    client. *)
Theorem accept_rejects_pending_siblings
  (db : Db) (B : Bid) (bidId caller : string) (now : Date) :
  NoDup (map bid_id (Bids db)) ->
  In B (Bids db) ->
  ObjectId_isValid bidId = true ->
  ObjectId_cast bidId = bid_id B ->
  ObjectId_isValid caller = true ->
  bid_status B = pending ->
  bid_clientId B = ObjectId_cast caller ->
  exists B' db',
    BidsService.updateBidStatus bidId accept caller now db
    = (inr (Some (populateBid B' db')), db')
    /\ bid_status B' = accepted
    /\ getBid (bid_id B) db' = Some B'
    /\ forall b, In b (Bids db) -> bid_id b <> bid_id B ->
                 bid_gigId b = bid_gigId B ->
         exists b', getBid (bid_id b) db' = Some b'
           /\ (bid_status b = pending -> bid_status b' = rejected)
           /\ (bid_status b = rejected \/ bid_status b = withdrawn -> b' = b).
Proof.
  intros Hnd Hin Hv Hi Hc Hst Hw.
  eexists _, _. split; [apply (accept_run db B); auto|].
  split; [reflexivity|].
  assert (Hget : forall b, In b (Bids db) ->
            getBid (bid_id b) (accepted_db B now db)
            = Some (patchTarget (bid_id B) (statusPatch accepted) now
                                (rejectSibling B now b))).
  { intros b Hb. unfold getBid, accepted_db. cbn [Bids set_Bids].
    rewrite map_map.
    rewrite (find_map_same_key bid_id)
      by (intros; now rewrite patchTarget_id, rejectSibling_id).
    replace (find (fun x => String.eqb (bid_id x) (bid_id b)) (Bids db))
      with (Some b); [reflexivity|].
    symmetry. apply (find_unique bid_id); auto using String.eqb_refl.
    intros x Hx. now apply String.eqb_eq. }
  split.
  - rewrite (Hget B Hin). unfold patchTarget, rejectSibling.
    rewrite !String.eqb_refl. cbn [negb]. rewrite andb_false_r.
    now rewrite String.eqb_refl.
  - intros b Hb Hne Hg. eexists. split; [apply (Hget b Hb)|].
    unfold patchTarget, rejectSibling. rewrite Hg, String.eqb_refl.
    apply String.eqb_neq in Hne. rewrite Hne. cbn [negb andb].
    destruct (bid_status b) eqn:Hs; cbn [BidStatus_eqb andb];
      rewrite ?applyPatch_id, Hne; split; try reflexivity; try discriminate;
      try (intros [?|?]; discriminate); intros; reflexivity.
Qed.

(** *** What each service call can do to the collection *)

(** An update document with its ObjectId paths cast. *)
Definition castedPatch (u : PartialBid) : PartialBid :=
  mkPartialBid (option_map ObjectId_cast (p_gigId u))
               (option_map ObjectId_cast (p_freelancerId u))
               (option_map ObjectId_cast (p_clientId u))
               (p_amount u) (p_deliveryTime u) (p_proposal u) (p_status u)
               (p_attachments u).

Lemma castPatch_inv u db r db' :
  castPatch u db = (r, db') ->
  db' = db /\ ((exists e, r = inl e) \/ r = inr (castedPatch u)).
Proof.
  unfold castPatch, castedPatch, bind, castOptionalId, bind, castObjectId,
    throw, ret.
  intros E.
  destruct (p_gigId u) as [g|];
    [destruct (ObjectId_isValid g); [|inversion E; eauto]|];
    (destruct (p_freelancerId u) as [f|];
     [destruct (ObjectId_isValid f); [|inversion E; eauto]|]);
    (destruct (p_clientId u) as [c|];
     [destruct (ObjectId_isValid c); [|inversion E; eauto]|]);
    inversion E; auto.
Qed.

Lemma castPatch_noIds u db :
  p_gigId u = None -> p_freelancerId u = None -> p_clientId u = None ->
  castPatch u db = (inr u, db).
Proof.
  destruct u as [g f c a t p st at']. cbn. now intros -> -> ->.
Qed.

(** What a call that ends in [populate] returns. *)
Definition populatedResult (r : Error + option Bid) (db : Db)
  : Error + option PopulatedBid :=
  match r with
  | inl e => inl e
  | inr res => inr (option_map (fun b => populateBid b db) res)
  end.

Lemma populated_run (m : M (option Bid)) db r0 db' :
  m db = (r0, db') ->
  (updated <- m ;; populated updated) db = (populatedResult r0 db', db').
Proof.
  intros E. unfold bind, populated, gets. rewrite E. now destruct r0.
Qed.

Lemma Bid_findByIdAndUpdate_inv bidId u now db r db' :
  Bid_findByIdAndUpdate bidId u now db = (r, db') ->
  (db' = db
   /\ ((exists e, r = inl e)
       \/ (r = inr None
           /\ find (fun x => String.eqb (bid_id x) (ObjectId_cast bidId))
                   (Bids db) = None)))
  \/ exists b,
       find (fun x => String.eqb (bid_id x) (ObjectId_cast bidId)) (Bids db)
       = Some b
       /\ r = inr (Some (applyPatch (castedPatch u) now b))
       /\ (samePair b (applyPatch (castedPatch u) now b) = true
           \/ existsb (fun x => negb (String.eqb (bid_id x)
                                                  (ObjectId_cast bidId))
                                && samePair x
                                     (applyPatch (castedPatch u) now b))
                      (Bids db) = false)
       /\ db' = set_Bids (updateFirst
                            (fun x => String.eqb (bid_id x)
                                                 (ObjectId_cast bidId))
                            (applyPatch (castedPatch u) now) (Bids db)) db.
Proof.
  unfold Bid_findByIdAndUpdate. unfold bind at 1. unfold castObjectId, throw,
    ret.
  intros E.
  destruct (ObjectId_isValid bidId); [|left; inversion E; eauto].
  unfold bind in E.
  destruct (castPatch u db) as [rc db0] eqn:Hc.
  apply castPatch_inv in Hc as [-> [[e ->]| ->]]; [left; inversion E; eauto|].
  destruct (find _ (Bids db)) as [b|] eqn:Hf; [|left; inversion E; eauto].
  destruct (samePair b (applyPatch (castedPatch u) now b)) eqn:Hs;
    cbn [negb andb] in E; [right; exists b; inversion E; subst; auto 6|].
  destruct (existsb _ (Bids db)) eqn:He;
    [left; inversion E; eauto
    | right; exists b; inversion E; subst; auto 6].
Qed.

Lemma createBid_inv d fid newId now db r db' :
  BidsService.createBid d fid newId now db = (r, db') ->
  (db' = db /\ exists e, r = inl e)
  \/ exists gid g b,
       p_gigId d = Some gid
       /\ ObjectId_isValid gid = true
       /\ ObjectId_isValid fid = true
       /\ find (fun x => String.eqb (gig_id x) (ObjectId_cast gid)) (Gigs db)
          = Some g
       /\ gig_isActive g = true
       /\ gig_freelancerId g <> fid
       /\ find (fun x => String.eqb (bid_gigId x) (ObjectId_cast gid)
                         && String.eqb (bid_freelancerId x)
                                       (ObjectId_cast fid))
               (Bids db) = None
       /\ existsb (fun x => String.eqb (bid_id x) newId || samePair x b)
                  (Bids db) = false
       /\ bid_id b = newId /\ bid_gigId b = ObjectId_cast gid
       /\ bid_freelancerId b = ObjectId_cast fid
       /\ bid_clientId b = gig_freelancerId g
       /\ r = inr b
       /\ db' = set_Bids (Bids db ++ [b]) db.
Proof.
  unfold BidsService.createBid, Gig_findById, Bid_findOne, Bid_create,
    Bid_insert, castOptionalId, bind, castObjectId, gets, throw, ret.
  intros E.
  destruct (p_gigId d) as [gid|] eqn:Hg; [|left; inversion E; eauto].
  destruct (ObjectId_isValid gid) eqn:Hv; [|left; inversion E; eauto].
  destruct (find _ (Gigs db)) as [g|] eqn:Hf; [|left; inversion E; eauto].
  destruct (gig_isActive g) eqn:Ha; cbn [negb] in E;
    [|left; inversion E; eauto].
  destruct (String.eqb_spec (gig_freelancerId g) fid) as [Eo|Eo];
    [left; inversion E; eauto|].
  destruct (ObjectId_isValid fid) eqn:Hvf; [|left; inversion E; eauto].
  cbn [eqb_some] in E.
  destruct (find _ (Bids db)) as [x|] eqn:Hx; [left; inversion E; eauto|].
  destruct (p_amount d) as [a|]; [|left; inversion E; eauto].
  destruct (p_deliveryTime d) as [t|]; [|left; inversion E; eauto].
  destruct (p_proposal d) as [p|]; [|left; inversion E; eauto].
  destruct (bidSchema_validate _); [|left; inversion E; eauto].
  match type of E with context [existsb ?f ?l] =>
    destruct (existsb f l) eqn:He end; [left; inversion E; eauto|].
  right. inversion E; subst. do 3 eexists.
  repeat (split; [try reflexivity; try eassumption|]); try reflexivity.
Qed.

Lemma Bid_findPending_inv bidId path who userId db r db' :
  ObjectId_isValid bidId = true ->
  Bid_findPending bidId path who userId db = (r, db') ->
  db' = db
  /\ ((exists e, r = inl e) \/ r = inr None
      \/ exists g, r = inr (Some g) /\ In g (Bids db)
                   /\ bid_id g = ObjectId_cast bidId
                   /\ who g = ObjectId_cast userId
                   /\ bid_status g = pending).
Proof.
  intros Hv. rewrite Bid_findPending_run by exact Hv.
  destruct (ObjectId_isValid userId); [|intros E; inversion E; eauto].
  destruct (find _ (Bids db)) as [g|] eqn:Hf; intros E; inversion E; subst;
    split; auto.
  right. right. exists g. apply find_some in Hf as [Hin Hp].
  apply andb_prop in Hp as [Hp Hs]. apply andb_prop in Hp as [Hi Hw].
  apply String.eqb_eq in Hi, Hw. apply BidStatus_eqb_eq in Hs. auto.
Qed.

Lemma updateBid_inv bidId u fid now db r db' :
  BidsService.updateBid bidId u fid now db = (r, db') ->
  (db' = db /\ exists e, r = inl e)
  \/ exists g r0,
       In g (Bids db) /\ bid_id g = ObjectId_cast bidId
       /\ bid_freelancerId g = ObjectId_cast fid
       /\ bid_status g = pending
       /\ Bid_findByIdAndUpdate bidId u now db = (r0, db')
       /\ r = populatedResult r0 db'.
Proof.
  unfold BidsService.updateBid, throw.
  intros E.
  destruct (ObjectId_isValid bidId) eqn:Hv; cbn [negb] in E;
    [|left; inversion E; eauto].
  unfold bind at 1 in E.
  destruct (Bid_findPending _ _ _ _ db) as [rg db0] eqn:Hg.
  apply Bid_findPending_inv in Hg
    as [-> [[e ->]|[->|(g & -> & Hin & Hi & Hw & Hs)]]];
    [left; inversion E; eauto | left; inversion E; eauto | | exact Hv].
  destruct (Bid_findByIdAndUpdate bidId u now db) as [r0 db1] eqn:Hu.
  rewrite (populated_run _ _ _ _ Hu) in E. inversion E; subst.
  right. exists g, r0. auto 7.
Qed.

Lemma withdrawBid_inv bidId fid now db r db' :
  BidsService.withdrawBid bidId fid now db = (r, db') ->
  db' = db
  \/ exists g r0,
       In g (Bids db) /\ bid_id g = ObjectId_cast bidId
       /\ bid_freelancerId g = ObjectId_cast fid
       /\ bid_status g = pending
       /\ Bid_findByIdAndUpdate bidId (statusPatch withdrawn) now db
          = (r0, db').
Proof.
  unfold BidsService.withdrawBid, throw.
  intros E.
  destruct (ObjectId_isValid bidId) eqn:Hv; cbn [negb] in E;
    [|left; congruence].
  unfold bind at 1 in E.
  destruct (Bid_findPending _ _ _ _ db) as [rg db0] eqn:Hg.
  apply Bid_findPending_inv in Hg
    as [-> [[e ->]|[->|(g & -> & Hin & Hi & Hw & Hs)]]];
    [left; congruence | left; congruence | | exact Hv].
  unfold bind, ret in E.
  destruct (Bid_findByIdAndUpdate bidId (statusPatch withdrawn) now db)
    as [r0 db1] eqn:Hu.
  right. exists g, r0. repeat (split; [assumption|]).
  destruct r0; inversion E; reflexivity.
Qed.

Lemma updateBidStatus_inv bidId st cid now db r db' :
  BidsService.updateBidStatus bidId st cid now db = (r, db') ->
  (db' = db /\ exists e, r = inl e)
  \/ exists g db1 r0,
       In g (Bids db) /\ bid_id g = ObjectId_cast bidId
       /\ bid_clientId g = ObjectId_cast cid
       /\ bid_status g = pending
       /\ (db1 = db \/ (st = accept
             /\ db1 = set_Bids (map (rejectSibling g now) (Bids db)) db))
       /\ Bid_findByIdAndUpdate bidId (statusPatch (Decision_status st))
                                now db1 = (r0, db')
       /\ r = populatedResult r0 db'.
Proof.
  unfold BidsService.updateBidStatus, throw.
  intros E.
  destruct (ObjectId_isValid bidId) eqn:Hv; cbn [negb] in E;
    [|left; inversion E; eauto].
  unfold bind at 1 in E.
  destruct (Bid_findPending _ _ _ _ db) as [rg db0] eqn:Hg.
  apply Bid_findPending_inv in Hg
    as [-> [[e ->]|[->|(g & -> & Hin & Hi & Hw & Hs)]]];
    [left; inversion E; eauto | left; inversion E; eauto | | exact Hv].
  right. unfold bind at 1 in E.
  destruct st.
  - unfold bind at 1, castObjectId, Bid_updateMany, modify, ret in E.
    rewrite Hv in E. rewrite <- Hi in E.
    fold (rejectSibling g now) in E.
    set (db1 := set_Bids (map (rejectSibling g now) (Bids db)) db) in *.
    destruct (Bid_findByIdAndUpdate bidId
                (statusPatch (Decision_status accept)) now db1)
      as [r0 db2] eqn:Hu.
    rewrite (populated_run _ _ _ _ Hu) in E. inversion E; subst.
    exists g, db1, r0. auto 10.
  - unfold ret in E.
    destruct (Bid_findByIdAndUpdate bidId
                (statusPatch (Decision_status reject)) now db)
      as [r0 db2] eqn:Hu.
    rewrite (populated_run _ _ _ _ Hu) in E. inversion E; subst.
    exists g, db, r0. auto 10.
Qed.

(** *** The uniqueness invariants of the collections *)

Definition uniqueIds (db : Db) : Prop := NoDup (map bid_id (Bids db)).

Definition uniqueGigIds (db : Db) : Prop := NoDup (map gig_id (Gigs db)).

Definition uniquePairs (db : Db) : Prop := NoDup (map pairOf (Bids db)).

Lemma samePair_eq a b : samePair a b = true <-> pairOf a = pairOf b.
Proof.
  unfold samePair, pairOf. rewrite andb_true_iff, !String.eqb_eq.
  split; [intros [-> ->]; reflexivity | intros E; inversion E; auto].
Qed.

Lemma same_pair_same_doc (l : list Bid) (a b : Bid) :
  NoDup (map pairOf l) -> In a l -> In b l -> pairOf a = pairOf b -> a = b.
Proof.
  induction l as [|x r IH]; simpl; [tauto|].
  intros Hnd Ha Hb Hk. inversion Hnd as [|? ? Hx Hr]; subst.
  destruct Ha as [->|Ha], Hb as [->|Hb]; auto.
  - exfalso. apply Hx. rewrite Hk. now apply in_map.
  - exfalso. apply Hx. rewrite <- Hk. now apply in_map.
Qed.

Lemma rejectSibling_pair B now b : pairOf (rejectSibling B now b) = pairOf b.
Proof. unfold rejectSibling. now destruct (_ && _). Qed.

Lemma NoDup_pairs_replace (k : ObjectId) (b' : Bid) (l : list Bid) :
  NoDup (map bid_id l) -> NoDup (map pairOf l) ->
  (forall x, In x l -> bid_id x <> k -> pairOf x <> pairOf b') ->
  NoDup (map pairOf
           (map (fun x => if String.eqb (bid_id x) k then b' else x) l)).
Proof.
  induction l as [|x r IH]; simpl; [constructor|].
  intros Hi Hp Hc.
  inversion Hi as [|? ? Hxi Hri]; inversion Hp as [|? ? Hxp Hrp]; subst.
  constructor; [|apply IH; auto].
  rewrite map_map, in_map_iff. intros [y [Hy Hin]].
  destruct (String.eqb_spec (bid_id x) k) as [Ex|Ex];
    destruct (String.eqb_spec (bid_id y) k) as [Ey|Ey].
  - apply Hxi. rewrite Ex, <- Ey. now apply in_map.
  - now apply (Hc y); auto.
  - apply (Hc x); auto.
  - apply Hxp. rewrite <- Hy. now apply in_map.
Qed.

Lemma update_keeps_ids id u now db r db' :
  Bid_findByIdAndUpdate id u now db = (r, db') ->
  map bid_id (Bids db') = map bid_id (Bids db).
Proof.
  intros E. apply Bid_findByIdAndUpdate_inv in E
    as [[-> _]|[b [_ [_ [_ ->]]]]]; [reflexivity|].
  cbn [Bids set_Bids]. now apply map_key_updateFirst.
Qed.

Lemma update_keeps_others id u now db r db' x :
  Bid_findByIdAndUpdate id u now db = (r, db') ->
  In x (Bids db) -> bid_id x <> ObjectId_cast id -> In x (Bids db').
Proof.
  intros E Hx Hne.
  destruct (Bid_findByIdAndUpdate_inv _ _ _ _ _ _ E)
    as [[-> _]|[b [_ [_ [_ ->]]]]]; [assumption|].
  cbn [Bids set_Bids]. apply In_updateFirst_other; [assumption|].
  now apply String.eqb_neq.
Qed.

Lemma update_keeps_pairs id u now db r db' :
  Bid_findByIdAndUpdate id u now db = (r, db') ->
  uniqueIds db -> uniquePairs db -> uniquePairs db'.
Proof.
  unfold uniqueIds, uniquePairs. intros E Hi Hp.
  apply Bid_findByIdAndUpdate_inv in E
    as [[-> _]|[b [Hf [_ [Hc ->]]]]]; [assumption|].
  cbn [Bids set_Bids]. rewrite (updateFirst_as_map bid_id) by assumption.
  apply find_some in Hf as [Hb Hk]. apply String.eqb_eq in Hk.
  rewrite (map_ext_in _
    (fun x => if String.eqb (bid_id x) (ObjectId_cast id)
              then applyPatch (castedPatch u) now b else x)).
  - apply NoDup_pairs_replace; auto.
    intros x Hx Hne Heq. destruct Hc as [Hc|Hc].
    + apply samePair_eq in Hc. apply Hne. rewrite <- Hk. f_equal.
      apply (same_pair_same_doc (Bids db)); auto. congruence.
    + apply (existsb_false_In _ _ x) in Hc; [|assumption]. cbv beta in Hc.
      apply String.eqb_neq in Hne. rewrite Hne in Hc. cbn [negb andb] in Hc.
      apply samePair_eq in Heq. congruence.
  - intros x Hx.
    destruct (String.eqb_spec (bid_id x) (ObjectId_cast id)) as [Ex|Ex];
      [|reflexivity].
    f_equal. apply (same_key_same_doc bid_id (Bids db)); auto. congruence.
Qed.

Lemma runBidOp_uniqueIds op db : uniqueIds db -> uniqueIds (runBidOp op db).
Proof.
  unfold uniqueIds. intros Hi. destruct op; cbn [runBidOp].
  - destruct (BidsService.createBid _ _ _ _ db) as [r db'] eqn:E.
    apply createBid_inv in E as [[-> _]|E]; [assumption|].
    destruct E as (gid & g & b & _ & _ & _ & _ & _ & _ & _ & He & Hid & _ & _
                   & _ & _ & ->).
    cbn [snd Bids set_Bids]. rewrite map_app. apply NoDup_snoc; [assumption|].
    cbn [map]. rewrite in_map_iff. intros [x [Hx Hin]].
    apply (existsb_false_In _ _ x) in He; [|assumption]. cbv beta in He.
    apply orb_false_elim in He as [He _]. apply String.eqb_neq in He.
    congruence.
  - destruct (BidsService.updateBid _ _ _ _ db) as [r db'] eqn:E.
    apply updateBid_inv in E as [[-> _]|(g & r0 & _ & _ & _ & _ & E & _)];
      [assumption|].
    cbn [snd]. now rewrite (update_keeps_ids _ _ _ _ _ _ E).
  - destruct (BidsService.updateBidStatus _ _ _ _ db) as [r db'] eqn:E.
    apply updateBidStatus_inv in E
      as [[-> _]|(g & db1 & r0 & _ & _ & _ & _ & H1 & E & _)]; [assumption|].
    cbn [snd]. rewrite (update_keeps_ids _ _ _ _ _ _ E).
    destruct H1 as [->|[_ ->]]; [assumption|].
    cbn [Bids set_Bids]. rewrite map_map.
    erewrite map_ext; [exact Hi|]. intros; apply rejectSibling_id.
  - destruct (BidsService.withdrawBid _ _ _ db) as [r db'] eqn:E.
    apply withdrawBid_inv in E as [->|(g & r0 & _ & _ & _ & _ & E)];
      [assumption|].
    cbn [snd]. now rewrite (update_keeps_ids _ _ _ _ _ _ E).
Qed.

Lemma runBidOp_uniquePairs op db :
  uniqueIds db -> uniquePairs db -> uniquePairs (runBidOp op db).
Proof.
  intros Hi Hp. destruct op; cbn [runBidOp].
  - destruct (BidsService.createBid _ _ _ _ db) as [r db'] eqn:E.
    apply createBid_inv in E as [[-> _]|E]; [assumption|].
    destruct E as (gid & g & b & _ & _ & _ & _ & _ & _ & _ & He & _ & _ & _
                   & _ & _ & ->).
    unfold uniquePairs. cbn [snd Bids set_Bids]. rewrite map_app.
    apply NoDup_snoc; [assumption|].
    cbn [map]. rewrite in_map_iff. intros [x [Hx Hin]].
    apply (existsb_false_In _ _ x) in He; [|assumption]. cbv beta in He.
    apply orb_false_elim in He as [_ He]. apply samePair_eq in Hx.
    congruence.
  - destruct (BidsService.updateBid _ _ _ _ db) as [r db'] eqn:E.
    apply updateBid_inv in E as [[-> _]|(g & r0 & _ & _ & _ & _ & E & _)];
      [assumption|].
    cbn [snd]. exact (update_keeps_pairs _ _ _ _ _ _ E Hi Hp).
  - destruct (BidsService.updateBidStatus _ _ _ _ db) as [r db'] eqn:E.
    apply updateBidStatus_inv in E
      as [[-> _]|(g & db1 & r0 & _ & _ & _ & _ & H1 & E & _)]; [assumption|].
    cbn [snd]. apply (update_keeps_pairs _ _ _ _ _ _ E).
    + destruct H1 as [->|[_ ->]]; [assumption|].
      unfold uniqueIds. cbn [Bids set_Bids]. rewrite map_map.
      erewrite map_ext; [exact Hi|]. intros; apply rejectSibling_id.
    + destruct H1 as [->|[_ ->]]; [assumption|].
      unfold uniquePairs. cbn [Bids set_Bids]. rewrite map_map.
      erewrite map_ext; [exact Hp|]. intros; apply rejectSibling_pair.
  - destruct (BidsService.withdrawBid _ _ _ db) as [r db'] eqn:E.
    apply withdrawBid_inv in E as [->|(g & r0 & _ & _ & _ & _ & E)];
      [assumption|].
    cbn [snd]. exact (update_keeps_pairs _ _ _ _ _ _ E Hi Hp).
Qed.

Lemma runBidOps_invariants ops db :
  uniqueIds db -> uniquePairs db ->
  uniqueIds (runBidOps ops db) /\ uniquePairs (runBidOps ops db).
Proof.
  revert db. induction ops as [|op ops IH]; intros db Hi Hp; [now split|].
  apply IH; [now apply runBidOp_uniqueIds | now apply runBidOp_uniquePairs].
Qed.

(** A bid that is no longer pending is still in the collection, unchanged,
    after any one service call. *)
Lemma runBidOp_keeps_terminal op db b :
  uniqueIds db -> In b (Bids db) -> bid_status b <> pending ->
  In b (Bids (runBidOp op db)).
Proof.
  unfold uniqueIds. intros Hi Hb Hs.
  assert (Hother : forall g, In g (Bids db) -> bid_status g = pending ->
                             bid_id b <> bid_id g).
  { intros g Hg Hgs Heq. apply Hs. rewrite <- Hgs. f_equal.
    now apply (same_key_same_doc bid_id (Bids db)). }
  destruct op; cbn [runBidOp].
  - destruct (BidsService.createBid _ _ _ _ db) as [r db'] eqn:E.
    apply createBid_inv in E as [[-> _]|E]; [assumption|].
    destruct E as (gid & g & b0 & _ & _ & _ & _ & _ & _ & _ & _ & _ & _ & _
                   & _ & _ & ->).
    cbn [snd Bids set_Bids]. apply in_or_app. now left.
  - destruct (BidsService.updateBid _ _ _ _ db) as [r db'] eqn:E.
    apply updateBid_inv in E
      as [[-> _]|(g & r0 & Hg & Hid & _ & Hgs & E & _)]; [assumption|].
    cbn [snd]. apply (update_keeps_others _ _ _ _ _ _ b E); [assumption|].
    rewrite <- Hid. now apply Hother.
  - destruct (BidsService.updateBidStatus _ _ _ _ db) as [r db'] eqn:E.
    apply updateBidStatus_inv in E
      as [[-> _]|(g & db1 & r0 & Hg & Hid & _ & Hgs & H1 & E & _)];
      [assumption|].
    cbn [snd]. apply (update_keeps_others _ _ _ _ _ _ b E).
    + destruct H1 as [->|[_ ->]]; [assumption|].
      cbn [Bids set_Bids]. apply in_map_iff. exists b. split; [|assumption].
      unfold rejectSibling.
      destruct (bid_status b); try congruence; cbn [BidStatus_eqb];
        now rewrite andb_false_r.
    + rewrite <- Hid. now apply Hother.
  - destruct (BidsService.withdrawBid _ _ _ db) as [r db'] eqn:E.
    apply withdrawBid_inv in E as [->|(g & r0 & Hg & Hid & _ & Hgs & E)];
      [assumption|].
    cbn [snd]. apply (update_keeps_others _ _ _ _ _ _ b E); [assumption|].
    rewrite <- Hid. now apply Hother.
Qed.

(** C2. A bid whose status is accepted, rejected or withdrawn is never
    changed again: after any sequence of [createBid], [updateBid],
    [updateBidStatus] (with its cascade) and [withdrawBid] calls, with any
    arguments, looking the bid up by its id gives the same document, so the
    same status. *)
Theorem terminal_status_is_final (ops : list BidOp) (db : Db) (b : Bid) :
  uniqueIds db ->
  In b (Bids db) ->
  bid_status b <> pending ->
  getBid (bid_id b) (runBidOps ops db) = Some b.
Proof.
  intros Hi Hb Hs.
  assert (Hinv : uniqueIds (runBidOps ops db)
                 /\ In b (Bids (runBidOps ops db))).
  { revert db Hi Hb. induction ops as [|op ops IH]; intros db Hi Hb;
      [now split|].
    apply IH; [now apply runBidOp_uniqueIds
              | now apply runBidOp_keeps_terminal]. }
  destruct Hinv as [Hi' Hb']. unfold getBid.
  apply (find_unique bid_id); auto using String.eqb_refl.
  intros x Hx. now apply String.eqb_eq.
Qed.

Lemma createBid_keeps_gigs d fid newId now db r db' :
  BidsService.createBid d fid newId now db = (r, db') -> Gigs db' = Gigs db.
Proof.
  intros E. apply createBid_inv in E as [[-> _]|E]; [reflexivity|].
  destruct E as (gid & g & b & _ & _ & _ & _ & _ & _ & _ & _ & _ & _ & _ & _
                 & _ & ->).
  reflexivity.
Qed.

Lemma update_keeps_gigs_users id u now db r db' :
  Bid_findByIdAndUpdate id u now db = (r, db') ->
  Gigs db' = Gigs db /\ Users db' = Users db.
Proof.
  intros E. apply Bid_findByIdAndUpdate_inv in E
    as [[-> _]|[b [_ [_ [_ ->]]]]]; split; reflexivity.
Qed.

Lemma runBidOp_keeps_gigs op db : Gigs (runBidOp op db) = Gigs db.
Proof.
  destruct op; cbn [runBidOp].
  - destruct (BidsService.createBid _ _ _ _ db) as [r db'] eqn:E.
    exact (createBid_keeps_gigs _ _ _ _ _ _ _ E).
  - destruct (BidsService.updateBid _ _ _ _ db) as [r db'] eqn:E.
    apply updateBid_inv in E
      as [[-> _]|(g & r0 & _ & _ & _ & _ & E & _)]; [reflexivity|].
    cbn [snd]. now destruct (update_keeps_gigs_users _ _ _ _ _ _ E).
  - destruct (BidsService.updateBidStatus _ _ _ _ db) as [r db'] eqn:E.
    apply updateBidStatus_inv in E
      as [[-> _]|(g & db1 & r0 & _ & _ & _ & _ & H1 & E & _)]; [reflexivity|].
    cbn [snd]. destruct (update_keeps_gigs_users _ _ _ _ _ _ E) as [-> _].
    now destruct H1 as [->|[_ ->]].
  - destruct (BidsService.withdrawBid _ _ _ db) as [r db'] eqn:E.
    apply withdrawBid_inv in E as [->|(g & r0 & _ & _ & _ & _ & E)];
      [reflexivity|].
    cbn [snd]. now destruct (update_keeps_gigs_users _ _ _ _ _ _ E).
Qed.

Lemma runBidOps_keeps_gigs ops db : Gigs (runBidOps ops db) = Gigs db.
Proof.
  revert db. induction ops as [|op ops IH]; intros db; [reflexivity|].
  cbn [runBidOps fold_left]. fold (runBidOps ops (runBidOp op db)).
  now rewrite IH, runBidOp_keeps_gigs.
Qed.

(** [createBid], query by query. *)
Lemma createBid_unfold d fid newId now db :
  BidsService.createBid d fid newId now db
  = match p_gigId d with
    | None => (inl (ApiError 404 "Gig not found or is not active"), db)
    | Some gid =>
        if ObjectId_isValid gid
        then
          match find (fun x => String.eqb (gig_id x) (ObjectId_cast gid))
                     (Gigs db) with
          | None => (inl (ApiError 404 "Gig not found or is not active"), db)
          | Some g =>
              if negb (gig_isActive g)
              then (inl (ApiError 404 "Gig not found or is not active"), db)
              else if String.eqb (gig_freelancerId g) fid
              then (inl (ApiError 400 "You cannot bid on your own gig"), db)
              else if ObjectId_isValid fid
              then
                match find (fun x =>
                        String.eqb (bid_gigId x) (ObjectId_cast gid)
                        && String.eqb (bid_freelancerId x)
                                      (ObjectId_cast fid)) (Bids db) with
                | Some _ =>
                    (inl (ApiError 400
                            "You have already placed a bid on this gig"), db)
                | None =>
                    Bid_create d (ObjectId_cast fid) (gig_freelancerId g)
                               newId now db
                end
              else (inl (CastError "freelancerId"), db)
          end
        else (inl (CastError "_id"), db)
    end.
Proof.
  unfold BidsService.createBid, Gig_findById, Bid_findOne, castOptionalId,
    bind, castObjectId, gets, throw, ret.
  destruct (p_gigId d) as [gid|]; [|reflexivity].
  destruct (ObjectId_isValid gid); [|reflexivity].
  destruct (find _ (Gigs db)) as [g|]; [|reflexivity].
  destruct (negb _); [reflexivity|].
  destruct (String.eqb _ fid); [reflexivity|].
  destruct (ObjectId_isValid fid); [|reflexivity].
  cbn [eqb_some]. now destruct (find _ (Bids db)).
Qed.

(** While a bid of a gig and a freelancer is stored, [createBid] for that
    pair, in any spelling, throws and writes nothing. *)
Lemma createBid_of_stored_pair d gid fid newId now db x :
  In x (Bids db) ->
  p_gigId d = Some gid ->
  bid_gigId x = ObjectId_cast gid ->
  bid_freelancerId x = ObjectId_cast fid ->
  exists e, BidsService.createBid d fid newId now db = (inl e, db).
Proof.
  intros Hx Hg Hxg Hxf.
  destruct (BidsService.createBid d fid newId now db) as [r db'] eqn:E.
  apply createBid_inv in E as [[-> [e ->]]|E]; [eauto|].
  exfalso.
  destruct E as (gid' & g & b0 & Hgid & _ & _ & _ & _ & _ & Hnone & _).
  rewrite Hg in Hgid. inversion Hgid; subst gid'.
  assert (Hn := find_none _ _ Hnone x Hx). cbv beta in Hn.
  now rewrite Hxg, Hxf, !String.eqb_refl in Hn.
Qed.

(** C3 (amended). Once [createBid] has succeeded for a gig and a
    freelancer, the second [createBid] of that freelancer on that gig, in
    the database the first one left, throws an [ApiError] with status 400 (a
    bad request) and writes nothing: with the ids as they were given the
    first time the message is ['You have already placed a bid on this gig'],
    and with the same ids in any other spelling the status is 400 as well.
    Later on, in whatever database, no [createBid] for the pair succeeds
    while a bid of the pair is stored: the answer is 400 as long as the gig
    is found and active, and 404 once it is not. And whatever service calls
    follow, no two bids in the collection share gig and freelancer. *)
Theorem second_bid_is_a_bad_request
  (db : Db) (bidData : PartialBid) (freelancerId : string)
  (newId : ObjectId) (now : Date) (b : Bid) (db1 : Db) :
  uniqueIds db ->
  uniquePairs db ->
  BidsService.createBid bidData freelancerId newId now db = (inr b, db1) ->
  (forall bidData' newId' now',
      p_gigId bidData' = p_gigId bidData ->
      BidsService.createBid bidData' freelancerId newId' now' db1
      = (inl (ApiError 400 "You have already placed a bid on this gig"), db1))
  /\ (forall bidData' gigId' freelancerId' newId' now',
         p_gigId bidData' = Some gigId' ->
         ObjectId_isValid gigId' = true ->
         ObjectId_cast gigId' = bid_gigId b ->
         ObjectId_isValid freelancerId' = true ->
         ObjectId_cast freelancerId' = bid_freelancerId b ->
         exists message,
           BidsService.createBid bidData' freelancerId' newId' now' db1
           = (inl (ApiError 400 message), db1))
  /\ (forall db2 x bidData' gigId' freelancerId' newId' now',
         In x (Bids db2) ->
         bid_gigId x = bid_gigId b ->
         bid_freelancerId x = bid_freelancerId b ->
         p_gigId bidData' = Some gigId' ->
         ObjectId_cast gigId' = bid_gigId b ->
         ObjectId_cast freelancerId' = bid_freelancerId b ->
         exists e,
           BidsService.createBid bidData' freelancerId' newId' now' db2
           = (inl e, db2))
  /\ (forall db2 x bidData' gigId' freelancerId' newId' now',
         In x (Bids db2) ->
         bid_gigId x = bid_gigId b ->
         bid_freelancerId x = bid_freelancerId b ->
         p_gigId bidData' = Some gigId' ->
         ObjectId_isValid gigId' = true ->
         ObjectId_cast gigId' = bid_gigId b ->
         ObjectId_isValid freelancerId' = true ->
         ObjectId_cast freelancerId' = bid_freelancerId b ->
         exists message,
           BidsService.createBid bidData' freelancerId' newId' now' db2
           = (inl (ApiError (if gigIsOpen (bid_gigId b) db2
                             then 400 else 404) message), db2))
  /\ (forall ops x y,
         In x (Bids (runBidOps ops db1)) -> In y (Bids (runBidOps ops db1)) ->
         bid_gigId x = bid_gigId y ->
         bid_freelancerId x = bid_freelancerId y ->
         x = y).
Proof.
  intros Hi Hp E.
  assert (E0 := E).
  apply createBid_inv in E as [[_ [e He]]|E]; [discriminate|].
  destruct E as (gid & g & b0 & Hgid & Hv & Hvf & Hgig & Hact & Hown & _
                 & _ & _ & Hbg & Hbf & _ & Hr & ->).
  inversion Hr; subst b0.
  assert (Hb : In b (Bids db ++ [b])) by (apply in_or_app; right; now left).
  assert (Hdup : forall gid' fid',
             ObjectId_cast gid' = bid_gigId b ->
             ObjectId_cast fid' = bid_freelancerId b ->
             find (fun x => String.eqb (bid_gigId x) (ObjectId_cast gid')
                            && String.eqb (bid_freelancerId x)
                                          (ObjectId_cast fid'))
                  (Bids db ++ [b]) <> None).
  { intros gid' fid' Eg Ef Hn. assert (Hn' := find_none _ _ Hn b Hb).
    cbv beta in Hn'. now rewrite Eg, Ef, !String.eqb_refl in Hn'. }
  split; [|split; [|split; [|split]]].
  - intros d' newId' now' Hg.
    rewrite createBid_unfold, Hg, Hgid, Hv. cbn [Gigs Bids set_Bids].
    rewrite Hgig, Hact. cbn [negb].
    destruct (String.eqb_spec (gig_freelancerId g) freelancerId) as [Eo|_];
      [contradiction|].
    rewrite Hvf.
    destruct (find _ (Bids db ++ [b])) as [x|] eqn:Hf; [reflexivity|].
    exfalso. now apply (Hdup gid freelancerId).
  - intros d' gid' fid' newId' now' Hg Hv' Eg Hvf' Ef.
    rewrite createBid_unfold, Hg, Hv'. cbn [Gigs Bids set_Bids].
    rewrite Eg, Hbg, Hgig, Hact. cbn [negb].
    destruct (String.eqb (gig_freelancerId g) fid'); [eauto|].
    rewrite Hvf'. rewrite <- Hbg, <- Eg.
    destruct (find _ (Bids db ++ [b])) as [x|] eqn:Hf; [eauto|].
    exfalso. now apply (Hdup gid' fid').
  - intros db2 x d' gid' fid' newId' now' Hx Hxg Hxf Hg Eg Ef.
    apply (createBid_of_stored_pair d' gid' fid' newId' now' db2 x);
      congruence.
  - intros db2 x d' gid' fid' newId' now' Hx Hxg Hxf Hg Hv' Eg Hvf' Ef.
    rewrite createBid_unfold, Hg, Hv'. unfold gigIsOpen, getGig.
    rewrite <- Eg.
    destruct (find _ (Gigs db2)) as [g2|]; [|eexists; reflexivity].
    destruct (gig_isActive g2); cbn [negb]; [|eexists; reflexivity].
    destruct (String.eqb (gig_freelancerId g2) fid'); [eexists; reflexivity|].
    rewrite Hvf'.
    destruct (find _ (Bids db2)) eqn:Hfd; [eexists; reflexivity|].
    exfalso. assert (Hn := find_none _ _ Hfd x Hx). cbv beta in Hn.
    now rewrite Hxg, Hxf, Eg, Ef, !String.eqb_refl in Hn.
  - intros ops x y Hx Hy Hg Hf.
    assert (E1 : runBidOp (OpCreateBid bidData freelancerId newId now) db
                 = set_Bids (Bids db ++ [b]) db)
      by (cbn [runBidOp]; now rewrite E0).
    assert (Hi1 : uniqueIds (set_Bids (Bids db ++ [b]) db))
      by (rewrite <- E1; now apply runBidOp_uniqueIds).
    assert (Hp1 : uniquePairs (set_Bids (Bids db ++ [b]) db))
      by (rewrite <- E1; now apply runBidOp_uniquePairs).
    destruct (runBidOps_invariants ops _ Hi1 Hp1) as [_ Hpn].
    apply (same_pair_same_doc _ _ _ Hpn Hx Hy).
    unfold pairOf. now rewrite Hg, Hf.
Qed.

Lemma Gig_findById_inv o db g db' :
  Gig_findById o db = (inr (Some g), db') ->
  exists gid, o = Some gid /\ ObjectId_isValid gid = true
    /\ find (fun x => String.eqb (gig_id x) (ObjectId_cast gid)) (Gigs db)
       = Some g
    /\ db' = db.
Proof.
  unfold Gig_findById, bind, castObjectId, gets, ret, throw.
  destruct o as [gid|]; [|discriminate].
  destruct (ObjectId_isValid gid) eqn:Hv; [|discriminate].
  intros E. inversion E. eauto.
Qed.

(** A bid on a gig of the bidder: the gig it names is in the collection
    and belongs to its freelancer. *)
Definition ownGigBid (db : Db) (b : Bid) : Prop :=
  exists g, In g (Gigs db) /\ gig_id g = bid_gigId b
            /\ gig_freelancerId g = bid_freelancerId b.

(** The calls of [BidsService] as the controllers make them: the id of the
    caller is [req.user.userId], the canonical string that
    [generateAuthToken] signed, and an update has passed [updateBidSchema],
    so it names neither gig nor freelancer. *)
Definition fromController (op : BidOp) : Prop :=
  match op with
  | OpCreateBid _ freelancerId _ _ => ObjectId_cast freelancerId = freelancerId
  | OpUpdateBid _ u _ _ => p_gigId u = None /\ p_freelancerId u = None
  | OpUpdateBidStatus _ _ _ _ | OpWithdrawBid _ _ _ => True
  end.

Lemma In_updateFirst {A} (p : A -> bool) (f : A -> A) (l : list A) (x : A) :
  In x (updateFirst p f l) -> In x l \/ exists y, In y l /\ x = f y.
Proof.
  induction l as [|y r IH]; cbn [updateFirst]; [tauto|].
  destruct (p y); intros [<-|Hx].
  - right. exists y. split; [now left | reflexivity].
  - left. now right.
  - left. now left.
  - destruct (IH Hx) as [Hr|[z [Hz ->]]]; [left; now right|].
    right. exists z. split; [now right | reflexivity].
Qed.

(** An update that names neither gig nor freelancer leaves every bid on its
    gig and with its freelancer. *)
Lemma update_keeps_pairOf id u now db r db' x :
  Bid_findByIdAndUpdate id u now db = (r, db') ->
  p_gigId u = None -> p_freelancerId u = None ->
  In x (Bids db') -> exists y, In y (Bids db) /\ pairOf x = pairOf y.
Proof.
  intros E Hg Hf Hx.
  apply Bid_findByIdAndUpdate_inv in E
    as [[-> _]|[b [_ [_ [_ ->]]]]]; [eauto|].
  cbn [Bids set_Bids] in Hx.
  apply In_updateFirst in Hx as [Hx|[y [Hy ->]]]; [eauto|].
  exists y. split; [assumption|].
  unfold pairOf, applyPatch, castedPatch. cbn. now rewrite Hg, Hf.
Qed.

Lemma runBidOp_no_own_gig_bid op db :
  uniqueGigIds db -> fromController op ->
  (forall b, In b (Bids db) -> ~ ownGigBid db b) ->
  forall b, In b (Bids (runBidOp op db)) -> ~ ownGigBid (runBidOp op db) b.
Proof.
  intros Hu Hop Hno b Hb (g' & Hg' & Hid' & Hown').
  rewrite runBidOp_keeps_gigs in Hg'.
  assert (Hold : forall y, In y (Bids db) -> pairOf b = pairOf y -> False).
  { intros y Hy Hp. apply (Hno y Hy). exists g'. unfold pairOf in Hp.
    inversion Hp as [[Eg Ef]]. auto. }
  assert (Hstatus : forall id s now d r d',
             Bid_findByIdAndUpdate id (statusPatch s) now d = (r, d') ->
             (forall y, In y (Bids d) ->
                        exists z, In z (Bids db) /\ pairOf y = pairOf z) ->
             In b (Bids d') -> False).
  { intros id s now d r d' E Hd Hbd.
    destruct (update_keeps_pairOf _ _ _ _ _ _ b E eq_refl eq_refl Hbd)
      as (y & Hy & Hp).
    destruct (Hd y Hy) as (z & Hz & Hpz). apply (Hold z Hz). congruence. }
  destruct op; cbn [runBidOp fromController] in *.
  - destruct (BidsService.createBid _ _ _ _ db) as [r db'] eqn:E.
    apply createBid_inv in E as [[-> _]|E]; [now apply (Hold b)|].
    destruct E as (gid & g & b0 & _ & _ & _ & Hgig & _ & Hown & _ & _ & _
                   & Hbg & Hbf & _ & _ & ->).
    cbn [snd Bids set_Bids] in Hb.
    apply in_app_or in Hb as [Hb|[<-|[]]]; [now apply (Hold b)|].
    apply find_some in Hgig as [Hgin Hgid]. apply String.eqb_eq in Hgid.
    assert (g' = g).
    { apply (same_key_same_doc gig_id (Gigs db)); auto. congruence. }
    subst g'. apply Hown. rewrite Hown', Hbf. exact Hop.
  - destruct Hop as [Hpg Hpf].
    destruct (BidsService.updateBid _ _ _ _ db) as [r db'] eqn:E.
    apply updateBid_inv in E as [[-> _]|(g & r0 & _ & _ & _ & _ & E & _)];
      [now apply (Hold b)|].
    cbn [snd] in Hb.
    destruct (update_keeps_pairOf _ _ _ _ _ _ b E Hpg Hpf Hb) as (y & Hy & Hp).
    now apply (Hold y).
  - destruct (BidsService.updateBidStatus _ _ _ _ db) as [r db'] eqn:E.
    apply updateBidStatus_inv in E
      as [[-> _]|(g & db1 & r0 & _ & _ & _ & _ & H1 & E & _)];
      [now apply (Hold b)|].
    cbn [snd] in Hb. apply (Hstatus _ _ _ _ _ _ E); [|assumption].
    intros y Hy. destruct H1 as [->|[_ ->]]; [eauto|].
    cbn [Bids set_Bids] in Hy. apply in_map_iff in Hy as [z [<- Hz]].
    exists z. split; [assumption | apply rejectSibling_pair].
  - destruct (BidsService.withdrawBid _ _ _ db) as [r db'] eqn:E.
    apply withdrawBid_inv in E as [->|(g & r0 & _ & _ & _ & _ & E)];
      [now apply (Hold b)|].
    cbn [snd] in Hb. apply (Hstatus _ _ _ _ _ _ E); [eauto | assumption].
Qed.

Lemma runBidOps_no_own_gig_bid ops db :
  uniqueGigIds db -> Forall fromController ops ->
  (forall b, In b (Bids db) -> ~ ownGigBid db b) ->
  forall b, In b (Bids (runBidOps ops db)) -> ~ ownGigBid (runBidOps ops db) b.
Proof.
  revert db. induction ops as [|op ops IH]; intros db Hu Hops Hno;
    [exact Hno|].
  inversion Hops as [|? ? Hop Hrest]; subst.
  cbn [runBidOps fold_left]. fold (runBidOps ops (runBidOp op db)).
  apply IH; [|assumption|now apply runBidOp_no_own_gig_bid].
  unfold uniqueGigIds. now rewrite runBidOp_keeps_gigs.
Qed.

(** C8 (amended). When the bid data name an existing gig and the caller is
    the owner of that gig, given as the owner's id string, [createBid]
    creates nothing: it throws [ApiError(400, 'You cannot bid on your own
    gig')] when the gig is active and [ApiError(404, 'Gig not found or is
    not active')] when it is not. Every bid that [createBid] does create on
    the gig records the owner as its [clientId], and, when the id of the
    caller arrived in canonical form, a different user as its
    [freelancerId]. So a collection without a bid on a gig of the bidder
    never gets one through calls of [BidsService] made as the controllers
    make them. *)
Theorem own_gig_bid_is_refused
  (db : Db) (bidData : PartialBid) (owner : string) (newId : ObjectId)
  (now : Date) (gig : Gig) :
  Gig_findById (p_gigId bidData) db = (inr (Some gig), db) ->
  gig_freelancerId gig = owner ->
  BidsService.createBid bidData owner newId now db
  = (inl (if gig_isActive gig
          then ApiError 400 "You cannot bid on your own gig"
          else ApiError 404 "Gig not found or is not active"), db)
  /\ (forall freelancerId newId' now' b db',
         BidsService.createBid bidData freelancerId newId' now' db
         = (inr b, db') ->
         bid_clientId b = gig_freelancerId gig
         /\ (ObjectId_cast freelancerId = freelancerId ->
             bid_freelancerId b <> gig_freelancerId gig))
  /\ (uniqueGigIds db ->
      (forall b, In b (Bids db) -> ~ ownGigBid db b) ->
      forall ops, Forall fromController ops ->
      forall b, In b (Bids (runBidOps ops db)) ->
                ~ ownGigBid (runBidOps ops db) b).
Proof.
  intros Hg Ho. split; [|split].
  - unfold BidsService.createBid. unfold bind at 1. rewrite Hg.
    destruct (gig_isActive gig); cbn [negb]; [|reflexivity].
    now rewrite Ho, String.eqb_refl.
  - intros fid newId' now' b db' E.
    apply Gig_findById_inv in Hg as (gid & Hgid & _ & Hfind & _).
    apply createBid_inv in E as [[_ [e He]]|E]; [discriminate|].
    destruct E as (gid' & g & b0 & Hgid' & _ & _ & Hgig & _ & Hown & _
                   & _ & _ & _ & Hbf & Hbc & Hr & _).
    inversion Hr; subst b0. rewrite Hgid in Hgid'. inversion Hgid'; subst gid'.
    rewrite Hfind in Hgig. inversion Hgig; subst g.
    split; [assumption|]. intros Hcanon. rewrite Hbf, Hcanon. congruence.
  - intros Hu Hno ops Hops. now apply runBidOps_no_own_gig_bid.
Qed.

(** What [updateBidSchema] lets through never sets an id, the client or the
    status. *)
Lemma updateBidSchema_value body value :
  BidsController.updateBidSchema_validate body = inr value ->
  p_gigId value = None /\ p_freelancerId value = None
  /\ p_clientId value = None /\ p_status value = None.
Proof.
  unfold BidsController.updateBidSchema_validate. intros E.
  destruct (BidsController.optionalKey "amount" _ _); [discriminate|].
  destruct (BidsController.optionalKey "deliveryTime" _ _); [discriminate|].
  destruct (BidsController.optionalKey "proposal" _ _); [discriminate|].
  destruct (BidsController.optionalKey "attachments" _ _); [discriminate|].
  destruct (find _ body); [discriminate|].
  inversion E. auto.
Qed.

(** C10. Through the controller, a successful [updateBid] changes one
    document only: the bid with the given id, in whatever spelling the id
    was given, that was pending and belongs to the caller. Its [_id],
    [status], [gigId], [freelancerId], [clientId] and [createdAt] stay as
    they were (what can change is [amount], [deliveryTime], [proposal],
    [attachments] and the [updatedAt] stamp), and no gig or user is touched.
    The answer is the updated document, populated. A refused update changes
    nothing. *)
Theorem controller_update_leaves_status_and_parties
  (db : Db) (body : list (string * JSON)) (bidId freelancerId : string)
  (now : Date) (r : Error + option PopulatedBid) (db' : Db) :
  uniqueIds db ->
  BidsController.updateBid body bidId freelancerId now db = (r, db') ->
  match r with
  | inl _ => db' = db
  | inr res =>
      exists old new,
        res = Some (populateBid new db')
        /\ In old (Bids db) /\ bid_id old = ObjectId_cast bidId
        /\ bid_freelancerId old = ObjectId_cast freelancerId
        /\ bid_status old = pending
        /\ bid_id new = bid_id old /\ bid_status new = bid_status old
        /\ bid_gigId new = bid_gigId old
        /\ bid_freelancerId new = bid_freelancerId old
        /\ bid_clientId new = bid_clientId old
        /\ bid_createdAt new = bid_createdAt old
        /\ Bids db' = map (fun b => if String.eqb (bid_id b) (bid_id old)
                                    then new else b) (Bids db)
        /\ Gigs db' = Gigs db /\ Users db' = Users db
  end.
Proof.
  intros Hi. unfold BidsController.updateBid.
  destruct (BidsController.updateBidSchema_validate body) as [msg|value] eqn:Hv.
  - unfold throw. intros E. now inversion E.
  - apply updateBidSchema_value in Hv as (Hg & Hf & Hc & Hs).
    intros E. apply updateBid_inv in E as [[-> [e ->]]|E]; [reflexivity|].
    destruct E as (g & r0 & Hin & Hid & Hfid & Hst & E & ->).
    assert (Hfind : find (fun x => String.eqb (bid_id x) (ObjectId_cast bidId))
                         (Bids db) = Some g).
    { rewrite <- Hid. apply (find_unique bid_id); auto using String.eqb_refl.
      intros x Hx. now apply String.eqb_eq. }
    assert (Hcast : castedPatch value = value).
    { destruct value. cbn in Hg, Hf, Hc. subst. reflexivity. }
    apply Bid_findByIdAndUpdate_inv in E
      as [[-> [[e ->]|[-> Hn]]]|(b & Hb & -> & _ & ->)];
      [reflexivity | congruence |].
    rewrite Hfind in Hb. inversion Hb; subst b. rewrite Hcast.
    cbn [populatedResult option_map].
    exists g, (applyPatch value now g).
    assert (Hkeep : bid_status (applyPatch value now g) = bid_status g
                    /\ bid_gigId (applyPatch value now g) = bid_gigId g
                    /\ bid_freelancerId (applyPatch value now g)
                       = bid_freelancerId g
                    /\ bid_clientId (applyPatch value now g) = bid_clientId g).
    { unfold applyPatch.
      cbn [bid_status bid_gigId bid_freelancerId bid_clientId].
      rewrite Hg, Hf, Hc, Hs. cbn [default]. auto. }
    destruct Hkeep as (K1 & K2 & K3 & K4).
    do 5 (split; [first [reflexivity | assumption]|]).
    split; [reflexivity|]. do 4 (split; [assumption|]).
    split; [reflexivity|]. split; [|split; reflexivity].
    cbn [Bids set_Bids]. rewrite (updateFirst_as_map bid_id) by exact Hi.
    rewrite <- Hid.
    apply map_ext_in. intros x Hx.
    destruct (String.eqb_spec (bid_id x) (bid_id g)) as [Ex|Ex];
      [|reflexivity].
    f_equal. now apply (same_key_same_doc bid_id (Bids db)).
Qed.
End BidProperties.

(** ** The session lifecycle *)

Section AuthProperties.
Context `{Platform}.

(** The lookup of [login] and [forgotPassword]:
    [User.findOne({ email, isActive: true })]. *)
Definition activeUserByEmail (email : string) (db : Db) : option User :=
  find (fun u => String.eqb (user_email u) (email_set email)
                 && user_isActive u) (Users db).

(** The refresh token [generateRefreshToken] mints at time [issuedAt] for
    the user with this id. *)
Definition refreshTokenFor (userId : ObjectId) (issuedAt : Date) : Jwt :=
  jwt_sign (RefreshClaims userId) (jwt_refreshSecret config)
           (jwt_refreshExpiresIn config) issuedAt.

(** The user a token speaks about: the [userId] of its payload. *)
Definition jwt_subject (t : Jwt) : option ObjectId :=
  match t with
  | JwtSigned payload _ _ _ => Some (payload_userId payload)
  | JwtOpaque _ => None
  end.

Definition uniqueUserIds (db : Db) : Prop := NoDup (map user_id (Users db)).

(** Every user document has its own, well-formed [_id]: an ObjectId, which
    [isValid] accepts and whose cast is itself. *)
Definition wfUsers (db : Db) : Prop :=
  uniqueUserIds db
  /\ forall u, In u (Users db) ->
               ObjectId_isValid (user_id u) = true
               /\ ObjectId_cast (user_id u) = user_id u.

(** No two users hold the reset-token hash [h]. *)
Definition resetHashUnique (h : string) (db : Db) : Prop :=
  forall u v, In u (Users db) -> In v (Users db) ->
              user_passwordResetToken u = Some h ->
              user_passwordResetToken v = Some h ->
              user_id u = user_id v.

Definition changed (id : ObjectId) (change : User -> User) (u : User) : User :=
  if String.eqb (user_id u) id then change u else u.

Lemma Jwt_eqb_eq a b : Jwt_eqb a b = true <-> a = b.
Proof.
  unfold Jwt_eqb. destruct (Jwt_eq_dec a b); split; congruence.
Qed.

Lemma User_update_run id change db :
  NoDup (map user_id (Users db)) ->
  User_update id change db
  = (inr tt, set_Users (map (changed id change) (Users db)) db).
Proof.
  intros Hnd. unfold User_update, modify.
  now rewrite (updateFirst_as_map user_id).
Qed.

Lemma changed_keeps_ids id change l :
  (forall u, user_id (change u) = user_id u) ->
  map user_id (map (changed id change) l) = map user_id l.
Proof.
  intros Hc. rewrite map_map. apply map_ext. intros u. unfold changed.
  destruct (String.eqb _ _); [apply Hc | reflexivity].
Qed.

Lemma wfUsers_changed id change db :
  (forall u, user_id (change u) = user_id u) ->
  wfUsers db -> wfUsers (set_Users (map (changed id change) (Users db)) db).
Proof.
  unfold wfUsers, uniqueUserIds. intros Hc [Hnd Hv].
  split; cbn [Users set_Users].
  - now rewrite changed_keeps_ids.
  - intros u Hu. apply in_map_iff in Hu as [x [<- Hx]]. unfold changed.
    destruct (String.eqb _ _); [rewrite Hc|]; now apply Hv.
Qed.

(** C5. A login with an email that no active user has and a login with the
    email of an active user but a password that does not match throw the
    same error, [ApiError(401, 'Invalid email or password')], and both
    leave the database as it is: status and message are identical. *)
Theorem login_failures_are_indistinguishable
  (db : Db) (unknownEmail password1 : string) (rememberMe1 : bool)
  (now1 : Date) (knownEmail wrongPassword : string) (rememberMe2 : bool)
  (now2 : Date) (user : User) :
  activeUserByEmail unknownEmail db = None ->
  activeUserByEmail knownEmail db = Some user ->
  comparePassword user wrongPassword = false ->
  AuthService.login unknownEmail password1 rememberMe1 now1 db
  = (inl (ApiError 401 "Invalid email or password"), db)
  /\ AuthService.login knownEmail wrongPassword rememberMe2 now2 db
     = AuthService.login unknownEmail password1 rememberMe1 now1 db.
Proof.
  unfold activeUserByEmail. intros H1 H2 H3.
  unfold AuthService.login, User_findOne, bind, gets, throw.
  rewrite H1, H2, H3. split; reflexivity.
Qed.

Lemma activeUserByEmail_None email db :
  activeUserByEmail email db = None <->
  forall u, In u (Users db) -> user_email u = email_set email ->
            user_isActive u = false.
Proof.
  unfold activeUserByEmail. split.
  - intros Hn u Hu He. assert (Hf := find_none _ _ Hn u Hu).
    cbv beta in Hf. rewrite He, String.eqb_refl in Hf. exact Hf.
  - intros Hall. destruct (find _ (Users db)) as [u|] eqn:Hf; [|reflexivity].
    apply find_some in Hf as [Hu Hp]. apply andb_prop in Hp as [He Ha].
    apply String.eqb_eq in He. rewrite (Hall u Hu He) in Ha. discriminate.
Qed.

(** *** Refresh tokens *)

Lemma login_inv email password rememberMe now db r db' :
  AuthService.login email password rememberMe now db = (inr r, db') ->
  exists u,
    In u (Users db) /\ user_isActive u = true
    /\ r = (userResponse (set_refreshToken
                            (Some (generateRefreshToken u now))
                            (set_lastLogin now u)),
            generateAuthToken u now, generateRefreshToken u now)
    /\ User_update (user_id u)
         (fun x => touch now (set_refreshToken
                                (Some (generateRefreshToken u now))
                                (set_lastLogin now x))) db = (inr tt, db').
Proof.
  unfold AuthService.login, User_findOne, bind at 1, gets, throw.
  destruct (find _ (Users db)) as [u|] eqn:Hf; [|discriminate].
  destruct (comparePassword u password); cbn [negb]; [|discriminate].
  unfold bind, ret.
  destruct (User_update _ _ db) as [[e|[]] db1] eqn:Hu; [discriminate|].
  intros E. inversion E; subst. exists u.
  apply find_some in Hf as [Hin Hp]. apply andb_prop in Hp as [_ Ha].
  cbn [user_id set_refreshToken set_lastLogin] in Hu. auto.
Qed.

Lemma refreshToken_inv token now db r db' :
  AuthService.refreshToken token now db = (inr r, db') ->
  exists u,
    In u (Users db) /\ user_refreshToken u = Some token
    /\ user_isActive u = true
    /\ option_map ObjectId_cast (jwt_subject token) = Some (user_id u)
    /\ r = (generateAuthToken u now, generateRefreshToken u now)
    /\ User_update (user_id u)
         (fun x => touch now (set_refreshToken
                                (Some (generateRefreshToken u now)) x)) db
       = (inr tt, db').
Proof.
  unfold AuthService.refreshToken, try_catch.
  destruct (bind _ _ db) as [[e|v] db1] eqn:E.
  { destruct (instanceof_JsonWebTokenError e); discriminate. }
  intros E'. inversion E'; subst v db1. clear E'.
  revert E. unfold bind at 1.
  destruct (jwt_verify token _ now db) as [[e|p] db0] eqn:Hv; [discriminate|].
  assert (db0 = db /\ jwt_subject token = Some (payload_userId p)) as [-> Hp].
  { revert Hv. unfold jwt_verify, throw, ret. destruct token; [|discriminate].
    destruct (negb _); [discriminate|].
    destruct (_ <=? _); [discriminate|]. intros E. now inversion E. }
  unfold bind at 1, castObjectId, throw, ret.
  destruct (ObjectId_isValid (payload_userId p)) eqn:Hvalid; [|discriminate].
  unfold bind at 1, User_findOne, gets.
  destruct (find _ (Users db)) as [u|] eqn:Hf; [|discriminate].
  unfold bind, ret.
  destruct (User_update _ _ db) as [[e|[]] db1] eqn:Hu; [discriminate|].
  intros E. inversion E; subst. exists u.
  apply find_some in Hf as [Hin Hq]. apply andb_prop in Hq as [Hq Ha].
  apply andb_prop in Hq as [Hi Ht]. apply String.eqb_eq in Hi.
  destruct (user_refreshToken u) as [stored|] eqn:Hs; [|discriminate].
  apply Jwt_eqb_eq in Ht. subst stored. rewrite Hp. cbn [option_map].
  rewrite <- Hi. auto 8.
Qed.

(** A token about a user who stores a different refresh token. *)
Lemma stale_refresh_token_rejected db u stored old now :
  wfUsers db -> In u (Users db) ->
  user_refreshToken u = Some stored ->
  jwt_subject old = Some (user_id u) ->
  old <> stored ->
  AuthService.refreshToken old now db
  = (inl (ApiError 401 "Invalid refresh token"), db).
Proof.
  intros [Hnd Hv] Hu Hs Hsub Hne.
  unfold AuthService.refreshToken, try_catch.
  destruct old as [p iat exp secret|raw]; [|discriminate].
  cbn [jwt_subject] in Hsub. inversion Hsub as [Hp].
  unfold bind at 1. unfold jwt_verify, throw, ret.
  destruct (negb _); [reflexivity|].
  destruct (_ <=? _); [reflexivity|].
  unfold bind at 1, castObjectId. rewrite Hp.
  destruct (Hv u Hu) as [-> ->].
  unfold ret, bind at 1, User_findOne, gets.
  destruct (find _ (Users db)) as [x|] eqn:Hf; [|reflexivity].
  exfalso. apply find_some in Hf as [Hx Hq]. apply andb_prop in Hq as [Hq _].
  apply andb_prop in Hq as [Hi Ht]. apply String.eqb_eq in Hi.
  assert (x = u) by now apply (same_key_same_doc user_id (Users db)).
  subst x. rewrite Hs in Ht. apply Jwt_eqb_eq in Ht. now apply Hne.
Qed.

(** After an operation has stored [new] on the user [u], every other token
    about [u] is refused. *)
Lemma stored_token_excludes_others db u new old now now' db' :
  wfUsers db -> In u (Users db) ->
  jwt_subject new = Some (user_id u) ->
  User_update (user_id u)
    (fun x => touch now (set_refreshToken (Some new) x)) db = (inr tt, db')
  \/ User_update (user_id u)
       (fun x => touch now (set_refreshToken (Some new) (set_lastLogin now x)))
       db = (inr tt, db') ->
  jwt_subject old = jwt_subject new -> old <> new ->
  AuthService.refreshToken old now' db'
  = (inl (ApiError 401 "Invalid refresh token"), db').
Proof.
  intros Hwf Hu Hnew Hup Hsub Hne. pose proof Hwf as [Hnd Hv].
  destruct Hup as [Hup|Hup]; rewrite User_update_run in Hup by exact Hnd;
    inversion Hup as [Hdb]; clear Hup;
    match goal with
    | |- context [set_Users (map (changed _ ?c) _) _] =>
        apply (stale_refresh_token_rejected _ (c u) new);
          [ now apply wfUsers_changed
          | cbn [Users set_Users]; apply in_map_iff; exists u;
            split; [unfold changed; now rewrite String.eqb_refl | exact Hu]
          | reflexivity
          | now rewrite Hsub, Hnew
          | exact Hne ]
    end.
Qed.

(** C4 (amended). On a database whose users have distinct, well-formed ids:
    [refreshToken] succeeds only for a token that equals the value stored on
    a user; and after a login or a refresh has issued the refresh token
    [new], every token about the same user that differs from [new] is
    refused by [refreshToken] with [ApiError(401, 'Invalid refresh token')],
    at any later time. *)
Theorem refresh_token_rotation (db : Db) (old : Jwt) :
  wfUsers db ->
  (forall now r db',
      AuthService.refreshToken old now db = (inr r, db') ->
      exists u, In u (Users db) /\ user_refreshToken u = Some old
                /\ user_isActive u = true)
  /\ (forall email password rememberMe now resp token new db' now',
         AuthService.login email password rememberMe now db
         = (inr (resp, token, new), db') ->
         jwt_subject old = jwt_subject new -> old <> new ->
         AuthService.refreshToken old now' db'
         = (inl (ApiError 401 "Invalid refresh token"), db'))
  /\ (forall used now token new db' now',
         AuthService.refreshToken used now db = (inr (token, new), db') ->
         jwt_subject old = jwt_subject new -> old <> new ->
         AuthService.refreshToken old now' db'
         = (inl (ApiError 401 "Invalid refresh token"), db')).
Proof.
  intros Hwf. split; [|split].
  - intros now r db' E.
    apply refreshToken_inv in E as (u & Hu & Hs & Ha & _). eauto.
  - intros email password rememberMe now resp token new db' now' E Hsub Hne.
    apply login_inv in E as (u & Hu & _ & Hr & Hup). inversion Hr; subst.
    apply (stored_token_excludes_others db u (generateRefreshToken u now)
             old now now' db'); auto.
  - intros used now token new db' now' E Hsub Hne.
    apply refreshToken_inv in E as (u & Hu & _ & _ & _ & Hr & Hup).
    inversion Hr; subst.
    apply (stored_token_excludes_others db u (generateRefreshToken u now)
             old now now' db'); auto.
Qed.

(** *** Password reset *)

(** The filter of [resetPassword]. *)
Definition resetFilter (hashedToken : string) (now : Date) (u : User) : bool :=
  match user_passwordResetToken u with
  | Some stored => String.eqb stored hashedToken
  | None => false
  end
  && match user_passwordResetExpires u with
     | Some expires => now <? expires
     | None => false
     end
  && user_isActive u.

Lemma resetPassword_unfold token newPassword salt now db :
  AuthService.resetPassword token newPassword salt now db
  = match find (resetFilter (sha256_hex token) now) (Users db) with
    | None => (inl (ApiError 400 "Invalid or expired reset token"), db)
    | Some user =>
        if negb (password_validate newPassword)
        then (inl (ValidationError "User validation failed"), db)
        else User_update (user_id user)
               (fun u => touch now
                  (set_passwordReset None None
                     (set_password (bcrypt_hash newPassword salt) u))) db
    end.
Proof.
  unfold AuthService.resetPassword, User_findOne, bind, gets, throw.
  fold (resetFilter (sha256_hex token) now).
  destruct (find _ (Users db)); [|reflexivity].
  now destruct (negb _).
Qed.

Lemma resetFilter_hash h now u :
  resetFilter h now u = true -> user_passwordResetToken u = Some h.
Proof.
  unfold resetFilter. intros E. apply andb_prop in E as [E _].
  apply andb_prop in E as [E _].
  destruct (user_passwordResetToken u); [|discriminate].
  apply String.eqb_eq in E. now subst.
Qed.

(** C6. When [resetPassword] succeeds with a token whose hash no two users
    hold, it has found a user storing that hash, and that user's document
    afterwards has the new password hash and neither reset field; every
    further [resetPassword] with the same token, whatever the new password
    and the time, throws [ApiError(400, 'Invalid or expired reset token')]
    and changes nothing. *)
Theorem reset_token_is_single_use
  (db : Db) (token newPassword salt : string) (now : Date) (db' : Db) :
  uniqueUserIds db ->
  resetHashUnique (sha256_hex token) db ->
  AuthService.resetPassword token newPassword salt now db = (inr tt, db') ->
  (exists u u',
      In u (Users db)
      /\ user_passwordResetToken u = Some (sha256_hex token)
      /\ getUser (user_id u) db' = Some u'
      /\ user_password u' = bcrypt_hash newPassword salt
      /\ user_passwordResetToken u' = None
      /\ user_passwordResetExpires u' = None)
  /\ forall newPassword2 salt2 now2,
       AuthService.resetPassword token newPassword2 salt2 now2 db'
       = (inl (ApiError 400 "Invalid or expired reset token"), db').
Proof.
  intros Hnd Huniq. rewrite resetPassword_unfold.
  destruct (find _ (Users db)) as [u|] eqn:Hf; [|discriminate].
  destruct (negb _); [discriminate|].
  rewrite User_update_run by exact Hnd. intros E. inversion E as [Hdb].
  clear E. apply find_some in Hf as [Hu Hp].
  pose proof (resetFilter_hash _ _ _ Hp) as Hh.
  split.
  - exists u, (touch now (set_passwordReset None None
                  (set_password (bcrypt_hash newPassword salt) u))).
    split; [exact Hu|]. split; [exact Hh|].
    split; [|split; [|split]; reflexivity].
    unfold getUser. cbn [Users set_Users].
    rewrite (find_map_same_key user_id).
    + rewrite (find_unique user_id _ (Users db) u); auto using String.eqb_refl.
      * cbn [option_map]. unfold changed. now rewrite String.eqb_refl.
      * intros x Hx. now apply String.eqb_eq.
    + intros x. unfold changed. now destruct (String.eqb _ _).
  - intros pw2 salt2 now2. rewrite resetPassword_unfold.
    destruct (find _ (Users _)) as [x|] eqn:Hf; [|reflexivity].
    exfalso. apply find_some in Hf as [Hx Hq].
    apply resetFilter_hash in Hq. cbn [Users set_Users] in Hx.
    apply in_map_iff in Hx as [y [Hy Hin]]. unfold changed in Hy.
    destruct (String.eqb_spec (user_id y) (user_id u)) as [Ey|Ey].
    + subst x. discriminate.
    + subst x. apply Ey. now apply Huniq.
Qed.

Lemma forgotPassword_unfold email resetToken now db :
  AuthService.forgotPassword email resetToken now db
  = match activeUserByEmail email db with
    | None => (inl (ApiError 404 "No user found with this email address"), db)
    | Some user =>
        match User_update (user_id user)
                (fun u => touch now
                   (set_passwordReset (Some (sha256_hex resetToken))
                                      (Some (now + 10 * 60 * 1000)) u)) db with
        | (inl e, db') => (inl e, db')
        | (inr _, db') => (inr resetToken, db')
        end
    end.
Proof.
  unfold AuthService.forgotPassword, activeUserByEmail, User_findOne, bind,
    gets, throw, ret.
  now destruct (find _ (Users db)).
Qed.

(** C9. [forgotPassword] returns the token it was given by the random
    source and stores, on the active user with this email, the hash of the
    token with an expiry of exactly ten minutes after the time of the
    call. When no other user holds that hash, [resetPassword] with the
    token succeeds (for a password the schema accepts) at every time before
    the expiry, and at the expiry or after it throws
    [ApiError(400, 'Invalid or expired reset token')]. *)
Theorem reset_token_expires_after_ten_minutes
  (db : Db) (email resetToken : string) (now : Date) (r : string) (db' : Db) :
  uniqueUserIds db ->
  (forall v, In v (Users db) ->
             user_passwordResetToken v <> Some (sha256_hex resetToken)) ->
  AuthService.forgotPassword email resetToken now db = (inr r, db') ->
  r = resetToken
  /\ (exists u u',
         activeUserByEmail email db = Some u
         /\ getUser (user_id u) db' = Some u'
         /\ user_passwordResetToken u' = Some (sha256_hex resetToken)
         /\ user_passwordResetExpires u' = Some (now + 600000))
  /\ (forall newPassword salt now',
         now + 600000 <= now' ->
         AuthService.resetPassword resetToken newPassword salt now' db'
         = (inl (ApiError 400 "Invalid or expired reset token"), db'))
  /\ (forall newPassword salt now',
         now' < now + 600000 ->
         password_validate newPassword = true ->
         exists db'',
           AuthService.resetPassword resetToken newPassword salt now' db'
           = (inr tt, db'')).
Proof.
  intros Hnd Hfresh. rewrite forgotPassword_unfold.
  destruct (activeUserByEmail email db) as [u|] eqn:Hf; [|discriminate].
  rewrite User_update_run by exact Hnd. intros E.
  injection E as Hr Hdb. subst r db'. unfold activeUserByEmail in Hf.
  apply find_some in Hf as [Hu Hp]. apply andb_prop in Hp as [_ Hact].
  set (change := fun x => touch now
                  (set_passwordReset (Some (sha256_hex resetToken))
                                     (Some (now + 10 * 60 * 1000)) x)).
  assert (Hin : In (change u) (map (changed (user_id u) change) (Users db))).
  { apply in_map_iff. exists u. split; [|exact Hu].
    unfold changed. now rewrite String.eqb_refl. }
  split; [reflexivity|]. split; [|split].
  - exists u, (change u). split; [reflexivity|]. split; [|split; reflexivity].
    unfold getUser. cbn [Users set_Users].
    rewrite (find_map_same_key user_id).
    + rewrite (find_unique user_id _ (Users db) u); auto using String.eqb_refl.
      * cbn [option_map]. unfold changed. now rewrite String.eqb_refl.
      * intros x Hx. now apply String.eqb_eq.
    + intros x. unfold changed. now destruct (String.eqb _ _).
  - intros pw salt now' Hlate. rewrite resetPassword_unfold.
    destruct (find _ (Users _)) as [x|] eqn:Hx; [|reflexivity].
    exfalso. apply find_some in Hx as [Hx Hq]. cbn [Users set_Users] in Hx.
    apply in_map_iff in Hx as [y [Hy Hyin]]. unfold changed in Hy.
    destruct (String.eqb (user_id y) (user_id u)).
    + subst x. unfold resetFilter, change in Hq.
      cbn [touch set_passwordReset user_passwordResetExpires] in Hq.
      apply andb_prop in Hq as [Hq _]. apply andb_prop in Hq as [_ Hq].
      apply Z.ltb_lt in Hq. lia.
    + subst x. apply resetFilter_hash in Hq. now apply (Hfresh y).
  - intros pw salt now' Hearly Hpw. rewrite resetPassword_unfold.
    destruct (find _ (Users _)) as [x|] eqn:Hx.
    + rewrite Hpw. cbn [negb]. unfold User_update, modify. eauto.
    + exfalso. assert (Hn := find_none _ _ Hx (change u) Hin).
      unfold resetFilter, change in Hn.
      cbn [touch set_passwordReset user_passwordResetExpires
           user_passwordResetToken user_isActive] in Hn.
      rewrite String.eqb_refl, Hact in Hn.
      assert (Hlt : (now' <? now + 10 * 60 * 1000) = true)
        by (apply Z.ltb_lt; lia).
      rewrite Hlt in Hn. discriminate.
Qed.

(** *** Registration *)

Lemma register_unfold userData newId salt now db :
  AuthService.register userData newId salt now db
  = match find (fun u => String.eqb (user_email u)
                                    (email_set (reg_email userData)))
               (Users db) with
    | Some _ => (inl (ApiError 400 "User already exists with this email"), db)
    | None =>
        match User_saveNew (User_new userData newId now) salt db with
        | (inl e, db1) => (inl e, db1)
        | (inr user, db1) =>
            match User_update (user_id user)
                    (fun u => touch now
                       (set_refreshToken
                          (Some (generateRefreshToken user now)) u)) db1 with
            | (inl e, db2) => (inl e, db2)
            | (inr _, db2) =>
                (inr (userResponse
                        (set_refreshToken
                           (Some (generateRefreshToken user now)) user),
                      generateAuthToken user now,
                      generateRefreshToken user now), db2)
            end
        end
    end.
Proof.
  unfold AuthService.register, User_findOne, bind, gets, throw, ret.
  destruct (find _ (Users db)); [reflexivity|].
  destruct (User_saveNew _ _ db) as [[e|user] db1]; [reflexivity|].
  cbn [user_id set_refreshToken].
  now destruct (User_update _ _ db1) as [[e|[]] db2].
Qed.

Lemma User_saveNew_inv u salt db r db1 :
  User_saveNew u salt db = (inr r, db1) ->
  r = hashPassword salt u
  /\ db1 = set_Users (Users db ++ [hashPassword salt u]) db.
Proof.
  unfold User_saveNew, throw.
  destruct (userSchema_validate u); [|discriminate].
  destruct (existsb _ (Users db)); [discriminate|].
  intros E. now inversion E.
Qed.

(** C7 (amended). [register] with an email that, after the setters of the
    schema, is the email of an existing user throws
    [ApiError(400, 'User already exists with this email')] (a bad request)
    and leaves the database as it is; so once [register] has succeeded for
    an email, every later [register] with an email that the setters map to
    the same string is refused in this way. *)
Theorem duplicate_email_is_a_bad_request
  (db : Db) (userData : RegisterData) (newId : ObjectId) (salt : string)
  (now : Date) :
  ((exists u, In u (Users db)
              /\ user_email u = email_set (reg_email userData)) ->
   AuthService.register userData newId salt now db
   = (inl (ApiError 400 "User already exists with this email"), db))
  /\ (forall r db1,
         AuthService.register userData newId salt now db = (inr r, db1) ->
         forall userData2 newId2 salt2 now2,
           email_set (reg_email userData2) = email_set (reg_email userData) ->
           AuthService.register userData2 newId2 salt2 now2 db1
           = (inl (ApiError 400 "User already exists with this email"), db1)).
Proof.
  assert (Hdup : forall d (u : User) id s t,
             In u (Users d) ->
             user_email u = email_set (reg_email userData) ->
             forall ud2, email_set (reg_email ud2)
                         = email_set (reg_email userData) ->
             AuthService.register ud2 id s t d
             = (inl (ApiError 400 "User already exists with this email"), d)).
  { intros d u id s t Hu He ud2 He2. rewrite register_unfold.
    destruct (find _ (Users d)) as [x|] eqn:Hf; [reflexivity|].
    exfalso. assert (Hn := find_none _ _ Hf u Hu). cbv beta in Hn.
    now rewrite He, He2, String.eqb_refl in Hn. }
  split.
  - intros [u [Hu He]]. now apply (Hdup db u).
  - intros r db1. rewrite register_unfold.
    destruct (find _ (Users db)); [discriminate|].
    destruct (User_saveNew _ _ db) as [[e|user] db0] eqn:Hs; [discriminate|].
    apply User_saveNew_inv in Hs as [-> ->].
    unfold User_update, modify. intros E. inversion E as [[Hr Hdb]]. clear E.
    intros ud2 id2 s2 t2 He2.
    set (l := updateFirst _ _ _).
    assert (Hin : In (email_set (reg_email userData)) (map user_email l)).
    { unfold l. rewrite (map_key_updateFirst user_email) by reflexivity.
      cbn [Users set_Users]. rewrite map_app. apply in_or_app. right.
      now left. }
    apply in_map_iff in Hin as [u [He Hu]].
    now apply (Hdup _ u).
Qed.
End AuthProperties.

(** ** The theorems at work on concrete databases *)

Section Scenarios.
#[local] Existing Instance testPlatform.

Ltac distinct :=
  repeat (constructor; [simpl; intuition discriminate|]); constructor.

Ltac among := simpl; tauto.

Lemma threePending_uniqueIds : uniqueIds threePending.
Proof. unfold uniqueIds. simpl. distinct. Defined.

Lemma threePending_uniquePairs : uniquePairs threePending.
Proof. unfold uniquePairs. simpl. distinct. Defined.

Lemma mixedBids_uniqueIds : uniqueIds mixedBids.
Proof. unfold uniqueIds. simpl. distinct. Defined.

Lemma oneUser_wf (u : User) (db : Db) :
  Users db = [u] -> isObjectIdString (user_id u) = true ->
  canonicalId (user_id u) = user_id u -> wfUsers db.
Proof.
  intros E Hv Hc. split.
  - unfold uniqueUserIds. rewrite E. simpl. constructor; [tauto|constructor].
  - rewrite E. intros x [<-|[]]. split; [exact Hv | exact Hc].
Defined.

(** The scenario of the specification: three pending bids, the second is
    accepted. *)
Lemma accept_second_of_three :
  exists B' db',
    BidsService.updateBidStatus bid2 accept anna 200 threePending
    = (inr (Some (populateBid B' db')), db')
    /\ bid_status B' = accepted
    /\ option_map bid_status (getBid bid1 db') = Some rejected
    /\ option_map bid_status (getBid bid2 db') = Some accepted
    /\ option_map bid_status (getBid bid3 db') = Some rejected.
Proof.
  destruct (accept_rejects_pending_siblings threePending
              (sampleBid bid2 carl pending) bid2 anna 200)
    as (B' & db' & Hrun & Hacc & Hself & Hsib);
    [exact threePending_uniqueIds | among | reflexivity | reflexivity
    | reflexivity | reflexivity | reflexivity |].
  exists B', db'. split; [exact Hrun|]. split; [exact Hacc|].
  destruct (Hsib (sampleBid bid1 bob pending)) as (b1 & G1 & P1 & _);
    [among | discriminate | reflexivity |].
  destruct (Hsib (sampleBid bid3 dora pending)) as (b3 & G3 & P3 & _);
    [among | discriminate | reflexivity |].
  cbn [bid_id sampleBid] in Hself, G1, G3.
  rewrite Hself, G1, G3. cbn [option_map].
  rewrite Hacc, (P1 eq_refl), (P3 eq_refl). auto.
Defined.

(** A withdrawn bid stays withdrawn through an attempt to accept it, the
    acceptance of a sibling, an update and a withdrawal. *)
Lemma withdrawn_bid_stays_withdrawn :
  getBid bid2
    (runBidOps [OpUpdateBidStatus bid2 accept anna 300;
                OpUpdateBidStatus bid1 accept anna 400;
                OpUpdateBid bid2 (statusPatch pending) carl 500;
                OpWithdrawBid bid3 dora 600] mixedBids)
  = Some (sampleBid bid2 carl withdrawn).
Proof.
  apply (terminal_status_is_final _ mixedBids (sampleBid bid2 carl withdrawn));
    [exact mixedBids_uniqueIds | among | discriminate].
Defined.

Lemma second_bid_of_bob_is_refused :
  BidsService.createBid (bidRequest logoGig) bob bid4 200 bobHasBid
  = (inl (ApiError 400 "You have already placed a bid on this gig"),
     bobHasBid).
Proof.
  refine (proj1 (second_bid_is_a_bad_request gigsOnly (bidRequest logoGig)
                   bob bid1 100 (sampleBid bid1 bob pending) bobHasBid
                   _ _ _) (bidRequest logoGig) bid4 200 eq_refl).
  - unfold uniqueIds. simpl. constructor.
  - unfold uniquePairs. simpl. constructor.
  - reflexivity.
Defined.

(** C8 as stated fails twice. The owner of a gig that is not active is
    answered with status 404, not found and not a bad request. And the
    owner of an active gig whose id arrives with its hex digits in upper
    case passes the comparison of the two strings: the bid is created, with
    the owner as freelancer and as client. *)
Lemma owner_bid_is_not_always_a_bad_request :
  (BidsService.createBid (bidRequest pausedGig) anna bid1 100 gigsOnly
   = (inl (ApiError 404 "Gig not found or is not active"), gigsOnly)
   /\ errorKind (ApiError 404 "Gig not found or is not active") <> BadRequest)
  /\ (ObjectId_cast annaUpper = anna
      /\ BidsService.createBid (bidRequest logoGig) annaUpper bid1 100
                               gigsOnly
         = (inr (sampleBid bid1 anna pending),
            set_Bids [sampleBid bid1 anna pending] gigsOnly)
      /\ bid_freelancerId (sampleBid bid1 anna pending) = anna
      /\ bid_clientId (sampleBid bid1 anna pending) = anna).
Proof.
  split; [split; [reflexivity | discriminate]|].
  repeat split; reflexivity.
Qed.

Lemma owner_bid_on_active_gig :
  BidsService.createBid (bidRequest logoGig) anna bid1 100 gigsOnly
  = (inl (ApiError 400 "You cannot bid on your own gig"), gigsOnly).
Proof.
  refine (proj1 (own_gig_bid_is_refused gigsOnly (bidRequest logoGig) anna
                   bid1 100 (mkGig logoGig "Logo design" anna true) _ _)).
  - reflexivity.
  - reflexivity.
Defined.

(** An update of the amount through the controller. *)
Lemma carl_raises_his_bid :
  exists old new db',
    BidsController.updateBid [("amount", JNum (20 # 1))] bid2 carl 300
                             threePending
    = (inr (Some (populateBid new db')), db')
    /\ bid_status new = bid_status old /\ bid_clientId new = bid_clientId old
    /\ old = sampleBid bid2 carl pending
    /\ bid_amount new = (20 # 1)%Q.
Proof.
  pose proof (controller_update_leaves_status_and_parties threePending
                [("amount", JNum (20 # 1))] bid2 carl 300 _ _
                threePending_uniqueIds eq_refl) as Hframe.
  cbv beta iota in Hframe.
  destruct Hframe as (old & new & Hres & Hold & Hid & _ & _ & _ & Hs & _ & _
                      & Hc & _).
  injection Hres as Hnew _. subst new.
  exists old. do 2 eexists. split; [reflexivity|].
  split; [exact Hs|]. split; [exact Hc|]. split; [|reflexivity].
  destruct Hold as [<-|[<-|[<-|[]]]]; try discriminate Hid. reflexivity.
Defined.

(** A body that names the status is refused before the service runs. *)
Example status_is_not_a_key_of_the_update_schema :
  BidsController.updateBid [("status", JStr "accepted")] bid2 carl 300
                           threePending
  = (inl (ApiError 400 (BidsController.dquote ++ "status"
                        ++ BidsController.dquote ++ " is not allowed")),
     threePending).
Proof. reflexivity. Qed.

(** The service alone would apply it: the controller's schema is what
    keeps the status out of reach. *)
Example service_update_can_set_the_status :
  option_map bid_status
    (getBid bid2 (snd (BidsService.updateBid bid2 (statusPatch accepted)
                                             carl 300 threePending)))
  = Some accepted.
Proof. reflexivity. Qed.

(** Accepting the pending bid leaves the withdrawn and the rejected sibling
    as they are, time stamps included. *)
Example accept_leaves_withdrawn_and_rejected_alone :
  Bids (snd (BidsService.updateBidStatus bid1 accept anna 300 mixedBids))
  = [mkBid bid1 logoGig bob anna (10 # 1) (3 # 1) proposalText accepted []
           100 300;
     sampleBid bid2 carl withdrawn; sampleBid bid3 dora rejected].
Proof. reflexivity. Qed.

(** The scenario of the specification: a withdrawn bid cannot be accepted. *)
Example withdrawn_bid_is_not_found :
  BidsService.updateBidStatus bid2 accept anna 300 mixedBids
  = (inl (ApiError 404
       "Bid not found or cannot be updated (only pending bids can be updated)"),
     mixedBids).
Proof. reflexivity. Qed.

(** C4 as stated fails: two logins within one second mint the same refresh
    token, so the token of the first login still refreshes after the
    second login has issued its own. *)
Lemma same_second_login_keeps_old_token_valid :
  AuthService.login "anna@example.com" "Secret1" false 5000 annaRegistered
  = (inr (userResponse (set_lastLogin 5000
                          (hashPassword "salt" (User_new annaData anna 1000))),
          JwtSigned (AuthClaims anna "anna@example.com" freelancer) 5
                    (5 + 7 * 86400) (jwt_secret defaultConfig),
          annaToken5), annaLoggedIn)
  /\ (exists resp token db2,
         AuthService.login "anna@example.com" "Secret1" false 5400
                           annaLoggedIn
         = (inr (resp, token, annaToken5), db2)
         /\ exists newTokens db3,
              AuthService.refreshToken annaToken5 5900 db2
              = (inr newTokens, db3)).
Proof.
  split; [reflexivity|]. do 3 eexists. split; [vm_compute; reflexivity|].
  do 2 eexists. vm_compute. reflexivity.
Qed.

(** A login in a later second does replace the token. *)
Lemma later_login_invalidates_old_token :
  exists db2,
    snd (AuthService.login "anna@example.com" "Secret1" false 9000
                           annaLoggedIn) = db2
    /\ AuthService.refreshToken annaToken5 9500 db2
       = (inl (ApiError 401 "Invalid refresh token"), db2).
Proof.
  eexists. split; [reflexivity|].
  refine (proj1 (proj2 (refresh_token_rotation annaLoggedIn annaToken5 _))
            "anna@example.com" "Secret1" false 9000 _ _ _ _ 9500
            eq_refl eq_refl _).
  - apply (oneUser_wf (set_refreshToken (Some annaToken5)
                         (set_lastLogin 5000
                            (touch 5000
                               (hashPassword "salt"
                                  (User_new annaData anna 1000))))));
      reflexivity.
  - discriminate.
Defined.

Lemma unknown_email_and_wrong_password_look_alike :
  AuthService.login "bob@example.com" "Secret1" false 5000 annaRegistered
  = (inl (ApiError 401 "Invalid email or password"), annaRegistered)
  /\ AuthService.login "anna@example.com" "Wrong1" true 6000 annaRegistered
     = AuthService.login "bob@example.com" "Secret1" false 5000
                         annaRegistered.
Proof.
  apply (login_failures_are_indistinguishable annaRegistered
           "bob@example.com" "Secret1" false 5000
           "anna@example.com" "Wrong1" true 6000
           (set_refreshToken
              (Some (JwtSigned (RefreshClaims anna) 1 (1 + 30 * 86400)
                               "your-refresh-secret-key"))
              (hashPassword "salt" (User_new annaData anna 1000))));
    reflexivity.
Defined.

Lemma annaForgot_uniqueUserIds : uniqueUserIds annaForgot.
Proof. unfold uniqueUserIds. simpl. distinct. Defined.

Lemma annaRegistered_uniqueUserIds : uniqueUserIds annaRegistered.
Proof. unfold uniqueUserIds. simpl. distinct. Defined.

Lemma reset_twice_fails_the_second_time :
  exists db',
    AuthService.resetPassword "r4nd0m" "NewSecret1" "salt2" 20000 annaForgot
    = (inr tt, db')
    /\ AuthService.resetPassword "r4nd0m" "Other2" "salt3" 20001 db'
       = (inl (ApiError 400 "Invalid or expired reset token"), db').
Proof.
  eexists. split; [reflexivity|].
  refine (proj2 (reset_token_is_single_use annaForgot "r4nd0m" "NewSecret1"
                   "salt2" 20000 _ annaForgot_uniqueUserIds _ eq_refl)
            "Other2" "salt3" 20001).
  intros u v Hu Hv _ _. simpl in Hu, Hv.
  destruct Hu as [<-|[]], Hv as [<-|[]]. reflexivity.
Defined.

(** The scenario of the specification: a token issued at time T is refused
    at T + 11 minutes. *)
Lemma reset_after_eleven_minutes_fails :
  AuthService.resetPassword "r4nd0m" "NewSecret1" "salt2" (10000 + 660000)
                            annaForgot
  = (inl (ApiError 400 "Invalid or expired reset token"), annaForgot).
Proof.
  refine (proj1 (proj2 (proj2
            (reset_token_expires_after_ten_minutes annaRegistered
               "anna@example.com" "r4nd0m" 10000 "r4nd0m" annaForgot
               annaRegistered_uniqueUserIds _ eq_refl)))
            "NewSecret1" "salt2" (10000 + 660000) _).
  - intros v Hv. simpl in Hv. destruct Hv as [<-|[]]. discriminate.
  - lia.
Defined.

(** C7 as stated fails: registering an email a second time is refused with
    status 400, a bad request and not a conflict. *)
Lemma second_registration_is_not_a_conflict :
  fst (AuthService.register annaData anna "salt" 1000 gigsOnly)
  = inr (userResponse (hashPassword "salt" (User_new annaData anna 1000)),
         JwtSigned (AuthClaims anna "anna@example.com" freelancer) 1
                   (1 + 7 * 86400) (jwt_secret defaultConfig),
         JwtSigned (RefreshClaims anna) 1 (1 + 30 * 86400)
                   (jwt_refreshSecret defaultConfig))
  /\ snd (AuthService.register annaData anna "salt" 1000 gigsOnly)
     = annaRegistered
  /\ AuthService.register annaData bob "pepper" 2000 annaRegistered
     = (inl (ApiError 400 "User already exists with this email"),
        annaRegistered)
  /\ errorKind (ApiError 400 "User already exists with this email")
     <> Conflict.
Proof. repeat split; try reflexivity. discriminate. Qed.

Lemma second_registration_is_refused :
  AuthService.register
    (mkRegisterData " ANNA@example.com " "Secret9" "Ann" "Li" client)
    bob "pepper" 2000 annaRegistered
  = (inl (ApiError 400 "User already exists with this email"),
     annaRegistered).
Proof.
  refine (proj2 (duplicate_email_is_a_bad_request gigsOnly annaData anna
                   "salt" 1000) _ annaRegistered eq_refl
            (mkRegisterData " ANNA@example.com " "Secret9" "Ann" "Li" client)
            bob "pepper" 2000 eq_refl).
Defined.
End Scenarios.

(** * The rest of the bid, gig and session code

    The remaining methods of [BidsService] and [BidsController], the methods
    of [GigsService] that decide who may bid, the middleware of
    middleware/auth.middleware and the file filter of config/multer, with
    the properties their code shows. The list operations ([getBids],
    [getGigBids], [getGigs], [getFreelancerGigs]) are left out: their result
    depends on how the server orders documents with equal sort keys. *)

(** ** BidsService.getBidById *)

(** What a read can throw: an error of the services, or the [TypeError] of
    reading a property of [null]. *)
Inductive Thrown :=
| Raised (e : Error)
| TypeError (message : string).

Definition readOfNull : Thrown :=
  TypeError "Cannot read properties of null (reading '_id')".

Module BidsServiceReads.
Section Service.
Context `{Platform}.

(** [Bid.findById(bidId)] casts [bidId]; the test
    [a._id.toString() !== userId && b._id.toString() !== userId] compares
    strings and evaluates its right operand only when the left one holds. *)
Definition getBidById (bidId userId : string) (db : Db)
  : Thrown + PopulatedBid :=
  if negb (ObjectId_isValid bidId)
  then inl (Raised (ApiError 400 "Invalid bid ID"))
  else
    match find (fun b => String.eqb (bid_id b) (ObjectId_cast bidId))
               (Bids db) with
    | None => inl (Raised (ApiError 404 "Bid not found"))
    | Some b =>
        let bid := populateBid b db in
        match pop_freelancer bid with
        | None => inl readOfNull
        | Some f =>
            if negb (String.eqb (card_id f) userId)
            then
              match pop_client bid with
              | None => inl readOfNull
              | Some c =>
                  if negb (String.eqb (card_id c) userId)
                  then inl (Raised (ApiError 403
                         "You do not have permission to view this bid"))
                  else inr bid
              end
            else inr bid
        end
    end.
End Service.
End BidsServiceReads.

(** ** BidsController: createBid, updateBidStatus, withdrawBid *)

(** Joi's rules for the keys of [createBidSchema] when the key is present:
    the converted value or the message of the first error. *)
Class CreateBidRules := {
  create_gigId : JSON -> string + string;
  create_amount : JSON -> string + Number;
  create_deliveryTime : JSON -> string + Number;
  create_proposal : JSON -> string + string;
  create_attachments : JSON -> string + list string
}.

Module BidsHandlers.
Section Handlers.
Context `{Platform} `{CreateBidRules}.

(** A [.required()] key with its ['any.required'] message. *)
Definition requiredKey {A} (k : string) (rule : JSON -> string + A)
           (missing : string) (body : list (string * JSON)) : string + A :=
  match BidsController.lookup k body with
  | None => inl missing
  | Some v => rule v
  end.

Definition unknownKey (known : list string) (body : list (string * JSON))
  : option string :=
  option_map fst
    (find (fun kv => negb (existsb (String.eqb (fst kv)) known)) body).

Definition notAllowed (k : string) : string :=
  BidsController.dquote ++ k ++ BidsController.dquote ++ " is not allowed".

(** [createBidSchema.validate(req.body)]. *)
Definition createBidSchema_validate (body : list (string * JSON))
  : string + PartialBid :=
  match requiredKey "gigId" create_gigId "Gig ID is required" body with
  | inl msg => inl msg
  | inr gigId =>
  match requiredKey "amount" create_amount "Bid amount is required" body with
  | inl msg => inl msg
  | inr amount =>
  match requiredKey "deliveryTime" create_deliveryTime
                    "Delivery time is required" body with
  | inl msg => inl msg
  | inr deliveryTime =>
  match requiredKey "proposal" create_proposal "Proposal is required" body with
  | inl msg => inl msg
  | inr proposal =>
  match BidsController.optionalKey "attachments" create_attachments body with
  | inl msg => inl msg
  | inr attachments =>
      match unknownKey ["gigId"; "amount"; "deliveryTime"; "proposal";
                        "attachments"] body with
      | Some k => inl (notAllowed k)
      | None =>
          inr (mkPartialBid (Some gigId) None None (Some amount)
                            (Some deliveryTime) (Some proposal) None
                            attachments)
      end
  end end end end end.

Definition createBid (body : list (string * JSON)) (freelancerId : string)
           (newId : ObjectId) (now : Date) : M Bid :=
  match createBidSchema_validate body with
  | inl msg => throw (ApiError 400 msg)
  | inr value => BidsService.createBid value freelancerId newId now
  end.

(** [bidStatusSchema.validate(req.body)]: [status] is required and is one of
    the two strings [valid] lists; any other value is ['any.only']. *)
Definition bidStatusSchema_validate (body : list (string * JSON))
  : string + Decision :=
  match BidsController.lookup "status" body with
  | None => inl "Status is required"
  | Some v =>
      match match v with
            | JStr s =>
                if String.eqb s "accepted" then Some accept
                else if String.eqb s "rejected" then Some reject
                else None
            | _ => None
            end with
      | None => inl "Status must be either accepted or rejected"
      | Some status =>
          match unknownKey ["status"] body with
          | Some k => inl (notAllowed k)
          | None => inr status
          end
      end
  end.

Definition updateBidStatus (body : list (string * JSON)) (bidId : string)
           (clientId : string) (now : Date) : M (option PopulatedBid) :=
  match bidStatusSchema_validate body with
  | inl msg => throw (ApiError 400 msg)
  | inr status => BidsService.updateBidStatus bidId status clientId now
  end.

Definition withdrawBid (bidId : string) (freelancerId : string) (now : Date)
  : M unit :=
  BidsService.withdrawBid bidId freelancerId now.
End Handlers.
End BidsHandlers.

(** ** GigsService: getGigById, updateGig, deleteGig *)

(** [Partial<IGig>], as far as it reaches the fields of [Gig]. *)
Record PartialGig := mkPartialGig {
  pg_title : option string;
  pg_freelancerId : option string;
  pg_isActive : option bool
}.

Fixpoint removeFirst {A} (p : A -> bool) (l : list A) : list A :=
  match l with
  | [] => []
  | x :: r => if p x then r else x :: removeFirst p r
  end.

Definition set_Gigs (gs : list Gig) (db : Db) : Db :=
  mkDb gs (Bids db) (Users db).

(** A gig after [populate('freelancerId', ...)]. *)
Record PopulatedGig := mkPopulatedGig {
  pop_doc : Gig;
  pop_owner : option UserCard
}.

Definition populateOwner (g : Gig) (db : Db) : PopulatedGig :=
  mkPopulatedGig g (populateUser (gig_freelancerId g) db).

Module GigsService.
Section Service.
Context `{Platform}.

(** The effect of an update document, already cast, on a gig. *)
Definition applyGigPatch (u : PartialGig) (g : Gig) : Gig :=
  mkGig (gig_id g) (default (gig_title g) (pg_title u))
        (default (gig_freelancerId g) (pg_freelancerId u))
        (default (gig_isActive g) (pg_isActive u)).

Definition getGigById (gigId : string) : M (option PopulatedGig) :=
  if negb (ObjectId_isValid gigId)
  then throw (ApiError 400 "Invalid gig ID")
  else
    id <- castObjectId "_id" gigId ;;
    gets (fun db =>
      option_map (fun g => populateOwner g db)
                 (find (fun g => String.eqb (gig_id g) id) (Gigs db))).

(** [Gig.findOne({ _id: gigId, freelancerId })]. *)
Definition Gig_findOwned (gigId freelancerId : string) : M (option Gig) :=
  id <- castObjectId "_id" gigId ;;
  fid <- castObjectId "freelancerId" freelancerId ;;
  gets (fun db =>
    find (fun g => String.eqb (gig_id g) id
                   && String.eqb (gig_freelancerId g) fid) (Gigs db)).

(** [Gig.findByIdAndUpdate(gigId, updateData, { new: true })
    .populate('freelancerId', ...)]. *)
Definition Gig_findByIdAndUpdate (gigId : string) (updateData : PartialGig)
  : M (option PopulatedGig) :=
  id <- castObjectId "_id" gigId ;;
  owner <- castOptionalId "freelancerId" (pg_freelancerId updateData) ;;
  let u := mkPartialGig (pg_title updateData) owner
                        (pg_isActive updateData) in
  fun db =>
    let db' := set_Gigs (updateFirst (fun g => String.eqb (gig_id g) id)
                                     (applyGigPatch u) (Gigs db)) db in
    (inr (option_map (fun g => populateOwner (applyGigPatch u g) db')
                     (find (fun g => String.eqb (gig_id g) id) (Gigs db))),
     db').

Definition updateGig (gigId : string) (updateData : PartialGig)
           (freelancerId : string) : M (option PopulatedGig) :=
  if negb (ObjectId_isValid gigId)
  then throw (ApiError 400 "Invalid gig ID")
  else
    gig <- Gig_findOwned gigId freelancerId ;;
    match gig with
    | None =>
        throw (ApiError 404
          "Gig not found or you do not have permission to update it")
    | Some _ => Gig_findByIdAndUpdate gigId updateData
    end.

Definition deleteGig (gigId : string) (freelancerId : string) : M unit :=
  if negb (ObjectId_isValid gigId)
  then throw (ApiError 400 "Invalid gig ID")
  else
    gig <- Gig_findOwned gigId freelancerId ;;
    match gig with
    | None =>
        throw (ApiError 404
          "Gig not found or you do not have permission to delete it")
    | Some _ =>
        id <- castObjectId "_id" gigId ;;
        modify (fun db =>
          set_Gigs (removeFirst (fun g => String.eqb (gig_id g) id)
                                (Gigs db)) db)
    end.
End Service.
End GigsService.

(** ** middleware/auth.middleware *)

(** The [Authorization] header: absent, ["Bearer "] followed by a token
    string, or anything else. *)
Inductive Authorization :=
| NoAuthorization
| Bearer (token : Jwt)
| OtherAuthorization (value : string).

(** [req.user]; a refresh-token payload has no [email] and no [role]. *)
Record ReqUser := mkReqUser {
  req_userId : ObjectId;
  req_email : option string;
  req_role : option Role
}.

Definition claimsOf (decoded : JwtPayload) : ReqUser :=
  match decoded with
  | AuthClaims userId email role => mkReqUser userId (Some email) (Some role)
  | RefreshClaims userId => mkReqUser userId None None
  end.

(** [authHeader && authHeader.startsWith('Bearer ') ? authHeader.substring(7)
    : null], followed by the test [if (token)]: the empty string is falsy. *)
Definition bearerToken (h : Authorization) : option Jwt :=
  match h with
  | Bearer (JwtOpaque EmptyString) => None
  | Bearer token => Some token
  | _ => None
  end.

Definition Role_eqb (a b : Role) : bool :=
  if Role_eq_dec a b then true else false.

Module AuthMiddleware.
Section Middleware.
Context `{Platform}.

(** The result is what the middleware hands on: [req.user] with [next()], or
    the error given to [next]. *)
Definition authenticate (h : Authorization) (now : Date) : M ReqUser :=
  try_catch
    (match bearerToken h with
     | None => throw (ApiError 401 "Access token is required")
     | Some token =>
         decoded <- jwt_verify token (jwt_secret config) now ;;
         id <- castObjectId "_id" (payload_userId decoded) ;;
         user <- User_findOne (fun u => String.eqb (user_id u) id) ;;
         match user with
         | None =>
             throw (ApiError 401 "User no longer exists or is inactive")
         | Some user =>
             if negb (user_isActive user)
             then throw (ApiError 401 "User no longer exists or is inactive")
             else ret (claimsOf decoded)
         end
     end)
    (fun error =>
       if instanceof_JsonWebTokenError error
       then throw (ApiError 401 "Invalid or expired token")
       else throw error).

(** [authorize(...roles)]. *)
Definition authorize (roles : list Role) (user : option ReqUser)
  : Error + unit :=
  match user with
  | None => inl (ApiError 401 "User not authenticated")
  | Some user =>
      if negb (match req_role user with
               | Some r => existsb (Role_eqb r) roles
               | None => false
               end)
      then inl (ApiError 403 "Insufficient permissions")
      else inr tt
  end.

(** The inner [try] swallows what the token check throws. *)
Definition optionalAuth (h : Authorization) (now : Date)
  : M (option ReqUser) :=
  match bearerToken h with
  | None => ret None
  | Some token =>
      try_catch
        (decoded <- jwt_verify token (jwt_secret config) now ;;
         id <- castObjectId "_id" (payload_userId decoded) ;;
         user <- User_findOne (fun u => String.eqb (user_id u) id) ;;
         match user with
         | Some user =>
             if user_isActive user then ret (Some (claimsOf decoded))
             else ret None
         | None => ret None
         end)
        (fun _ => ret None)
  end.
End Middleware.
End AuthMiddleware.

(** ** config/multer: fileFilter *)

(** [Express.Multer.File], the fields the filter reads. *)
Record UploadFile := mkUploadFile {
  file_fieldname : string;
  file_originalname : string;
  file_mimetype : string
}.

(** [path.extname] and [String.prototype.toLowerCase]. *)
Class NodeStrings := {
  path_extname : string -> string;
  toLowerCase : string -> string
}.

(** Whether [pat] occurs in [s]. *)
Fixpoint contains (pat s : string) : bool :=
  String.prefix pat s
  || match s with
     | EmptyString => false
     | String _ rest => contains pat rest
     end.

(** [/a|b|c/.test(s)] for literal alternatives. *)
Definition testAny (alternatives : list string) (s : string) : bool :=
  existsb (fun pat => contains pat s) alternatives.

Definition imageTypes : list string := ["jpeg"; "jpg"; "png"; "gif"; "webp"].

Definition documentTypes : list string := ["pdf"; "doc"; "docx"; "txt"].

(** [config.upload.allowedDocumentTypes]. *)
Definition allowedDocumentTypes : list string :=
  ["application/pdf"; "application/msword";
   "application/vnd.openxmlformats-officedocument.wordprocessingml.document";
   "text/plain"].

Section Upload.
Context `{NodeStrings}.

(** The value is what the filter passes to its callback: [cb(null, true)]
    or [cb(error)]. *)
Definition fileFilter (file : UploadFile) : Error + bool :=
  let extname := testAny imageTypes
                   (toLowerCase (path_extname (file_originalname file))) in
  let mimetype := testAny imageTypes (file_mimetype file) in
  if String.eqb (file_fieldname file) "profilePicture"
     || String.eqb (file_fieldname file) "gigImages"
  then
    if mimetype && extname then inr true
    else inl (ApiError 400
           "Only image files (jpeg, jpg, png, gif, webp) are allowed")
  else if String.eqb (file_fieldname file) "attachments"
  then
    let docExtname := testAny documentTypes
                        (toLowerCase (path_extname (file_originalname file))) in
    let docMimetype := testAny documentTypes (file_mimetype file) in
    if (mimetype && extname) || (docMimetype && docExtname) then inr true
    else inl (ApiError 400
           "Only image and document files are allowed for attachments")
  else inl (ApiError 400 "Invalid file field").
End Upload.

(** ** More about the bid lifecycle *)

Section MoreBidProperties.
Context `{Platform}.

(** The error a call threw, if it threw. *)
Definition bidOpError (op : BidOp) (db : Db) : option Error :=
  match op with
  | OpCreateBid d f i t =>
      match fst (BidsService.createBid d f i t db) with
      | inl e => Some e | inr _ => None
      end
  | OpUpdateBid b u f t =>
      match fst (BidsService.updateBid b u f t db) with
      | inl e => Some e | inr _ => None
      end
  | OpUpdateBidStatus b s c t =>
      match fst (BidsService.updateBidStatus b s c t db) with
      | inl e => Some e | inr _ => None
      end
  | OpWithdrawBid b f t =>
      match fst (BidsService.withdrawBid b f t db) with
      | inl e => Some e | inr _ => None
      end
  end.

Lemma statusUpdate_never_throws id s now db e db' :
  ObjectId_isValid id = true ->
  Bid_findByIdAndUpdate id (statusPatch s) now db <> (inl e, db').
Proof.
  intros Hv. unfold Bid_findByIdAndUpdate. unfold bind at 1.
  unfold castObjectId. rewrite Hv. cbn [ret]. unfold bind.
  rewrite castPatch_status.
  destruct (find _ (Bids db)) as [b|]; [|discriminate].
  rewrite samePair_statusPatch. cbn [negb andb]. discriminate.
Qed.

Lemma guard_misses (l : list Bid) (b : Bid) (who : Bid -> ObjectId)
      (id uid : ObjectId) :
  NoDup (map bid_id l) -> In b l -> bid_id b = id ->
  bid_status b <> pending \/ who b <> uid ->
  find (fun x => String.eqb (bid_id x) id
                 && String.eqb (who x) uid
                 && BidStatus_eqb (bid_status x) pending) l = None.
Proof.
  intros Hnd Hb Hid Hor.
  destruct (find _ l) as [x|] eqn:Hf; [|reflexivity].
  exfalso. apply find_some in Hf as [Hx Hp].
  apply andb_prop in Hp as [Hp Hs]. apply andb_prop in Hp as [Hi Hw].
  apply String.eqb_eq in Hi, Hw. apply BidStatus_eqb_eq in Hs.
  assert (x = b) by (apply (same_key_same_doc bid_id l); auto; congruence).
  subst x. tauto.
Qed.

Lemma Bid_findPending_misses (db : Db) (b : Bid) bidId path who userId :
  NoDup (map bid_id (Bids db)) -> In b (Bids db) ->
  ObjectId_isValid bidId = true -> ObjectId_cast bidId = bid_id b ->
  ObjectId_isValid userId = true ->
  bid_status b <> pending \/ who b <> ObjectId_cast userId ->
  Bid_findPending bidId path who userId db = (inr None, db).
Proof.
  intros Hnd Hin Hv Hc Hu Hor.
  rewrite Bid_findPending_run, Hu by exact Hv.
  now rewrite (guard_misses (Bids db) b who).
Qed.

(** The database a status change of [B] alone leaves. *)
Definition retargeted_db (B : Bid) (s : BidStatus) (now : Date) (db : Db)
  : Db :=
  set_Bids (map (patchTarget (bid_id B) (statusPatch s) now) (Bids db)) db.

Lemma retargeted_get (db : Db) (B : Bid) s now b :
  uniqueIds db -> In b (Bids db) ->
  getBid (bid_id b) (retargeted_db B s now db)
  = Some (patchTarget (bid_id B) (statusPatch s) now b).
Proof.
  intros Hnd Hb. unfold getBid, retargeted_db. cbn [Bids set_Bids].
  rewrite (find_map_same_key bid_id) by (intros; apply patchTarget_id).
  rewrite (find_unique bid_id _ (Bids db) b); auto using String.eqb_refl.
  intros x Hx. now apply String.eqb_eq.
Qed.

(** X1. Rejecting a pending bid as its client sets that bid to [rejected]
    and has no cascade: every other bid in the collection is the same
    document afterwards. [bidId] and [caller] are any spellings of the id
    of the bid and of its client. *)
Theorem reject_changes_only_the_target
  (db : Db) (B : Bid) (bidId caller : string) (now : Date) :
  uniqueIds db ->
  In B (Bids db) ->
  ObjectId_isValid bidId = true ->
  ObjectId_cast bidId = bid_id B ->
  ObjectId_isValid caller = true ->
  bid_status B = pending ->
  bid_clientId B = ObjectId_cast caller ->
  exists B' db',
    BidsService.updateBidStatus bidId reject caller now db
    = (inr (Some (populateBid B' db')), db')
    /\ bid_status B' = rejected
    /\ getBid (bid_id B) db' = Some B'
    /\ forall b, In b (Bids db) -> bid_id b <> bid_id B ->
                 getBid (bid_id b) db' = Some b.
Proof.
  intros Hnd Hin Hv Hi Hc Hst Hw.
  exists (applyPatch (statusPatch rejected) now B),
         (retargeted_db B rejected now db).
  split; [|split; [reflexivity|split]].
  - unfold BidsService.updateBidStatus. rewrite Hv. cbn [negb].
    unfold bind at 1.
    rewrite (Bid_findPending_finds db B bidId "clientId" bid_clientId caller)
      by auto.
    unfold bind at 1, ret. cbn [Decision_status].
    rewrite (populated_run _ db _ _ (statusUpdate_run db B bidId rejected now
                                       Hnd Hin Hv Hi)).
    reflexivity.
  - rewrite (retargeted_get db B rejected now B Hnd Hin).
    unfold patchTarget. now rewrite String.eqb_refl.
  - intros b Hb Hne. rewrite (retargeted_get db B rejected now b Hnd Hb).
    unfold patchTarget. apply String.eqb_neq in Hne. now rewrite Hne.
Qed.

(** X2. Withdrawing a pending bid as its freelancer sets that bid to
    [withdrawn] and leaves every other bid the same document. [bidId] and
    [caller] are any spellings of the id of the bid and of its
    freelancer. *)
Theorem withdraw_changes_only_the_target
  (db : Db) (B : Bid) (bidId caller : string) (now : Date) :
  uniqueIds db ->
  In B (Bids db) ->
  ObjectId_isValid bidId = true ->
  ObjectId_cast bidId = bid_id B ->
  ObjectId_isValid caller = true ->
  bid_status B = pending ->
  bid_freelancerId B = ObjectId_cast caller ->
  exists db',
    BidsService.withdrawBid bidId caller now db = (inr tt, db')
    /\ option_map bid_status (getBid (bid_id B) db') = Some withdrawn
    /\ forall b, In b (Bids db) -> bid_id b <> bid_id B ->
                 getBid (bid_id b) db' = Some b.
Proof.
  intros Hnd Hin Hv Hi Hc Hst Hw.
  exists (retargeted_db B withdrawn now db).
  split; [|split].
  - unfold BidsService.withdrawBid. rewrite Hv. cbn [negb].
    unfold bind at 1.
    rewrite (Bid_findPending_finds db B bidId "freelancerId"
               bid_freelancerId caller) by auto.
    unfold bind. now rewrite (statusUpdate_run db B).
  - rewrite (retargeted_get db B withdrawn now B Hnd Hin).
    unfold patchTarget. now rewrite String.eqb_refl.
  - intros b Hb Hne. rewrite (retargeted_get db B withdrawn now b Hnd Hb).
    unfold patchTarget. apply String.eqb_neq in Hne. now rewrite Hne.
Qed.

(** X3. [updateBidStatus] answers 404 and writes nothing when the bid is no
    longer pending or when the caller is not the client recorded on it: the
    two cases cannot be told apart from the answer. The ids are compared
    as ObjectIds: [bidId] is any spelling of the id of the bid, and the
    caller is not the client when the caller's id, once cast, is not the
    one recorded. *)
Theorem status_change_needs_pending_bid_and_its_client
  (db : Db) (b : Bid) (bidId : string) (status : Decision) (caller : string)
  (now : Date) :
  uniqueIds db ->
  In b (Bids db) ->
  ObjectId_isValid bidId = true ->
  ObjectId_cast bidId = bid_id b ->
  ObjectId_isValid caller = true ->
  bid_status b <> pending \/ bid_clientId b <> ObjectId_cast caller ->
  BidsService.updateBidStatus bidId status caller now db
  = (inl (ApiError 404 BidsService.notUpdatable), db).
Proof.
  intros Hnd Hb Hv Hi Hc Hor.
  unfold BidsService.updateBidStatus. rewrite Hv. cbn [negb].
  unfold bind at 1.
  now rewrite (Bid_findPending_misses db b bidId "clientId" bid_clientId
                 caller).
Qed.

(** X4. [updateBid] and [withdrawBid] answer 404 and write nothing when the
    bid is no longer pending or when the caller is not the freelancer who
    placed it. The ids are compared as ObjectIds: [bidId] is any spelling
    of the id of the bid, and the caller is not the freelancer when the
    caller's id, once cast, is not the one recorded. *)
Theorem update_and_withdraw_need_pending_bid_and_its_freelancer
  (db : Db) (b : Bid) (bidId : string) (updateData : PartialBid)
  (caller : string) (now : Date) :
  uniqueIds db ->
  In b (Bids db) ->
  ObjectId_isValid bidId = true ->
  ObjectId_cast bidId = bid_id b ->
  ObjectId_isValid caller = true ->
  bid_status b <> pending \/ bid_freelancerId b <> ObjectId_cast caller ->
  BidsService.updateBid bidId updateData caller now db
  = (inl (ApiError 404 BidsService.notUpdatable), db)
  /\ BidsService.withdrawBid bidId caller now db
     = (inl (ApiError 404 BidsService.notWithdrawable), db).
Proof.
  intros Hnd Hb Hv Hi Hc Hor.
  unfold BidsService.updateBid, BidsService.withdrawBid. rewrite Hv.
  cbn [negb]. unfold bind at 1 3.
  rewrite (Bid_findPending_misses db b bidId "freelancerId" bid_freelancerId
             caller) by auto.
  split; reflexivity.
Qed.

(** X5. After a bid on a gig has been accepted, no bid on that gig is
    pending. [bidId] and [caller] are any spellings of the id of the bid and
    of its client. *)
Theorem accept_leaves_no_pending_bid_on_the_gig
  (db : Db) (B : Bid) (bidId caller : string) (now : Date) :
  uniqueIds db ->
  In B (Bids db) ->
  ObjectId_isValid bidId = true ->
  ObjectId_cast bidId = bid_id B ->
  ObjectId_isValid caller = true ->
  bid_status B = pending ->
  bid_clientId B = ObjectId_cast caller ->
  forall b,
    In b (Bids (snd (BidsService.updateBidStatus bidId accept caller
                                                 now db))) ->
    bid_gigId b = bid_gigId B ->
    bid_status b <> pending.
Proof.
  intros Hnd Hin Hv Hi Hc Hst Hw b.
  rewrite (accept_run db B) by auto. unfold accepted_db.
  cbn [snd Bids set_Bids].
  rewrite map_map. intros Hb Hg. apply in_map_iff in Hb as [x [<- Hx]].
  unfold patchTarget, rejectSibling in *.
  destruct (String.eqb (bid_id x) (bid_id B)) eqn:Ei; cbn [negb] in *.
  - rewrite andb_false_r, Ei. discriminate.
  - rewrite andb_true_r in *.
    destruct (String.eqb (bid_gigId x) (bid_gigId B)) eqn:Eg;
      destruct (BidStatus_eqb (bid_status x) pending) eqn:Es;
      cbn [andb] in *; rewrite ?applyPatch_id, Ei in *;
      try discriminate.
    + intros E. apply BidStatus_eqb_eq in E. congruence.
    + apply String.eqb_neq in Eg. contradiction.
    + apply String.eqb_neq in Eg. contradiction.
Qed.

Lemma find_snoc_fresh {A} (p : A -> bool) (l : list A) (x : A) :
  (forall y, In y l -> p y = false) -> p x = true ->
  find p (l ++ [x]) = Some x.
Proof.
  intros Hl Hx. induction l as [|y l IH]; cbn [app find].
  - now rewrite Hx.
  - rewrite (Hl y) by now left. apply IH. intros z Hz. apply Hl. now right.
Qed.

Lemma update_throws_unchanged id u now db e db' :
  Bid_findByIdAndUpdate id u now db = (inl e, db') -> db' = db.
Proof.
  intros E. apply Bid_findByIdAndUpdate_inv in E as [[-> _]|E];
    [reflexivity|].
  destruct E as (b & _ & Hr & _). discriminate.
Qed.

Lemma populatedResult_throws r0 db e :
  inl e = populatedResult r0 db -> r0 = inl e.
Proof. destruct r0; cbn; congruence. Qed.

Lemma updateBidStatus_throws_unchanged bidId st cid now db e db' :
  BidsService.updateBidStatus bidId st cid now db = (inl e, db') -> db' = db.
Proof.
  intros E. destruct (ObjectId_isValid bidId) eqn:Hv.
  - apply updateBidStatus_inv in E
      as [[-> _]|(g & db1 & r0 & _ & _ & _ & _ & _ & E & Hr)]; [reflexivity|].
    apply populatedResult_throws in Hr. subst r0.
    now apply statusUpdate_never_throws in E.
  - revert E. unfold BidsService.updateBidStatus, throw. rewrite Hv.
    cbn [negb]. congruence.
Qed.

Lemma withdrawBid_throws_unchanged bidId fid now db e db' :
  BidsService.withdrawBid bidId fid now db = (inl e, db') -> db' = db.
Proof.
  unfold BidsService.withdrawBid, throw.
  intros E.
  destruct (ObjectId_isValid bidId) eqn:Hv; cbn [negb] in E; [|congruence].
  unfold bind at 1 in E.
  destruct (Bid_findPending _ _ _ _ db) as [rg db0] eqn:Hg.
  apply Bid_findPending_inv in Hg
    as [-> [[e0 ->]|[->|(g & -> & _)]]];
    [congruence | congruence | | exact Hv].
  exfalso. unfold bind in E.
  destruct (Bid_findByIdAndUpdate bidId (statusPatch withdrawn) now db)
    as [[e0|r] d'] eqn:E2; [|discriminate].
  exact (statusUpdate_never_throws _ _ _ _ _ _ Hv E2).
Qed.

(** X6. A [BidsService] call that throws has written nothing: the database
    after it is the database before it. In particular the cascade of an
    acceptance never happens without the acceptance. *)
Theorem failed_bid_call_writes_nothing
  (op : BidOp) (db : Db) (e : Error) :
  bidOpError op db = Some e -> runBidOp op db = db.
Proof.
  destruct op; cbn [bidOpError runBidOp].
  - destruct (BidsService.createBid _ _ _ _ db) as [[e0|b] db'] eqn:E;
      [|discriminate].
    intros _. apply createBid_inv in E as [[-> _]|E]; [reflexivity|].
    destruct E as (gid & g & b & _ & _ & _ & _ & _ & _ & _ & _ & _ & _ & _
                   & _ & Hr & _). discriminate.
  - destruct (BidsService.updateBid _ _ _ _ db) as [[e0|b] db'] eqn:E;
      [|discriminate].
    intros _. apply updateBid_inv in E
      as [[-> _]|(g & r0 & _ & _ & _ & _ & E & Hr)]; [reflexivity|].
    apply populatedResult_throws in Hr. subst r0.
    cbn [snd]. exact (update_throws_unchanged _ _ _ _ _ _ E).
  - destruct (BidsService.updateBidStatus _ _ _ _ db) as [[e0|b] db'] eqn:E;
      [|discriminate].
    intros _. exact (updateBidStatus_throws_unchanged _ _ _ _ _ _ _ E).
  - destruct (BidsService.withdrawBid _ _ _ db) as [[e0|b] db'] eqn:E;
      [|discriminate].
    intros _. exact (withdrawBid_throws_unchanged _ _ _ _ _ _ E).
Qed.

(** X7. No [BidsService] call deletes a bid, changes the [_id] or the place
    of one, or touches a gig or a user: the list of bid ids afterwards is the
    list before, with the id of the new bid at its end when the call was a
    [createBid] that succeeded. *)
Theorem bid_calls_keep_every_document (op : BidOp) (db : Db) :
  Gigs (runBidOp op db) = Gigs db
  /\ Users (runBidOp op db) = Users db
  /\ (map bid_id (Bids (runBidOp op db)) = map bid_id (Bids db)
      \/ exists bidData freelancerId newId now,
           op = OpCreateBid bidData freelancerId newId now
           /\ bidOpError op db = None
           /\ map bid_id (Bids (runBidOp op db))
              = (map bid_id (Bids db) ++ [newId])%list).
Proof.
  destruct op; cbn [runBidOp bidOpError].
  - destruct (BidsService.createBid _ _ _ _ db) as [r db'] eqn:E.
    apply createBid_inv in E as [[-> _]|E]; [auto|].
    destruct E as (gid & g & b & _ & _ & _ & _ & _ & _ & _ & _ & Hid & _ & _
                   & _ & -> & ->).
    cbn [snd fst Gigs Users Bids set_Bids]. split; [reflexivity|].
    split; [reflexivity|]. right. do 4 eexists. split; [reflexivity|].
    split; [reflexivity|]. rewrite map_app. cbn [map]. now rewrite Hid.
  - destruct (BidsService.updateBid _ _ _ _ db) as [r db'] eqn:E.
    apply updateBid_inv in E
      as [[-> _]|(g & r0 & _ & _ & _ & _ & E & _)]; [auto|].
    cbn [snd]. destruct (update_keeps_gigs_users _ _ _ _ _ _ E) as [-> ->].
    rewrite (update_keeps_ids _ _ _ _ _ _ E). auto.
  - destruct (BidsService.updateBidStatus _ _ _ _ db) as [r db'] eqn:E.
    apply updateBidStatus_inv in E
      as [[-> _]|(g & db1 & r0 & _ & _ & _ & _ & H1 & E & _)]; [auto|].
    cbn [snd]. destruct (update_keeps_gigs_users _ _ _ _ _ _ E) as [-> ->].
    rewrite (update_keeps_ids _ _ _ _ _ _ E).
    destruct H1 as [->|[_ ->]]; [auto|]. cbn [Gigs Users Bids set_Bids].
    split; [reflexivity|]. split; [reflexivity|]. left. rewrite map_map.
    apply map_ext. intros; apply rejectSibling_id.
  - destruct (BidsService.withdrawBid _ _ _ db) as [r db'] eqn:E.
    apply withdrawBid_inv in E as [->|(g & r0 & _ & _ & _ & _ & E)]; [auto|].
    cbn [snd]. destruct (update_keeps_gigs_users _ _ _ _ _ _ E) as [-> ->].
    rewrite (update_keeps_ids _ _ _ _ _ _ E). auto.
Qed.

Lemma Bid_create_inv doc fid cid newId now db b db' :
  Bid_create doc fid cid newId now db = (inr b, db') ->
  bidSchema_validate b = true
  /\ bid_id b = newId /\ bid_freelancerId b = fid /\ bid_clientId b = cid
  /\ (exists gid, p_gigId doc = Some gid /\ bid_gigId b = ObjectId_cast gid)
  /\ bid_status b = default pending (p_status doc)
  /\ bid_createdAt b = now
  /\ existsb (fun x => String.eqb (bid_id x) newId || samePair x b)
             (Bids db) = false
  /\ db' = set_Bids (Bids db ++ [b]) db.
Proof.
  unfold Bid_create, Bid_insert, bind, castObjectId, throw, ret.
  destruct (p_gigId doc) as [gid|]; [|discriminate].
  destruct (p_amount doc) as [a|]; [|discriminate].
  destruct (p_deliveryTime doc) as [t|]; [|discriminate].
  destruct (p_proposal doc) as [p|]; [|discriminate].
  destruct (ObjectId_isValid gid); [|discriminate].
  destruct (bidSchema_validate _) eqn:Hval; [|discriminate].
  match goal with |- context [existsb ?f ?l] =>
    destruct (existsb f l) eqn:He end; [discriminate|].
  intros E. injection E as <- <-. cbn [bid_id] in He. eauto 12.
Qed.

Lemma createBid_status d fid newId now db b db' :
  BidsService.createBid d fid newId now db = (inr b, db') ->
  bid_status b = default pending (p_status d).
Proof.
  rewrite createBid_unfold.
  destruct (p_gigId d) as [gid|]; [|discriminate].
  destruct (ObjectId_isValid gid); [|discriminate].
  destruct (find _ (Gigs db)) as [g|]; [|discriminate].
  destruct (negb _); [discriminate|].
  destruct (String.eqb (gig_freelancerId g) fid); [discriminate|].
  destruct (ObjectId_isValid fid); [|discriminate].
  destruct (find _ (Bids db)); [discriminate|].
  intros E. now apply Bid_create_inv in E.
Qed.

(** X8. A [createBid] that succeeds returns the stored document: it is found
    under the new id, it passes the validators of the schema, it names an
    active gig of the database, the caller's id, cast, as freelancer and the
    owner of that gig as client, and every bid that was there before is
    still there. The owner's id is not the string the caller's id arrived
    as; when that string was in canonical form, client and freelancer are
    different users. *)
Theorem created_bid_is_stored_and_valid
  (db : Db) (bidData : PartialBid) (freelancerId : string)
  (newId : ObjectId) (now : Date) (b : Bid) (db' : Db) :
  BidsService.createBid bidData freelancerId newId now db = (inr b, db') ->
  getBid newId db' = Some b
  /\ bidSchema_validate b = true
  /\ bid_freelancerId b = ObjectId_cast freelancerId
  /\ bid_status b = default pending (p_status bidData)
  /\ bid_createdAt b = now
  /\ (exists gig, In gig (Gigs db) /\ gig_id gig = bid_gigId b
                  /\ gig_isActive gig = true
                  /\ gig_freelancerId gig = bid_clientId b
                  /\ bid_clientId b <> freelancerId)
  /\ (ObjectId_cast freelancerId = freelancerId ->
      bid_clientId b <> bid_freelancerId b)
  /\ forall x, In x (Bids db) -> In x (Bids db').
Proof.
  rewrite createBid_unfold.
  destruct (p_gigId bidData) as [gid|] eqn:Hg; [|discriminate].
  destruct (ObjectId_isValid gid) eqn:Hv; [|discriminate].
  destruct (find _ (Gigs db)) as [g|] eqn:Hf; [|discriminate].
  destruct (gig_isActive g) eqn:Ha; cbn [negb]; [|discriminate].
  destruct (String.eqb_spec (gig_freelancerId g) freelancerId) as [Eo|Eo];
    [discriminate|].
  destruct (ObjectId_isValid freelancerId) eqn:Hvf; [|discriminate].
  destruct (find _ (Bids db)) as [x|] eqn:Hx; [discriminate|].
  intros E. apply Bid_create_inv in E
    as (Hval & Hid & Hbf & Hbc & (gid' & Hg' & Hbg) & Hst & Hat & He & ->).
  rewrite Hg in Hg'. injection Hg' as <-.
  apply find_some in Hf as [Hgin Hgid]. apply String.eqb_eq in Hgid.
  split; [|split; [exact Hval|]].
  - unfold getBid. cbn [Bids set_Bids]. apply find_snoc_fresh.
    + intros y Hy. apply (existsb_false_In _ _ y) in He; [|assumption].
      cbv beta in He. now apply orb_false_elim in He as [He _].
    + rewrite Hid. apply String.eqb_refl.
  - split; [exact Hbf|]. split; [exact Hst|]. split; [exact Hat|].
    split; [|split].
    + exists g. rewrite Hbg, Hbc. auto.
    + intros Hcanon. rewrite Hbc, Hbf, Hcanon. exact Eo.
    + intros y Hy. cbn [Bids set_Bids]. apply in_or_app. now left.
Qed.

(** X9. [getBidById] returns a bid only to one of its two parties: when it
    returns, the document is the stored bid with the given id, in whatever
    spelling the id was given, and the caller's id is, as a string, the id
    of its freelancer or of its client. When the accounts of both parties
    exist and the caller's id is neither string, the answer is 403. *)
Theorem bid_is_shown_to_its_parties_only
  (db : Db) (bidId userId : string) :
  (forall bid,
      BidsServiceReads.getBidById bidId userId db = inr bid ->
      In (pop_bid bid) (Bids db)
      /\ bid_id (pop_bid bid) = ObjectId_cast bidId
      /\ (bid_freelancerId (pop_bid bid) = userId
          \/ bid_clientId (pop_bid bid) = userId))
  /\ (forall b,
         uniqueIds db -> In b (Bids db) ->
         ObjectId_isValid bidId = true ->
         ObjectId_cast bidId = bid_id b ->
         getUser (bid_freelancerId b) db <> None ->
         getUser (bid_clientId b) db <> None ->
         bid_freelancerId b <> userId -> bid_clientId b <> userId ->
         BidsServiceReads.getBidById bidId userId db
         = inl (Raised (ApiError 403
                  "You do not have permission to view this bid"))).
Proof.
  assert (Hcard : forall id c, populateUser id db = Some c -> card_id c = id).
  { unfold populateUser. intros id c Hc.
    destruct (find _ (Users db)) as [u|] eqn:Hu; [|discriminate].
    apply find_some in Hu as [_ Hu]. apply String.eqb_eq in Hu.
    cbn [option_map] in Hc. injection Hc as <-. exact Hu. }
  split.
  - intros bid. unfold BidsServiceReads.getBidById.
    destruct (ObjectId_isValid bidId); cbn [negb]; [|discriminate].
    destruct (find _ (Bids db)) as [b|] eqn:Hf; [|discriminate].
    apply find_some in Hf as [Hin Hid]. apply String.eqb_eq in Hid.
    cbn [populateBid pop_freelancer pop_client].
    destruct (populateUser (bid_freelancerId b) db) as [f|] eqn:Hpf;
      [|discriminate].
    apply Hcard in Hpf.
    destruct (String.eqb_spec (card_id f) userId) as [Ef|Ef]; cbn [negb].
    + intros E. injection E as <-. cbn [pop_bid]. rewrite <- Ef, Hpf. auto.
    + destruct (populateUser (bid_clientId b) db) as [c|] eqn:Hpc;
        [|discriminate].
      apply Hcard in Hpc.
      destruct (String.eqb_spec (card_id c) userId) as [Ec|Ec]; cbn [negb];
        [|discriminate].
      intros E. injection E as <-. cbn [pop_bid]. rewrite <- Ec, Hpc. auto.
  - intros b Hnd Hin Hv Hid Hf Hc Hnf Hnc.
    unfold BidsServiceReads.getBidById. rewrite Hv. cbn [negb].
    rewrite Hid.
    rewrite (find_unique bid_id _ (Bids db) b); auto using String.eqb_refl;
      [|intros x Hx; now apply String.eqb_eq].
    cbn [populateBid pop_freelancer pop_client].
    assert (Hsome : forall id, getUser id db <> None ->
                      exists c, populateUser id db = Some c).
    { unfold getUser, populateUser. intros id Hn.
      destruct (find _ (Users db)); [cbn; eauto | contradiction]. }
    destruct (Hsome _ Hf) as [f Hpf]. destruct (Hsome _ Hc) as [c Hpc].
    rewrite Hpf, Hpc. apply Hcard in Hpf, Hpc. rewrite Hpf, Hpc.
    apply String.eqb_neq in Hnf, Hnc. now rewrite Hnf, Hnc.
Qed.
End MoreBidProperties.

Section HandlerProperties.
Context `{Platform} `{CreateBidRules}.

(** X10. Through the controller, a created bid is always pending: the body
    cannot set the status, the freelancer or the client. The freelancer is
    the caller's id, cast, the client is the owner of the gig the body
    names, in whatever spelling it names it, and a refused request changes
    nothing. The owner's id is not the string [req.user.userId]; when that
    string is in canonical form, as in the tokens the server issues, client
    and freelancer are different users. *)
Theorem controller_creates_pending_bids_for_the_caller
  (db : Db) (body : list (string * JSON)) (caller : string)
  (newId : ObjectId) (now : Date) (r : Error + Bid) (db' : Db) :
  BidsHandlers.createBid body caller newId now db = (r, db') ->
  match r with
  | inl _ => db' = db
  | inr b =>
      bid_status b = pending
      /\ bid_freelancerId b = ObjectId_cast caller
      /\ bid_clientId b <> caller
      /\ (ObjectId_cast caller = caller ->
          bid_clientId b <> bid_freelancerId b)
      /\ getBid newId db' = Some b
      /\ exists gig, In gig (Gigs db) /\ gig_id gig = bid_gigId b
                     /\ gig_freelancerId gig = bid_clientId b
  end.
Proof.
  unfold BidsHandlers.createBid.
  destruct (BidsHandlers.createBidSchema_validate body) as [msg|value] eqn:Hv.
  - unfold throw. intros E. now inversion E.
  - assert (Hs : p_status value = None).
    { revert Hv. unfold BidsHandlers.createBidSchema_validate.
      repeat match goal with
             | |- context [match ?x with inl _ => _ | inr _ => _ end] =>
                 destruct x; [discriminate|]
             end.
      destruct (BidsHandlers.unknownKey _ body); [discriminate|].
      intros E. now inversion E. }
    destruct r as [e|b]; intros E.
    + apply createBid_inv in E as [[-> _]|E]; [reflexivity|].
      destruct E as (gid & g & b & _ & _ & _ & _ & _ & _ & _ & _ & _ & _ & _
                     & _ & Hr & _). discriminate.
    + pose proof (createBid_status _ _ _ _ _ _ _ E) as Hst.
      rewrite Hs in Hst. cbn [default] in Hst.
      apply createBid_inv in E as [[_ [e He]]|E]; [discriminate|].
      destruct E as (gid & g & b0 & _ & _ & _ & Hgig & _ & Hown & _ & He
                     & Hid & Hbg & Hbf & Hbc & Hr & ->).
      injection Hr as <-. apply find_some in Hgig as [Hgin Hgid].
      apply String.eqb_eq in Hgid.
      split; [exact Hst|]. split; [exact Hbf|].
      split; [congruence|].
      split; [intros Hcanon; rewrite Hbc, Hbf, Hcanon; exact Hown|]. split.
      * unfold getBid. cbn [Bids set_Bids]. apply find_snoc_fresh.
        -- intros y Hy. apply (existsb_false_In _ _ y) in He; [|assumption].
           cbv beta in He. now apply orb_false_elim in He as [He _].
        -- rewrite Hid. apply String.eqb_refl.
      * exists g. split; [exact Hgin|]. split; congruence.
Qed.
End HandlerProperties.

(** ** Gigs and the bids on them *)

Section GigProperties.
Context `{Platform}.

Lemma find_removeFirst_gone (k : string) (l : list Gig) :
  NoDup (map gig_id l) ->
  find (fun g => String.eqb (gig_id g) k)
       (removeFirst (fun g => String.eqb (gig_id g) k) l) = None.
Proof.
  induction l as [|x r IH]; cbn [removeFirst find map]; [reflexivity|].
  intros Hnd. inversion Hnd as [|? ? Hx Hr]; subst.
  destruct (String.eqb_spec (gig_id x) k) as [E|E].
  - destruct (find _ r) as [y|] eqn:Hy; [|reflexivity].
    apply find_some in Hy as [Hin Hk]. apply String.eqb_eq in Hk.
    exfalso. apply Hx. rewrite E, <- Hk. now apply in_map.
  - cbn [find]. apply String.eqb_neq in E. rewrite E. now apply IH.
Qed.

Lemma In_removeFirst_other {A} (p : A -> bool) (l : list A) (x : A) :
  In x l -> p x = false -> In x (removeFirst p l).
Proof.
  induction l as [|y r IH]; cbn [removeFirst]; [tauto|].
  intros [->|Hx] Hp.
  - rewrite Hp. now left.
  - destruct (p y); [assumption | right; now apply IH].
Qed.

Lemma createBid_without_gig d fid newId now db gigId :
  p_gigId d = Some gigId ->
  match getGig (ObjectId_cast gigId) db with
  | Some g => gig_isActive g = false
  | None => True
  end ->
  ObjectId_isValid gigId = true ->
  BidsService.createBid d fid newId now db
  = (inl (ApiError 404 "Gig not found or is not active"), db).
Proof.
  intros Hg Hgig Hv. rewrite createBid_unfold, Hg, Hv.
  unfold getGig in Hgig.
  destruct (find _ (Gigs db)) as [g|]; [|reflexivity].
  now rewrite Hgig.
Qed.

(** The answer of a call without the populated references. *)
Definition plainResult (r : Error + option PopulatedBid)
  : Error + option Bid :=
  match r with
  | inl e => inl e
  | inr res => inr (option_map pop_bid res)
  end.

Lemma plain_populatedResult r0 db : plainResult (populatedResult r0 db) = r0.
Proof. destruct r0 as [e|[b|]]; reflexivity. Qed.

Lemma castPatch_reads_nothing u db1 db2 :
  fst (castPatch u db1) = fst (castPatch u db2).
Proof.
  unfold castPatch, bind, castOptionalId, bind, castObjectId, throw, ret.
  destruct (p_gigId u) as [g|];
    [destruct (ObjectId_isValid g); [|reflexivity]|];
    (destruct (p_freelancerId u) as [f|];
     [destruct (ObjectId_isValid f); [|reflexivity]|]);
    (destruct (p_clientId u) as [c|];
     [destruct (ObjectId_isValid c); [|reflexivity]|]);
    reflexivity.
Qed.

Lemma Bid_findByIdAndUpdate_reads_bids_only bidId u now db1 db2 :
  Bids db1 = Bids db2 ->
  fst (Bid_findByIdAndUpdate bidId u now db1)
  = fst (Bid_findByIdAndUpdate bidId u now db2)
  /\ Bids (snd (Bid_findByIdAndUpdate bidId u now db1))
     = Bids (snd (Bid_findByIdAndUpdate bidId u now db2)).
Proof.
  intros Hb.
  destruct (Bid_findByIdAndUpdate bidId u now db1) as [r1 d1] eqn:E1.
  destruct (Bid_findByIdAndUpdate bidId u now db2) as [r2 d2] eqn:E2.
  revert E1 E2. unfold Bid_findByIdAndUpdate.
  unfold bind at 1 3. unfold castObjectId, throw, ret.
  destruct (ObjectId_isValid bidId).
  2:{ intros E1 E2. inversion E1; inversion E2; subst. now split. }
  unfold bind.
  assert (Hc := castPatch_reads_nothing u db1 db2).
  destruct (castPatch u db1) as [c1 x1] eqn:C1.
  destruct (castPatch u db2) as [c2 x2] eqn:C2.
  apply castPatch_inv in C1 as [-> _]. apply castPatch_inv in C2 as [-> _].
  cbn [fst] in Hc. subst c2. rewrite Hb.
  destruct c1 as [e|u'].
  { intros E1 E2. inversion E1; inversion E2; subst. now split. }
  destruct (find _ (Bids db2)) as [b|].
  2:{ intros E1 E2. inversion E1; inversion E2; subst. now split. }
  destruct (negb _ && _); intros E1 E2; inversion E1; inversion E2; subst;
    now split.
Qed.

(** [updateBidStatus], query by query. *)
Lemma updateBidStatus_unfold bidId st cid now db :
  BidsService.updateBidStatus bidId st cid now db
  = if ObjectId_isValid bidId
    then
      if ObjectId_isValid cid
      then
        match find (fun b => String.eqb (bid_id b) (ObjectId_cast bidId)
                             && String.eqb (bid_clientId b)
                                           (ObjectId_cast cid)
                             && BidStatus_eqb (bid_status b) pending)
                   (Bids db) with
        | None => (inl (ApiError 404 BidsService.notUpdatable), db)
        | Some bid =>
            let db1 :=
              match st with
              | accept =>
                  set_Bids
                    (map (fun b =>
                            if String.eqb (bid_gigId b) (bid_gigId bid)
                               && BidStatus_eqb (bid_status b) pending
                               && negb (String.eqb (bid_id b)
                                                   (ObjectId_cast bidId))
                            then applyPatch (statusPatch rejected) now b
                            else b) (Bids db)) db
              | reject => db
              end in
            let res := Bid_findByIdAndUpdate bidId
                         (statusPatch (Decision_status st)) now db1 in
            (populatedResult (fst res) (snd res), snd res)
        end
      else (inl (CastError "clientId"), db)
    else (inl (ApiError 400 "Invalid bid ID"), db).
Proof.
  unfold BidsService.updateBidStatus, throw.
  destruct (ObjectId_isValid bidId) eqn:Hv; cbn [negb]; [|reflexivity].
  unfold bind at 1. rewrite Bid_findPending_run by exact Hv.
  destruct (ObjectId_isValid cid); [|reflexivity].
  destruct (find _ (Bids db)) as [bid|]; [|reflexivity].
  unfold bind at 1.
  destruct st.
  - unfold bind at 1, castObjectId, Bid_updateMany, modify, ret.
    rewrite Hv. cbv zeta.
    match goal with
    | |- context [Bid_findByIdAndUpdate ?i ?u ?t ?d] =>
        destruct (Bid_findByIdAndUpdate i u t d) as [r0 d'] eqn:Hu
    end.
    now rewrite (populated_run _ _ _ _ Hu).
  - unfold ret. cbv zeta.
    destruct (Bid_findByIdAndUpdate bidId
                (statusPatch (Decision_status reject)) now db)
      as [r0 d'] eqn:Hu.
    now rewrite (populated_run _ _ _ _ Hu).
Qed.

(** The calls that change the status of a bid read the gigs and the users
    only to populate their answer. *)
Lemma updateBidStatus_reads_bids_only bidId st cid now db1 db2 :
  Bids db1 = Bids db2 ->
  plainResult (fst (BidsService.updateBidStatus bidId st cid now db1))
  = plainResult (fst (BidsService.updateBidStatus bidId st cid now db2))
  /\ Bids (snd (BidsService.updateBidStatus bidId st cid now db1))
     = Bids (snd (BidsService.updateBidStatus bidId st cid now db2)).
Proof.
  intros Hb. rewrite !updateBidStatus_unfold, Hb.
  destruct (ObjectId_isValid bidId); [|now split].
  destruct (ObjectId_isValid cid); [|now split].
  destruct (find _ (Bids db2)) as [bid|]; [|now split].
  cbv zeta. cbn [fst snd]. rewrite !plain_populatedResult.
  apply Bid_findByIdAndUpdate_reads_bids_only.
  now destruct st.
Qed.

(** X11. [deleteGig] succeeds only for a gig of the caller and removes that
    gig alone; the bids on it stay in the collection. Afterwards every
    [createBid] for the gig, in whatever spelling of its id, is answered
    404, while [updateBidStatus] still accepts and rejects the bids on the
    gig: it writes what it would have written before the deletion and
    returns the same bid, but with [gigId] populated as [null] where it
    names the deleted gig. *)
Theorem deleted_gig_takes_no_bids_and_keeps_its_bids
  (db : Db) (gigId caller : string) (db' : Db) :
  uniqueGigIds db ->
  GigsService.deleteGig gigId caller db = (inr tt, db') ->
  (exists g, In g (Gigs db) /\ gig_id g = ObjectId_cast gigId
             /\ gig_freelancerId g = ObjectId_cast caller)
  /\ getGig (ObjectId_cast gigId) db' = None
  /\ (forall g, In g (Gigs db) -> gig_id g <> ObjectId_cast gigId ->
                In g (Gigs db'))
  /\ Bids db' = Bids db /\ Users db' = Users db
  /\ (forall bidData gigId' freelancerId newId now,
         p_gigId bidData = Some gigId' ->
         ObjectId_isValid gigId' = true ->
         ObjectId_cast gigId' = ObjectId_cast gigId ->
         BidsService.createBid bidData freelancerId newId now db'
         = (inl (ApiError 404 "Gig not found or is not active"), db'))
  /\ (forall bidId status clientId now,
         plainResult
           (fst (BidsService.updateBidStatus bidId status clientId now db'))
         = plainResult
             (fst (BidsService.updateBidStatus bidId status clientId now db))
         /\ Bids (snd (BidsService.updateBidStatus bidId status clientId now
                                                   db'))
            = Bids (snd (BidsService.updateBidStatus bidId status clientId
                                                     now db))
         /\ forall bid db'',
              BidsService.updateBidStatus bidId status clientId now db'
              = (inr (Some bid), db'') ->
              bid_gigId (pop_bid bid) = ObjectId_cast gigId ->
              pop_gig bid = None).
Proof.
  intros Hnd. unfold GigsService.deleteGig, GigsService.Gig_findOwned, bind,
    castObjectId, gets, modify, throw, ret.
  destruct (ObjectId_isValid gigId) eqn:Hv; cbn [negb]; [|discriminate].
  destruct (ObjectId_isValid caller); [|discriminate].
  destruct (find _ (Gigs db)) as [g|] eqn:Hf; [|discriminate].
  intros E. injection E as <-.
  apply find_some in Hf as [Hin Hp]. apply andb_prop in Hp as [Hi Ho].
  apply String.eqb_eq in Hi, Ho.
  set (db' := set_Gigs _ db).
  assert (Hgone : getGig (ObjectId_cast gigId) db' = None)
    by (unfold getGig; cbn [Gigs set_Gigs db'];
        now apply find_removeFirst_gone).
  split; [eauto|]. split; [exact Hgone|]. split.
  { intros x Hx Hne. cbn [Gigs set_Gigs db']. apply In_removeFirst_other; auto.
    now apply String.eqb_neq. }
  split; [reflexivity|]. split; [reflexivity|]. split.
  - intros d gigId' fid newId now Hg Hv' Hc.
    apply (createBid_without_gig _ _ _ _ _ gigId'); auto.
    now rewrite Hc, Hgone.
  - intros bidId status clientId now.
    destruct (updateBidStatus_reads_bids_only bidId status clientId now
                db' db eq_refl) as [Hfst Hsnd].
    split; [exact Hfst|]. split; [exact Hsnd|].
    intros bid db'' E Hg.
    apply updateBidStatus_inv in E
      as [E|(x & db1 & r0 & _ & _ & _ & _ & H1 & E & Hr)].
    + destruct E as [_ [e He]]. discriminate.
    + assert (Hgigs : Gigs db'' = Gigs db').
      { destruct (update_keeps_gigs_users _ _ _ _ _ _ E) as [-> _].
        now destruct H1 as [->|[_ ->]]. }
      destruct r0 as [e|[b|]]; try discriminate.
      cbn [populatedResult option_map] in Hr. injection Hr as ->.
      cbn [pop_gig pop_bid populateBid] in *. rewrite Hg.
      unfold populateGig. rewrite Hgigs.
      fold (getGig (ObjectId_cast gigId) db').
      now rewrite Hgone.
Qed.

(** X12. [updateGig] and [deleteGig] answer 404 and write nothing when no
    gig with the given id belongs to the caller, the ids being compared as
    ObjectIds: in whatever spelling the two ids are given. *)
Theorem gig_changes_need_the_owner
  (db : Db) (gigId caller : string) (updateData : PartialGig) :
  ObjectId_isValid gigId = true ->
  ObjectId_isValid caller = true ->
  (forall g, In g (Gigs db) -> gig_id g = ObjectId_cast gigId ->
             gig_freelancerId g <> ObjectId_cast caller) ->
  GigsService.updateGig gigId updateData caller db
  = (inl (ApiError 404
       "Gig not found or you do not have permission to update it"), db)
  /\ GigsService.deleteGig gigId caller db
     = (inl (ApiError 404
          "Gig not found or you do not have permission to delete it"), db).
Proof.
  intros Hv Hc Hno.
  unfold GigsService.updateGig, GigsService.deleteGig,
    GigsService.Gig_findOwned, bind, castObjectId, gets, throw, ret.
  rewrite Hv, Hc. cbn [negb].
  destruct (find _ (Gigs db)) as [g|] eqn:Hf; [|split; reflexivity].
  exfalso. apply find_some in Hf as [Hin Hp]. apply andb_prop in Hp as [Hi Ho].
  apply String.eqb_eq in Hi, Ho. now apply (Hno g).
Qed.

(** The update document of [updateGig] after the cast of its ObjectId
    path. *)
Definition castedGigPatch (u : PartialGig) : PartialGig :=
  mkPartialGig (pg_title u) (option_map ObjectId_cast (pg_freelancerId u))
               (pg_isActive u).

(** X13. When the owner's [updateGig] succeeds, the gig is the old document
    with the update applied, the answer is that gig populated, and no bid
    is touched. When the update set [isActive] to [false], [createBid] for
    the gig, in whatever spelling of its id, is answered 404 in the database
    the update leaves and after any further calls of [BidsService] (none of
    them touches a gig; a later [updateGig] can set the gig active
    again). *)
Theorem deactivated_gig_takes_no_bids
  (db : Db) (gigId caller : string) (updateData : PartialGig)
  (r : option PopulatedGig) (db' : Db) :
  uniqueGigIds db ->
  GigsService.updateGig gigId updateData caller db = (inr r, db') ->
  (exists g, In g (Gigs db) /\ gig_id g = ObjectId_cast gigId
             /\ gig_freelancerId g = ObjectId_cast caller
             /\ r = Some (populateOwner
                            (GigsService.applyGigPatch
                               (castedGigPatch updateData) g) db')
             /\ getGig (ObjectId_cast gigId) db'
                = Some (GigsService.applyGigPatch
                          (castedGigPatch updateData) g))
  /\ Bids db' = Bids db
  /\ (pg_isActive updateData = Some false ->
      forall ops bidData gigId' freelancerId newId now,
        p_gigId bidData = Some gigId' ->
        ObjectId_isValid gigId' = true ->
        ObjectId_cast gigId' = ObjectId_cast gigId ->
        BidsService.createBid bidData freelancerId newId now
                              (runBidOps ops db')
        = (inl (ApiError 404 "Gig not found or is not active"),
           runBidOps ops db')).
Proof.
  intros Hnd. unfold GigsService.updateGig, GigsService.Gig_findOwned,
    bind at 1 2 3, castObjectId, gets, throw, ret.
  destruct (ObjectId_isValid gigId) eqn:Hv; cbn [negb]; [|discriminate].
  destruct (ObjectId_isValid caller); [|discriminate].
  destruct (find _ (Gigs db)) as [g|] eqn:Hf; [|discriminate].
  apply find_some in Hf as [Hin Hp]. apply andb_prop in Hp as [Hi Ho].
  apply String.eqb_eq in Hi, Ho.
  assert (Hfind : find (fun x => String.eqb (gig_id x) (ObjectId_cast gigId))
                       (Gigs db) = Some g).
  { rewrite <- Hi. apply (find_unique gig_id); auto using String.eqb_refl.
    intros x Hx. now apply String.eqb_eq. }
  unfold GigsService.Gig_findByIdAndUpdate, bind, castOptionalId, bind,
    castObjectId, throw, ret.
  rewrite Hv. intros E.
  assert (E' : (@inr Error _
                  (Some (populateOwner
                           (GigsService.applyGigPatch
                              (castedGigPatch updateData) g)
                           (set_Gigs
                              (updateFirst
                                 (fun g0 => String.eqb (gig_id g0)
                                                       (ObjectId_cast gigId))
                                 (GigsService.applyGigPatch
                                    (castedGigPatch updateData)) (Gigs db))
                              db))),
                set_Gigs (updateFirst
                            (fun g0 => String.eqb (gig_id g0)
                                                  (ObjectId_cast gigId))
                            (GigsService.applyGigPatch
                               (castedGigPatch updateData)) (Gigs db))
                         db) = (inr r, db')).
  { revert E. unfold castedGigPatch.
    destruct (pg_freelancerId updateData) as [s|];
      [destruct (ObjectId_isValid s); [|discriminate]|];
      cbn [option_map]; now rewrite Hfind. }
  clear E. injection E' as <- <-.
  set (db' := set_Gigs _ db).
  assert (Hget : getGig (ObjectId_cast gigId) db'
                 = Some (GigsService.applyGigPatch
                           (castedGigPatch updateData) g)).
  { unfold getGig. cbn [Gigs set_Gigs db'].
    rewrite (updateFirst_as_map gig_id) by exact Hnd.
    rewrite (find_map_same_key gig_id).
    - rewrite Hfind. cbn [option_map]. now rewrite Hi, String.eqb_refl.
    - intros x. now destruct (String.eqb (gig_id x) _). }
  split; [exists g; auto 6|]. split; [reflexivity|].
  intros Hoff ops d gigId' fid newId now Hg Hv' Hc.
  apply (createBid_without_gig _ _ _ _ _ gigId'); auto.
  unfold getGig. rewrite runBidOps_keeps_gigs, Hc.
  fold (getGig (ObjectId_cast gigId) db'). rewrite Hget.
  unfold GigsService.applyGigPatch, castedGigPatch.
  cbn [gig_isActive pg_isActive].
  now rewrite Hoff.
Qed.
End GigProperties.

(** ** More about sessions, passwords and the middleware *)

Inductive AuthOp :=
| OpRegister (userData : RegisterData) (newId : ObjectId) (salt : string)
             (now : Date)
| OpLogin (email password : string) (rememberMe : bool) (now : Date)
| OpLogout (userId : string) (now : Date)
| OpRefreshToken (token : Jwt) (now : Date)
| OpChangePassword (userId currentPassword newPassword salt : string)
                   (now : Date)
| OpForgotPassword (email resetToken : string) (now : Date)
| OpResetPassword (token newPassword salt : string) (now : Date)
| OpDeactivateAccount (userId : string) (now : Date).

Section AuthRuns.
Context `{Platform}.

Definition outcome {A} (r : (Error + A) * Db) : option Error * Db :=
  match r with
  | (inl e, db) => (Some e, db)
  | (inr _, db) => (None, db)
  end.

(** The error a call threw, if it threw, and the database it left. *)
Definition runAuthCall (op : AuthOp) (db : Db) : option Error * Db :=
  match op with
  | OpRegister d i s t => outcome (AuthService.register d i s t db)
  | OpLogin e p r t => outcome (AuthService.login e p r t db)
  | OpLogout u t => outcome (AuthService.logout u t db)
  | OpRefreshToken k t => outcome (AuthService.refreshToken k t db)
  | OpChangePassword u c n s t =>
      outcome (AuthService.changePassword u c n s t db)
  | OpForgotPassword e k t => outcome (AuthService.forgotPassword e k t db)
  | OpResetPassword k p s t => outcome (AuthService.resetPassword k p s t db)
  | OpDeactivateAccount u t => outcome (AuthService.deactivateAccount u t db)
  end.

Definition runAuthOp (op : AuthOp) (db : Db) : Db := snd (runAuthCall op db).


(** The unique index on [email]. *)
Definition uniqueEmails (db : Db) : Prop :=
  NoDup (map user_email (Users db)).


(** [bcrypt.compare] recognises exactly the password that was hashed. *)
Definition bcryptCorrect : Prop :=
  forall candidate plain salt,
    bcrypt_compare candidate (bcrypt_hash plain salt)
    = String.eqb candidate plain.
End AuthRuns.

Section MoreAuthProperties.
Context `{Platform}.











(** X15. An [AuthService] call that throws has written nothing. *)
Theorem failed_auth_call_writes_nothing (op : AuthOp) (db : Db) (e : Error) :
  fst (runAuthCall op db) = Some e -> runAuthOp op db = db.
Proof.
  assert (Hout : forall A (c : (Error + A) * Db),
            (forall e0 d, c = (inl e0, d) -> d = db) ->
            fst (outcome c) = Some e -> snd (outcome c) = db).
  { intros A [[e0|v] d] Hc; cbn [outcome fst snd]; [|discriminate].
    intros _. now apply (Hc e0). }
  destruct op; unfold runAuthOp; cbn [runAuthCall]; apply Hout; intros e0 d.
  - rewrite register_unfold.
    destruct (find _ (Users db)); [intros E; now inversion E|].
    unfold User_saveNew, throw.
    destruct (userSchema_validate _); [|intros E; now inversion E].
    destruct (existsb _ (Users db)); [intros E; now inversion E|].
    unfold User_update, modify. discriminate.
  - unfold AuthService.login, User_findOne, bind at 1, gets, throw.
    destruct (find _ (Users db)) as [u|]; [|intros E; now inversion E].
    destruct (negb _); [intros E; now inversion E|].
    unfold bind, ret, User_update, modify. discriminate.
  - unfold AuthService.logout, bind, castObjectId, throw, ret.
    destruct (ObjectId_isValid userId); [|intros E; now inversion E].
    unfold User_update, modify. discriminate.
  - unfold AuthService.refreshToken, try_catch, bind at 1.
    unfold jwt_verify, throw, ret.
    destruct token as [p iat exp secret|raw]; [|intros E; now inversion E].
    destruct (negb _); [intros E; now inversion E|].
    destruct (_ <=? _); [intros E; now inversion E|].
    unfold bind at 1, castObjectId, throw, ret.
    destruct (ObjectId_isValid _); [|intros E; now inversion E].
    unfold bind at 1, User_findOne, gets.
    destruct (find _ (Users db)) as [u|]; [|intros E; now inversion E].
    unfold bind, ret, User_update, modify. discriminate.
  - unfold AuthService.changePassword, bind, castObjectId, User_findOne,
      gets, throw, ret.
    destruct (ObjectId_isValid userId); [|intros E; now inversion E].
    destruct (find _ (Users db)) as [u|]; [|intros E; now inversion E].
    destruct (negb (comparePassword _ _)); [intros E; now inversion E|].
    destruct (negb (password_validate _)); [intros E; now inversion E|].
    unfold User_update, modify. discriminate.
  - rewrite forgotPassword_unfold.
    destruct (activeUserByEmail email db) as [u|];
      [|intros E; now inversion E].
    unfold User_update, modify. discriminate.
  - rewrite resetPassword_unfold.
    destruct (find _ (Users db)) as [u|]; [|intros E; now inversion E].
    destruct (negb _); [intros E; now inversion E|].
    unfold User_update, modify. discriminate.
  - unfold AuthService.deactivateAccount, bind, castObjectId, throw, ret.
    destruct (ObjectId_isValid userId); [|intros E; now inversion E].
    unfold User_update, modify. discriminate.
Qed.

(** A token about a user who does not store it. *)
Lemma refresh_unless_stored db u old now :
  wfUsers db -> In u (Users db) ->
  jwt_subject old = Some (user_id u) ->
  user_refreshToken u <> Some old ->
  AuthService.refreshToken old now db
  = (inl (ApiError 401 "Invalid refresh token"), db).
Proof.
  intros [Hnd Hv] Hu Hsub Hne.
  unfold AuthService.refreshToken, try_catch.
  destruct old as [p iat exp secret|raw]; [|discriminate].
  cbn [jwt_subject] in Hsub. inversion Hsub as [Hp].
  unfold bind at 1. unfold jwt_verify, throw, ret.
  destruct (negb _); [reflexivity|].
  destruct (_ <=? _); [reflexivity|].
  unfold bind at 1, castObjectId. rewrite Hp. destruct (Hv u Hu) as [-> ->].
  unfold ret, bind at 1, User_findOne, gets.
  destruct (find _ (Users db)) as [x|] eqn:Hf; [|reflexivity].
  exfalso. apply find_some in Hf as [Hx Hq]. apply andb_prop in Hq as [Hq _].
  apply andb_prop in Hq as [Hi Ht]. apply String.eqb_eq in Hi.
  assert (x = u) by now apply (same_key_same_doc user_id (Users db)).
  subst x. destruct (user_refreshToken u) as [stored|]; [|discriminate].
  apply Jwt_eqb_eq in Ht. subst stored. now apply Hne.
Qed.

Lemma In_changed id f u l :
  In u l -> user_id u = id -> In (f u) (map (changed id f) l).
Proof.
  intros Hu Hid. apply in_map_iff. exists u. split; [|exact Hu].
  unfold changed. now rewrite Hid, String.eqb_refl.
Qed.

(** X16. [logout] ends the session: afterwards [refreshToken] refuses every
    token about that user with 401, whatever the token and the time. *)
Theorem logout_revokes_every_refresh_token
  (db : Db) (u : User) (now : Date) (r : Error + unit) (db' : Db) :
  wfUsers db ->
  In u (Users db) ->
  AuthService.logout (user_id u) now db = (r, db') ->
  r = inr tt
  /\ option_map user_refreshToken (getUser (user_id u) db') = Some None
  /\ forall old now',
       jwt_subject old = Some (user_id u) ->
       AuthService.refreshToken old now' db'
       = (inl (ApiError 401 "Invalid refresh token"), db').
Proof.
  intros Hwf Hu. pose proof Hwf as [Hnd Hv].
  unfold AuthService.logout, bind, castObjectId, ret.
  destruct (Hv u Hu) as [-> ->]. rewrite User_update_run by exact Hnd.
  intros E. injection E as <- <-. split; [reflexivity|].
  set (f := fun x => touch now (set_refreshToken None x)).
  split.
  - unfold getUser. cbn [Users set_Users].
    rewrite (find_map_same_key user_id)
      by (intros x; unfold changed; now destruct (String.eqb _ _)).
    rewrite (find_unique user_id _ (Users db) u); auto using String.eqb_refl;
      [|intros x Hx; now apply String.eqb_eq].
    cbn [option_map]. unfold changed. now rewrite String.eqb_refl.
  - intros old now' Hsub.
    apply (refresh_unless_stored _ (f u));
      [now apply wfUsers_changed | now apply In_changed | exact Hsub
      | discriminate].
Qed.

Lemma authenticate_unfold h now db :
  AuthMiddleware.authenticate h now db
  = match bearerToken h with
    | None => (inl (ApiError 401 "Access token is required"), db)
    | Some (JwtOpaque _) => (inl (ApiError 401 "Invalid or expired token"), db)
    | Some (JwtSigned payload _ exp signedWith) =>
        if negb (String.eqb signedWith (jwt_secret config))
        then (inl (ApiError 401 "Invalid or expired token"), db)
        else if exp <=? now / 1000
        then (inl (ApiError 401 "Invalid or expired token"), db)
        else if ObjectId_isValid (payload_userId payload)
        then
          match getUser (ObjectId_cast (payload_userId payload)) db with
          | Some user =>
              if user_isActive user then (inr (claimsOf payload), db)
              else (inl (ApiError 401 "User no longer exists or is inactive"),
                    db)
          | None =>
              (inl (ApiError 401 "User no longer exists or is inactive"), db)
          end
        else (inl (CastError "_id"), db)
    end.
Proof.
  unfold AuthMiddleware.authenticate, try_catch, getUser.
  destruct (bearerToken h) as [[p iat exp secret|raw]|]; try reflexivity.
  unfold bind at 1. unfold jwt_verify, throw, ret.
  destruct (negb _); [reflexivity|].
  destruct (_ <=? _); [reflexivity|].
  unfold bind at 1, castObjectId, throw, ret.
  destruct (ObjectId_isValid _); [|reflexivity].
  unfold bind, User_findOne, gets.
  destruct (find _ (Users db)) as [u|]; [|reflexivity].
  now destruct (user_isActive u).
Qed.

(** X17. [authenticate] lets a request through only when it carries a token
    signed with the access secret that has not expired and names a user who
    exists and is active; [req.user] is then the claims of the token, and
    the database is not written. The user is the one whose [_id] is the
    [userId] of the token, cast. *)
Theorem authenticate_admits_active_users_only
  (h : Authorization) (now : Date) (db : Db) (user : ReqUser) (db' : Db) :
  AuthMiddleware.authenticate h now db = (inr user, db') ->
  db' = db
  /\ exists payload iat exp u,
       h = Bearer (JwtSigned payload iat exp (jwt_secret config))
       /\ now / 1000 < exp
       /\ user = claimsOf payload
       /\ In u (Users db) /\ user_id u = ObjectId_cast (req_userId user)
       /\ user_isActive u = true.
Proof.
  rewrite authenticate_unfold.
  destruct (bearerToken h) as [[p iat exp secret|raw]|] eqn:Hb;
    try discriminate.
  destruct (String.eqb_spec secret (jwt_secret config)) as [Es|Es];
    cbn [negb]; [|discriminate].
  destruct (Z.leb_spec exp (now / 1000)) as [Hexp|Hexp]; [discriminate|].
  destruct (ObjectId_isValid _); [|discriminate].
  destruct (getUser _ db) as [u|] eqn:Hu; [|discriminate].
  destruct (user_isActive u) eqn:Ha; [|discriminate].
  intros E. injection E as <- <-. split; [reflexivity|].
  exists p, iat, exp, u.
  unfold getUser in Hu. apply find_some in Hu as [Hin Hid].
  apply String.eqb_eq in Hid. subst secret.
  repeat split; auto.
  - destruct h as [|t|v]; try discriminate. cbn [bearerToken] in Hb.
    destruct t as [p' i' e' s'|raw]; [now inversion Hb|].
    destruct raw; [discriminate | now inversion Hb].
  - rewrite Hid. now destruct p.
Qed.

(** X18. [optionalAuth] never hands an error on and never writes: it
    attaches a user exactly when [authenticate] would let the same request
    through, and then the same user. *)
Theorem optionalAuth_agrees_with_authenticate
  (h : Authorization) (now : Date) (db : Db) :
  AuthMiddleware.optionalAuth h now db
  = (inr match fst (AuthMiddleware.authenticate h now db) with
         | inr user => Some user
         | inl _ => None
         end, db).
Proof.
  rewrite authenticate_unfold.
  unfold AuthMiddleware.optionalAuth, try_catch, getUser.
  destruct (bearerToken h) as [[p iat exp secret|raw]|]; try reflexivity.
  unfold bind at 1. unfold jwt_verify, throw, ret.
  destruct (negb _); [reflexivity|].
  destruct (_ <=? _); [reflexivity|].
  unfold bind at 1, castObjectId, throw, ret.
  destruct (ObjectId_isValid _); [|reflexivity].
  unfold bind, User_findOne, gets.
  destruct (find _ (Users db)) as [u|]; [|reflexivity].
  now destruct (user_isActive u).
Qed.

Lemma no_active_user_after_change db u f email :
  uniqueEmails db -> In u (Users db) ->
  (forall x, user_email (f x) = user_email x) ->
  user_isActive (f u) = false ->
  email_set email = user_email u ->
  activeUserByEmail email
    (set_Users (map (changed (user_id u) f) (Users db)) db) = None.
Proof.
  intros He Hu Hf Hoff Hem. apply activeUserByEmail_None.
  cbn [Users set_Users]. intros x Hx Hxe.
  apply in_map_iff in Hx as [y [<- Hy]].
  assert (Hye : user_email y = user_email u).
  { rewrite <- Hem, <- Hxe. unfold changed.
    destruct (String.eqb _ _); [now rewrite Hf | reflexivity]. }
  assert (y = u) by now apply (same_key_same_doc user_email (Users db)).
  subst y. unfold changed. now rewrite String.eqb_refl.
Qed.

(** X19. [deactivateAccount] locks the account at once and everywhere:
    afterwards [refreshToken] and [authenticate] refuse every token about
    the user with 401 (an access token too, however long it has left),
    [login] with the user's email answers as for an unknown email, and
    [forgotPassword] answers 404. *)
Theorem deactivation_locks_the_account
  (db : Db) (u : User) (now : Date) (r : Error + unit) (db' : Db) :
  wfUsers db ->
  uniqueEmails db ->
  In u (Users db) ->
  AuthService.deactivateAccount (user_id u) now db = (r, db') ->
  r = inr tt
  /\ (forall old now',
         jwt_subject old = Some (user_id u) ->
         AuthService.refreshToken old now' db'
         = (inl (ApiError 401 "Invalid refresh token"), db'))
  /\ (forall h token now',
         bearerToken h = Some token ->
         jwt_subject token = Some (user_id u) ->
         exists message,
           AuthMiddleware.authenticate h now' db'
           = (inl (ApiError 401 message), db'))
  /\ (forall email password rememberMe now',
         email_set email = user_email u ->
         AuthService.login email password rememberMe now' db'
         = (inl (ApiError 401 "Invalid email or password"), db'))
  /\ (forall email resetToken now',
         email_set email = user_email u ->
         AuthService.forgotPassword email resetToken now' db'
         = (inl (ApiError 404 "No user found with this email address"), db')).
Proof.
  intros Hwf He Hu. pose proof Hwf as [Hnd Hv].
  unfold AuthService.deactivateAccount, bind, castObjectId, ret.
  destruct (Hv u Hu) as [-> ->]. rewrite User_update_run by exact Hnd.
  intros E. injection E as <- <-. split; [reflexivity|].
  set (f := fun x => touch now (set_refreshToken None (set_isActive false x))).
  set (db' := set_Users _ db).
  assert (Hwf' : wfUsers db') by now apply wfUsers_changed.
  assert (Hin' : In (f u) (Users db')) by now apply In_changed.
  assert (Hnone : forall email, email_set email = user_email u ->
                    activeUserByEmail email db' = None).
  { intros email Hem. now apply no_active_user_after_change. }
  split; [|split; [|split]].
  - intros old now' Hsub.
    apply (refresh_unless_stored _ (f u)); auto. discriminate.
  - intros h token now' Hb Hsub. rewrite authenticate_unfold, Hb.
    destruct token as [p iat exp secret|raw]; [|eauto].
    destruct (negb _); [eauto|]. destruct (_ <=? _); [eauto|].
    cbn [jwt_subject] in Hsub. injection Hsub as ->.
    destruct Hwf' as [Hnd' Hv']. destruct (Hv u Hu) as [-> ->].
    unfold getUser.
    rewrite (find_unique user_id _ (Users db') (f u)).
    + cbn [f touch set_refreshToken set_isActive user_isActive]. eauto.
    + exact Hnd'.
    + exact Hin'.
    + apply String.eqb_refl.
    + intros x Hx. now apply String.eqb_eq in Hx.
  - intros email password rememberMe now' Hem.
    unfold AuthService.login, User_findOne, bind, gets, throw.
    fold (activeUserByEmail email db'). now rewrite Hnone.
  - intros email resetToken now' Hem.
    rewrite forgotPassword_unfold. now rewrite Hnone.
Qed.

Lemma find_only {A} (P : A -> bool) (l : list A) (a : A) :
  In a l -> P a = true -> (forall x, In x l -> P x = true -> x = a) ->
  find P l = Some a.
Proof.
  induction l as [|x r IH]; cbn [In find]; [tauto|].
  intros Ha HP Hx. destruct (P x) eqn:Px.
  - f_equal. apply Hx; auto.
  - destruct Ha as [->|Ha]; [congruence|]. apply IH; auto.
Qed.

Lemma find_map_invariant {A} (P : A -> bool) (g : A -> A) (l : list A) :
  (forall x, P (g x) = P x) -> find P (map g l) = option_map g (find P l).
Proof.
  intros Hg. induction l as [|x r IH]; cbn [map find]; [reflexivity|].
  rewrite Hg. destruct (P x); [reflexivity | exact IH].
Qed.

Lemma updateFirst_snoc_fresh {A} (p : A -> bool) (f : A -> A) l a :
  (forall x, In x l -> p x = false) ->
  updateFirst p f (l ++ [a])%list = (l ++ [if p a then f a else a])%list.
Proof.
  induction l as [|x r IH]; cbn [app updateFirst]; intros Hl.
  - now destruct (p a).
  - rewrite (Hl x) by now left. f_equal. apply IH. intros y Hy. apply Hl.
    now right.
Qed.

(** What [login] answers for the one active user with this email. *)
Lemma login_decides db u email candidate rememberMe now :
  In u (Users db) -> user_isActive u = true ->
  email_set email = user_email u ->
  (forall x, In x (Users db) -> user_email x = user_email u ->
             user_isActive x = true -> x = u) ->
  AuthService.login email candidate rememberMe now db
  = if comparePassword u candidate
    then (inr (userResponse
                 (set_refreshToken (Some (generateRefreshToken u now))
                                   (set_lastLogin now u)),
               generateAuthToken u now, generateRefreshToken u now),
          snd (User_update (user_id u)
                 (fun x => touch now
                    (set_refreshToken (Some (generateRefreshToken u now))
                                      (set_lastLogin now x))) db))
    else (inl (ApiError 401 "Invalid email or password"), db).
Proof.
  intros Hu Ha Hem Hone.
  unfold AuthService.login, bind, User_findOne, gets, throw, ret.
  rewrite (find_only _ (Users db) u); auto.
  - now destruct (comparePassword u candidate).
  - now rewrite Hem, String.eqb_refl, Ha.
  - intros x Hx Hq. apply andb_prop in Hq as [Hq Hxa].
    apply String.eqb_eq in Hq. apply Hone; auto. now rewrite Hq.
Qed.

Lemma refreshToken_accepts db u p iat exp now :
  wfUsers db -> In u (Users db) ->
  user_refreshToken u = Some (JwtSigned p iat exp (jwt_refreshSecret config)) ->
  user_isActive u = true -> payload_userId p = user_id u ->
  now / 1000 < exp ->
  AuthService.refreshToken (JwtSigned p iat exp (jwt_refreshSecret config))
                           now db
  = (inr (generateAuthToken u now, generateRefreshToken u now),
     set_Users
       (map (changed (user_id u)
               (fun x => touch now
                  (set_refreshToken (Some (generateRefreshToken u now)) x)))
            (Users db)) db).
Proof.
  intros [Hnd Hv] Hu Ht Ha Hp Hexp.
  unfold AuthService.refreshToken, try_catch.
  unfold bind at 1. unfold jwt_verify, throw, ret.
  rewrite String.eqb_refl. cbn [negb].
  destruct (Z.leb_spec exp (now / 1000)) as [Hle|_]; [lia|].
  unfold bind at 1, castObjectId. rewrite Hp. destruct (Hv u Hu) as [-> ->].
  unfold ret, bind at 1, User_findOne, gets.
  rewrite (find_unique user_id _ (Users db) u).
  - unfold bind. now rewrite User_update_run by exact Hnd.
  - exact Hnd.
  - exact Hu.
  - rewrite String.eqb_refl, Ht, Ha. cbn [andb].
    rewrite andb_true_r. now apply Jwt_eqb_eq.
  - intros x Hx. apply andb_prop in Hx as [Hx _].
    apply andb_prop in Hx as [Hx _]. now apply String.eqb_eq in Hx.
Qed.

Lemma refreshToken_expired db p iat exp secret now :
  exp <= now / 1000 ->
  AuthService.refreshToken (JwtSigned p iat exp secret) now db
  = (inl (ApiError 401 "Invalid refresh token"), db).
Proof.
  intros Hexp. unfold AuthService.refreshToken, try_catch.
  unfold bind at 1. unfold jwt_verify, throw, ret.
  destruct (negb _); [reflexivity|].
  destruct (Z.leb_spec exp (now / 1000)) as [_|Hlt]; [reflexivity | lia].
Qed.

(** X20. The refresh token that [login] hands out is honoured by
    [refreshToken] for [config.jwt.refreshExpiresIn] seconds, counted from
    the whole second of the login, and is refused with 401 from then on. *)
Theorem login_refresh_token_lives_until_it_expires
  (db : Db) (email password : string) (rememberMe : bool) (now : Date)
  (res : UserResponse) (token rtoken : Jwt) (db' : Db) (now' : Date) :
  wfUsers db ->
  AuthService.login email password rememberMe now db
  = (inr (res, token, rtoken), db') ->
  (now' / 1000 < now / 1000 + jwt_refreshExpiresIn config ->
   exists tokens db'',
     AuthService.refreshToken rtoken now' db' = (inr tokens, db''))
  /\ (now / 1000 + jwt_refreshExpiresIn config <= now' / 1000 ->
      AuthService.refreshToken rtoken now' db'
      = (inl (ApiError 401 "Invalid refresh token"), db')).
Proof.
  intros Hwf Hl. pose proof Hwf as [Hnd Hv].
  apply login_inv in Hl as (u & Hu & Ha & Hr & Hup).
  injection Hr as -> -> ->.
  rewrite User_update_run in Hup by exact Hnd. injection Hup as <-.
  set (f := fun x => touch now _) in *.
  split.
  - intros Hexp. eexists. eexists.
    apply (refreshToken_accepts _ (f u)); auto.
    + apply wfUsers_changed; auto.
    + now apply In_changed.
  - intros Hexp. now apply refreshToken_expired.
Qed.

(** X21. The access token that [login] hands out passes [authenticate]
    until [config.jwt.expiresIn] seconds after the whole second of the
    login, with the id, email and role of the user as [req.user], and is
    refused with 401 from then on. *)
Theorem login_access_token_passes_authenticate
  (db : Db) (email password : string) (rememberMe : bool) (now : Date)
  (res : UserResponse) (token rtoken : Jwt) (db' : Db) (now' : Date) :
  wfUsers db ->
  AuthService.login email password rememberMe now db
  = (inr (res, token, rtoken), db') ->
  AuthMiddleware.authenticate (Bearer token) now' db'
  = if now / 1000 + jwt_expiresIn config <=? now' / 1000
    then (inl (ApiError 401 "Invalid or expired token"), db')
    else (inr (mkReqUser (resp_id res) (Some (resp_email res))
                         (Some (resp_role res))), db').
Proof.
  intros Hwf Hl. pose proof Hwf as [Hnd Hv].
  apply login_inv in Hl as (u & Hu & Ha & Hr & Hup).
  injection Hr as -> -> ->.
  rewrite User_update_run in Hup by exact Hnd. injection Hup as <-.
  set (f := fun x => touch now _) in *.
  set (db' := set_Users _ db).
  assert (Hwf' : wfUsers db') by now apply wfUsers_changed.
  rewrite authenticate_unfold.
  unfold generateAuthToken, jwt_sign. cbn [bearerToken].
  rewrite String.eqb_refl. cbn [negb payload_userId].
  destruct (_ <=? _); [reflexivity|].
  destruct (Hv u Hu) as [-> ->]. unfold getUser.
  rewrite (find_unique user_id _ (Users db') (f u)).
  - cbn [f touch set_refreshToken set_lastLogin user_isActive].
    now rewrite Ha.
  - apply Hwf'.
  - now apply In_changed.
  - apply String.eqb_refl.
  - intros x Hx. now apply String.eqb_eq in Hx.
Qed.

(** X22. When the two signing secrets differ, a token that [authenticate]
    or [verifyToken] accepts is never accepted by [refreshToken], at no time
    and in no database. *)
Theorem access_token_is_no_refresh_token
  (t : Jwt) (now : Date) (db : Db) :
  jwt_secret config <> jwt_refreshSecret config ->
  (exists user db1,
     AuthMiddleware.authenticate (Bearer t) now db = (inr user, db1))
  \/ (exists payload db1,
        AuthService.verifyToken t now db = (inr payload, db1)) ->
  forall now' db',
    AuthService.refreshToken t now' db'
    = (inl (ApiError 401 "Invalid refresh token"), db').
Proof.
  intros Hne Hok now' db'.
  assert (Hs : exists p iat exp, t = JwtSigned p iat exp (jwt_secret config)).
  { destruct Hok as [(user & db1 & E)|(payload & db1 & E)].
    - rewrite authenticate_unfold in E.
      destruct t as [p iat exp secret|raw].
      + cbn [bearerToken] in E.
        destruct (String.eqb_spec secret (jwt_secret config)) as [->|];
          [eauto | discriminate].
      + destruct raw; discriminate.
    - unfold AuthService.verifyToken, try_catch, jwt_verify, throw, ret in E.
      destruct t as [p iat exp secret|raw]; [|discriminate].
      destruct (String.eqb_spec secret (jwt_secret config)) as [->|];
        [eauto | discriminate]. }
  destruct Hs as (p & iat & exp & ->).
  unfold AuthService.refreshToken, try_catch.
  unfold bind at 1. unfold jwt_verify, throw, ret.
  destruct (String.eqb_spec (jwt_secret config) (jwt_refreshSecret config));
    [contradiction | reflexivity].
Qed.

(** X23. When the two signing secrets differ, a token that [refreshToken]
    accepts is refused with 401 by [authenticate] and by [verifyToken], at
    any time and in any database. *)
Theorem refresh_token_is_no_access_token
  (t : Jwt) (now : Date) (db : Db) (tokens : Jwt * Jwt) (db1 : Db) :
  jwt_secret config <> jwt_refreshSecret config ->
  AuthService.refreshToken t now db = (inr tokens, db1) ->
  forall now' db',
    AuthMiddleware.authenticate (Bearer t) now' db'
    = (inl (ApiError 401 "Invalid or expired token"), db')
    /\ AuthService.verifyToken t now' db'
       = (inl (ApiError 401 "Invalid or expired token"), db').
Proof.
  intros Hne E now' db'.
  assert (Hs : exists p iat exp,
            t = JwtSigned p iat exp (jwt_refreshSecret config)).
  { revert E. unfold AuthService.refreshToken, try_catch.
    unfold bind at 1. unfold jwt_verify, throw, ret.
    destruct t as [p iat exp secret|raw]; [|discriminate].
    destruct (String.eqb_spec secret (jwt_refreshSecret config)) as [->|];
      [eauto | discriminate]. }
  destruct Hs as (p & iat & exp & ->).
  rewrite authenticate_unfold. cbn [bearerToken].
  unfold AuthService.verifyToken, try_catch, jwt_verify, throw.
  destruct (String.eqb_spec (jwt_refreshSecret config) (jwt_secret config))
    as [Heq|_]; [now symmetry in Heq | now split].
Qed.

(** X24. A user who has registered can log in with the email and password
    of the registration, and with no other password (given that
    [bcrypt.compare] recognises exactly the password that was hashed). *)
Theorem registered_user_logs_in_with_own_password_only
  (userData : RegisterData) (newId : ObjectId) (salt : string) (now : Date)
  (db : Db) (r : UserResponse * Jwt * Jwt) (db' : Db)
  (candidate : string) (rememberMe : bool) (now' : Date) :
  bcryptCorrect ->
  AuthService.register userData newId salt now db = (inr r, db') ->
  (candidate = reg_password userData ->
   exists r' db'',
     AuthService.login (reg_email userData) candidate rememberMe now' db'
     = (inr r', db''))
  /\ (candidate <> reg_password userData ->
      AuthService.login (reg_email userData) candidate rememberMe now' db'
      = (inl (ApiError 401 "Invalid email or password"), db')).
Proof.
  intros Hb E. rewrite register_unfold in E.
  destruct (find _ (Users db)) eqn:Hf; [discriminate|].
  destruct (User_saveNew _ _ db) as [[e|user] db1] eqn:Hs; [discriminate|].
  revert Hs. unfold User_saveNew, throw.
  destruct (userSchema_validate _); [|discriminate].
  destruct (existsb _ (Users db)) eqn:Hex; [discriminate|].
  intros Hs. injection Hs as <- <-.
  unfold User_update, modify in E. injection E as _ <-.
  cbn [Users set_Users].
  rewrite updateFirst_snoc_fresh.
  2:{ intros x Hx. assert (Hq := existsb_false_In _ _ x Hex Hx).
      cbv beta in Hq. now apply orb_false_elim in Hq as [Hq _]. }
  rewrite String.eqb_refl.
  set (u := touch now _).
  set (db' := set_Users _ _).
  assert (Hl := login_decides db' u (reg_email userData) candidate
                  rememberMe now').
  rewrite Hl.
  - replace (comparePassword u candidate)
      with (String.eqb candidate (reg_password userData))
      by (symmetry; apply Hb).
    destruct (String.eqb_spec candidate (reg_password userData));
      split; intros; try contradiction; eauto.
  - apply in_or_app. right. now left.
  - reflexivity.
  - reflexivity.
  - cbn [Users db' set_Users]. intros x Hx Hxe _.
    apply in_app_or in Hx as [Hx|[<-|[]]]; [|reflexivity].
    exfalso. assert (Hn := find_none _ _ Hf x Hx). cbv beta in Hn.
    apply String.eqb_neq in Hn. now apply Hn.
Qed.

Lemma login_after_new_password db u f newPassword salt :
  uniqueEmails db -> In u (Users db) ->
  user_isActive u = true ->
  (forall x, user_email (f x) = user_email x) ->
  (forall x, user_isActive (f x) = user_isActive x) ->
  (forall x, user_password (f x) = bcrypt_hash newPassword salt) ->
  forall email candidate rememberMe now,
    email_set email = user_email u ->
    (bcrypt_compare candidate (bcrypt_hash newPassword salt) = true ->
     exists r db'',
       AuthService.login email candidate rememberMe now
         (set_Users (map (changed (user_id u) f) (Users db)) db)
       = (inr r, db''))
    /\ (bcrypt_compare candidate (bcrypt_hash newPassword salt) = false ->
        AuthService.login email candidate rememberMe now
          (set_Users (map (changed (user_id u) f) (Users db)) db)
        = (inl (ApiError 401 "Invalid email or password"),
           set_Users (map (changed (user_id u) f) (Users db)) db)).
Proof.
  intros He Hu Ha Hfe Hfa Hfp email candidate rememberMe now Hem.
  set (db' := set_Users _ db).
  rewrite (login_decides db' (f u)).
  - unfold comparePassword. rewrite Hfp.
    destruct (bcrypt_compare candidate _);
      split; intros; try discriminate; eauto.
  - now apply In_changed.
  - now rewrite Hfa.
  - now rewrite Hfe.
  - cbn [Users db' set_Users]. intros x Hx Hxe _.
    apply in_map_iff in Hx as [y [<- Hy]].
    assert (Hye : user_email y = user_email u).
    { rewrite <- (Hfe u), <- Hxe. unfold changed.
      destruct (String.eqb _ _); [now rewrite Hfe | reflexivity]. }
    assert (y = u) by now apply (same_key_same_doc user_email (Users db)).
    subst y. unfold changed. now rewrite String.eqb_refl.
Qed.


(** X26. After [resetPassword] has gone through, a login with the email
    of the user who held the reset token goes through when [bcrypt.compare]
    matches the candidate against the bcrypt hash of the new password, and
    is refused with 401 when it does not. *)
Theorem reset_password_becomes_the_password
  (db : Db) (token newPassword salt : string) (now : Date) (db' : Db) :
  uniqueUserIds db -> uniqueEmails db ->
  AuthService.resetPassword token newPassword salt now db = (inr tt, db') ->
  exists u,
    In u (Users db)
    /\ user_passwordResetToken u = Some (sha256_hex token)
    /\ forall email candidate rememberMe now',
         email_set email = user_email u ->
         (bcrypt_compare candidate (bcrypt_hash newPassword salt) = true ->
          exists r db'',
            AuthService.login email candidate rememberMe now' db'
            = (inr r, db''))
         /\ (bcrypt_compare candidate (bcrypt_hash newPassword salt) = false ->
             AuthService.login email candidate rememberMe now' db'
             = (inl (ApiError 401 "Invalid email or password"), db')).
Proof.
  intros Hnd He. rewrite resetPassword_unfold.
  destruct (find _ (Users db)) as [u|] eqn:Hf; [|discriminate].
  destruct (negb _); [discriminate|].
  rewrite User_update_run by exact Hnd. intros E. injection E as <-.
  apply find_some in Hf as [Hu Hq]. exists u.
  split; [exact Hu|]. split; [now apply (resetFilter_hash _ now)|].
  apply andb_prop in Hq as [_ Ha].
  now apply (login_after_new_password db u _ newPassword salt).
Qed.

(** X27. Asking for a password reset again makes the earlier reset token
    of the account useless: once [forgotPassword] has stored the hash of a
    new token, [resetPassword] refuses a token with another hash that was
    issued for the same email. *)
Theorem newer_reset_token_replaces_the_older
  (db : Db) (email older newer : string) (now : Date) (r : string) (db' : Db)
  (newPassword salt : string) (now' : Date) :
  uniqueUserIds db -> uniqueEmails db ->
  (forall v, In v (Users db) ->
             user_passwordResetToken v = Some (sha256_hex older) ->
             user_email v = email_set email) ->
  sha256_hex older <> sha256_hex newer ->
  AuthService.forgotPassword email newer now db = (inr r, db') ->
  AuthService.resetPassword older newPassword salt now' db'
  = (inl (ApiError 400 "Invalid or expired reset token"), db').
Proof.
  intros Hnd He Hold Hne. rewrite forgotPassword_unfold.
  destruct (activeUserByEmail email db) as [u|] eqn:Hf; [|discriminate].
  rewrite User_update_run by exact Hnd. intros E. injection E as _ <-.
  apply find_some in Hf as [Hu Hq]. apply andb_prop in Hq as [Hq _].
  apply String.eqb_eq in Hq.
  rewrite resetPassword_unfold. cbn [Users set_Users].
  destruct (find _ (map _ (Users db))) as [x|] eqn:Hx; [|reflexivity].
  exfalso. apply find_some in Hx as [Hx Hr].
  apply resetFilter_hash in Hr.
  apply in_map_iff in Hx as [y [<- Hy]]. unfold changed in Hr.
  destruct (String.eqb_spec (user_id y) (user_id u)) as [Ei|Ei].
  - cbn in Hr. injection Hr as Hr. now apply Hne.
  - apply Ei. f_equal.
    apply (same_key_same_doc user_email (Users db)); auto.
    rewrite Hq. now apply Hold.
Qed.

(** The condition of [refreshToken] on the user document. *)
Definition holdsToken (id : ObjectId) (t : Jwt) (u : User) : bool :=
  String.eqb (user_id u) id
  && match user_refreshToken u with
     | Some stored => Jwt_eqb stored t
     | None => false
     end
  && user_isActive u.

Lemma refreshToken_unfold t now db :
  AuthService.refreshToken t now db
  = match t with
    | JwtOpaque _ => (inl (ApiError 401 "Invalid refresh token"), db)
    | JwtSigned payload _ exp signedWith =>
        if negb (String.eqb signedWith (jwt_refreshSecret config))
        then (inl (ApiError 401 "Invalid refresh token"), db)
        else if exp <=? now / 1000
        then (inl (ApiError 401 "Invalid refresh token"), db)
        else if ObjectId_isValid (payload_userId payload)
        then
          match find (holdsToken (ObjectId_cast (payload_userId payload)) t)
                     (Users db) with
          | None => (inl (ApiError 401 "Invalid refresh token"), db)
          | Some user =>
              (inr (generateAuthToken user now, generateRefreshToken user now),
               snd (User_update (user_id user)
                      (fun u => touch now
                         (set_refreshToken
                            (Some (generateRefreshToken user now)) u)) db))
          end
        else (inl (CastError "_id"), db)
    end.
Proof.
  unfold AuthService.refreshToken, try_catch.
  destruct t as [p iat exp secret|raw]; [|reflexivity].
  unfold bind at 1. unfold jwt_verify, throw, ret.
  destruct (negb _); [reflexivity|].
  destruct (_ <=? _); [reflexivity|].
  unfold bind at 1, castObjectId, throw, ret.
  destruct (ObjectId_isValid _); [|reflexivity].
  unfold bind, User_findOne, gets.
  fold (holdsToken (ObjectId_cast (payload_userId p))
          (JwtSigned p iat exp secret)).
  now destruct (find _ (Users db)).
Qed.

(** A change of a user document that [refreshToken] cannot see. *)
Definition keepsSession (f : User -> User) : Prop :=
  forall x, user_id (f x) = user_id x /\ user_email (f x) = user_email x
            /\ user_role (f x) = user_role x
            /\ user_refreshToken (f x) = user_refreshToken x
            /\ user_isActive (f x) = user_isActive x.

Lemma find_updateFirst_invariant {A} (P q : A -> bool) (f : A -> A) l :
  (forall x, P (f x) = P x) ->
  match find P l, find P (updateFirst q f l) with
  | Some x, Some y => y = x \/ y = f x
  | None, None => True
  | _, _ => False
  end.
Proof.
  intros Hf. induction l as [|x r IH]; cbn [find updateFirst]; [exact I|].
  destruct (q x); cbn [find].
  - rewrite Hf. destruct (P x); [now right|].
    destruct (find P r); [now left | exact I].
  - destruct (P x); [now left | exact IH].
Qed.

Lemma refresh_same_after db q f t now :
  keepsSession f ->
  fst (AuthService.refreshToken t now
         (set_Users (updateFirst q f (Users db)) db))
  = fst (AuthService.refreshToken t now db).
Proof.
  intros Hf. rewrite !refreshToken_unfold.
  destruct t as [p iat exp secret|raw]; [|reflexivity].
  destruct (negb _); [reflexivity|].
  destruct (_ <=? _); [reflexivity|].
  destruct (ObjectId_isValid _); [|reflexivity].
  cbn [Users set_Users].
  assert (Hi := find_updateFirst_invariant
                  (holdsToken (ObjectId_cast (payload_userId p))
                     (JwtSigned p iat exp secret))
                  q f (Users db)).
  destruct (find _ (Users db)) as [x|], (find _ (updateFirst q f (Users db)))
    as [y|]; cbn [fst]; try reflexivity.
  - destruct Hi as [->| ->]; [| reflexivity |].
    + intros z. unfold holdsToken.
      destruct (Hf z) as (-> & _ & _ & -> & ->). reflexivity.
    + destruct (Hf x) as (Hid & Hem & Hro & _).
      unfold generateAuthToken, generateRefreshToken.
      now rewrite Hid, Hem, Hro.
  - exfalso. apply Hi. intros z. unfold holdsToken.
    destruct (Hf z) as (-> & _ & _ & -> & ->). reflexivity.
  - exfalso. apply Hi. intros z. unfold holdsToken.
    destruct (Hf z) as (-> & _ & _ & -> & ->). reflexivity.
Qed.

(** X28. Changing or resetting a password ends no session: whether the
    call goes through or not, [refreshToken] answers every token afterwards
    as it would have answered it before. *)
Theorem password_change_keeps_sessions
  (db : Db) (t : Jwt) (now' : Date) :
  (forall userId currentPassword newPassword salt now,
     fst (AuthService.refreshToken t now'
            (snd (AuthService.changePassword userId currentPassword
                    newPassword salt now db)))
     = fst (AuthService.refreshToken t now' db))
  /\ (forall token newPassword salt now,
        fst (AuthService.refreshToken t now'
               (snd (AuthService.resetPassword token newPassword salt now
                       db)))
        = fst (AuthService.refreshToken t now' db)).
Proof.
  split.
  - intros userId currentPassword newPassword salt now.
    unfold AuthService.changePassword, bind, castObjectId, throw, ret,
      User_findOne, gets.
    destruct (ObjectId_isValid _); [|reflexivity].
    destruct (find _ (Users db)) as [u|]; [|reflexivity].
    destruct (negb _); [reflexivity|].
    destruct (negb _); [reflexivity|].
    unfold User_update, modify. cbn [snd].
    apply refresh_same_after. intros x. now repeat split.
  - intros token newPassword salt now. rewrite resetPassword_unfold.
    destruct (find _ (Users db)) as [u|]; [|reflexivity].
    destruct (negb _); [reflexivity|].
    unfold User_update, modify. cbn [snd].
    apply refresh_same_after. intros x. now repeat split.
Qed.
End MoreAuthProperties.

(** ** The upload filter *)

Section UploadProperties.
Context `{NodeStrings}.

(** X29. Of the document types that [config.upload] allows, an attachment
    gets through with the PDF and the DOCX type at most: one of type
    [text/plain] or [application/msword] is refused whatever its name, as
    the filter looks for [pdf], [doc], [docx] or [txt] inside the MIME type
    and neither type contains one of them. *)
Theorem plain_text_and_word_attachments_are_refused (file : UploadFile) :
  file_fieldname file = "attachments" ->
  In (file_mimetype file) allowedDocumentTypes ->
  file_mimetype file <> "application/pdf" ->
  file_mimetype file
  <> "application/vnd.openxmlformats-officedocument.wordprocessingml.document"
  ->
  fileFilter file
  = inl (ApiError 400
           "Only image and document files are allowed for attachments").
Proof.
  intros Hf Hm Hpdf Hdocx. unfold fileFilter. rewrite Hf.
  destruct Hm as [E|[E|[E|[E|[]]]]]; try congruence;
    rewrite <- E; reflexivity.
Qed.
End UploadProperties.

(** ** More scenarios on concrete databases *)

(** Stand-ins for Joi's rules of [createBidSchema]. *)
Definition testCreateBidRules : CreateBidRules := {|
  create_gigId := fun v =>
    match v with
    | JStr s => if isHex24 s then inr s else inl "Invalid gig ID format"
    | _ => inl "gigId must be a string"
    end;
  create_amount := numberAtLeast "amount" 5;
  create_deliveryTime := numberAtLeast "deliveryTime" 1;
  create_proposal := stringOf "proposal" 50 1000;
  create_attachments := stringsOf "attachments"
|}.

(** The part of a plain file name from its last dot on. *)
Fixpoint fromLastDot (s : string) : option string :=
  match s with
  | EmptyString => None
  | String c rest =>
      match fromLastDot rest with
      | Some ext => Some ext
      | None => if (nat_of_ascii c =? 46)%nat then Some s else None
      end
  end.

(** Stand-ins for [path.extname], on plain file names that do not start
    with a dot, and for [toLowerCase]. *)
Definition testNodeStrings : NodeStrings := {|
  path_extname := fun name => default EmptyString (fromLastDot name);
  toLowerCase := lowercase
|}.

Definition person (id : ObjectId) (email : string) : User :=
  mkUser id email "$2b$12$Secret1" "Sam" "Doe" freelancer true None None None
         None 0 0.

(** The three pending bids, with the accounts of Anna and Bob. *)
Definition people : Db :=
  set_Users [person anna "anna@example.com"; person bob "bob@example.com"]
            threePending.

Definition bidBody : list (string * JSON) :=
  [("gigId", JStr logoGig); ("amount", JNum (10 # 1));
   ("deliveryTime", JNum (3 # 1)); ("proposal", JStr proposalText)].

(** The database after Anna has deleted the logo gig. *)
Definition logoGigDeleted : Db :=
  Eval vm_compute in
    snd (@GigsService.deleteGig testPlatform logoGig anna threePending).

Definition pauseGig : PartialGig := mkPartialGig None None (Some false).

(** The database after Bob has bid on the logo gig and Anna has then set
    the gig inactive. *)
Definition bobHasBidGigPaused : Db :=
  Eval vm_compute in
    snd (@GigsService.updateGig testPlatform logoGig pauseGig anna bobHasBid).

(** An update document that moves a bid to the poster gig. *)
Definition toPosterGig : PartialBid :=
  mkPartialBid (Some pausedGig) None None None None None None None.

(** The database after Bob has bid on the logo gig and an [updateBid] of
    the service has moved his bid to the poster gig. *)
Definition bobHasMovedBid : Db :=
  Eval vm_compute in
    snd (@BidsService.updateBid testPlatform bid1 toPosterGig bob 150
                                bobHasBid).

(** The database after Anna has set the logo gig inactive. *)
Definition logoGigPaused : Db :=
  Eval vm_compute in
    snd (@GigsService.updateGig testPlatform logoGig pauseGig anna
                                threePending).

(** Anna's user document after her login at time 5000. *)
Definition annaAt5 : User :=
  set_refreshToken (Some annaToken5)
    (set_lastLogin 5000
       (touch 5000 (@hashPassword testPlatform "salt"
                      (@User_new testPlatform annaData anna 1000)))).

(** The access token that login issued. *)
Definition annaAccess5 : Jwt :=
  JwtSigned (AuthClaims anna "anna@example.com" freelancer) 5 (5 + 7 * 86400)
            (jwt_secret defaultConfig).

Definition annaLoggedOut : Db :=
  Eval vm_compute in
    snd (@AuthService.logout testPlatform anna 6000 annaLoggedIn).

Definition annaDeactivated : Db :=
  Eval vm_compute in
    snd (@AuthService.deactivateAccount testPlatform anna 6000 annaLoggedIn).


Definition annaReset : Db :=
  Eval vm_compute in
    snd (@AuthService.resetPassword testPlatform "r4nd0m" "NewSecret2" "salt2"
                                    20000 annaForgot).

Definition annaForgotAgain : Db :=
  Eval vm_compute in
    snd (@AuthService.forgotPassword testPlatform "anna@example.com" "n3w3r"
                                     12000 annaForgot).

Section MoreScenarios.
#[local] Existing Instance testPlatform.
#[local] Existing Instance testCreateBidRules.
#[local] Existing Instance testNodeStrings.

Ltac apart :=
  repeat (constructor; [simpl; intuition discriminate|]); constructor.

Ltac listed := simpl; tauto.

Lemma threePending_uniqueGigIds : uniqueGigIds threePending.
Proof. unfold uniqueGigIds. simpl. apart. Defined.

Lemma annaLoggedIn_wf : wfUsers annaLoggedIn.
Proof. apply (oneUser_wf annaAt5); reflexivity. Defined.

Lemma annaLoggedIn_uniqueEmails : uniqueEmails annaLoggedIn.
Proof. unfold uniqueEmails. simpl. apart. Defined.

Lemma annaForgot_uniqueEmails : uniqueEmails annaForgot.
Proof. unfold uniqueEmails. simpl. apart. Defined.


Lemma testPlatform_bcryptCorrect : bcryptCorrect.
Proof. intros candidate plain salt. reflexivity. Defined.

(** C3 as stated fails. The second [createBid] of the same freelancer on
    the same gig is refused with status 400, a bad request and not a
    conflict. Once the owner has set the gig inactive it is refused with
    status 404, which is neither. And once an [updateBid] of the service has
    moved the first bid to another gig, the second [createBid] for the pair
    succeeds. *)
Lemma second_bid_is_not_a_conflict :
  BidsService.createBid (bidRequest logoGig) bob bid1 100 gigsOnly
  = (inr (sampleBid bid1 bob pending), bobHasBid)
  /\ (BidsService.createBid (bidRequest logoGig) bob bid4 200 bobHasBid
      = (inl (ApiError 400 "You have already placed a bid on this gig"),
         bobHasBid)
      /\ errorKind (ApiError 400 "You have already placed a bid on this gig")
         <> Conflict)
  /\ (snd (GigsService.updateGig logoGig pauseGig anna bobHasBid)
      = bobHasBidGigPaused
      /\ BidsService.createBid (bidRequest logoGig) bob bid4 200
                               bobHasBidGigPaused
         = (inl (ApiError 404 "Gig not found or is not active"),
            bobHasBidGigPaused)
      /\ errorKind (ApiError 404 "Gig not found or is not active")
         <> BadRequest
      /\ errorKind (ApiError 404 "Gig not found or is not active")
         <> Conflict)
  /\ (snd (BidsService.updateBid bid1 toPosterGig bob 150 bobHasBid)
      = bobHasMovedBid
      /\ BidsService.createBid (bidRequest logoGig) bob bid4 200
                               bobHasMovedBid
         = (inr (mkBid bid4 logoGig bob anna (10 # 1) (3 # 1) proposalText
                       pending [] 200 200),
            set_Bids (Bids bobHasMovedBid
                      ++ [mkBid bid4 logoGig bob anna (10 # 1) (3 # 1)
                                proposalText pending [] 200 200])
                     bobHasMovedBid)).
Proof.
  split; [reflexivity|]. split; [split; [reflexivity | discriminate]|].
  split.
  - split; [reflexivity|]. split; [reflexivity|]. split; discriminate.
  - split; reflexivity.
Qed.

(** The ids of a request are read as ObjectIds: a body that names the gig
    with its hex digits in upper case is served, and so is an update that
    names the bid in upper case. *)
Example upper_case_gig_id_is_served :
  BidsHandlers.createBid
    [("gigId", JStr "64B0000000000000000000A1"); ("amount", JNum (10 # 1));
     ("deliveryTime", JNum (3 # 1)); ("proposal", JStr proposalText)]
    bob bid1 100 gigsOnly
  = (inr (sampleBid bid1 bob pending), bobHasBid).
Proof. reflexivity. Qed.

Example upper_case_bid_id_is_served :
  option_map (fun bid => bid_amount (pop_bid bid))
    (match fst (BidsController.updateBid [("amount", JNum (20 # 1))]
                  "64B0000000000000000000B2" carl 300 threePending) with
     | inr res => res
     | inl _ => None
     end)
  = Some (20 # 1)%Q.
Proof. reflexivity. Qed.

(** Anna rejects the second of three pending bids, her id written in upper
    case: the first stays as it was. *)
Lemma reject_second_of_three :
  exists B' db',
    BidsService.updateBidStatus bid2 reject annaUpper 200 threePending
    = (inr (Some (populateBid B' db')), db')
    /\ bid_status B' = rejected
    /\ getBid bid1 db' = Some (sampleBid bid1 bob pending)
    /\ getBid bid3 db' = Some (sampleBid bid3 dora pending).
Proof.
  destruct (reject_changes_only_the_target threePending
              (sampleBid bid2 carl pending) bid2 annaUpper 200)
    as (B' & db' & Hrun & Hst & _ & Hrest);
    [exact threePending_uniqueIds | listed | reflexivity | reflexivity
    | reflexivity | reflexivity | reflexivity |].
  exists B', db'. split; [exact Hrun|]. split; [exact Hst|].
  split.
  - apply (Hrest (sampleBid bid1 bob pending)); [listed | discriminate].
  - apply (Hrest (sampleBid bid3 dora pending)); [listed | discriminate].
Defined.

(** Carl withdraws his bid: Bob's stays as it was. *)
Lemma carl_withdraws_his_bid :
  exists db',
    BidsService.withdrawBid bid2 carl 200 threePending = (inr tt, db')
    /\ option_map bid_status (getBid bid2 db') = Some withdrawn
    /\ getBid bid1 db' = Some (sampleBid bid1 bob pending).
Proof.
  destruct (withdraw_changes_only_the_target threePending
              (sampleBid bid2 carl pending) bid2 carl 200)
    as (db' & Hrun & Hst & Hrest);
    [exact threePending_uniqueIds | listed | reflexivity | reflexivity
    | reflexivity | reflexivity | reflexivity |].
  exists db'. split; [exact Hrun|]. split; [exact Hst|].
  apply (Hrest (sampleBid bid1 bob pending)); [listed | discriminate].
Defined.

(** A stranger and the client of a withdrawn bid get the same answer. *)
Lemma stranger_cannot_reject_a_bid :
  BidsService.updateBidStatus bid1 reject dora 300 mixedBids
  = (inl (ApiError 404 BidsService.notUpdatable), mixedBids).
Proof.
  apply (status_change_needs_pending_bid_and_its_client mixedBids
           (sampleBid bid1 bob pending) bid1 reject dora 300);
    [exact mixedBids_uniqueIds | listed | reflexivity | reflexivity
    | reflexivity |].
  right. discriminate.
Defined.

Lemma rejected_bid_cannot_be_withdrawn :
  BidsService.updateBid bid3 (bidRequest logoGig) dora 300 mixedBids
  = (inl (ApiError 404 BidsService.notUpdatable), mixedBids)
  /\ BidsService.withdrawBid bid3 dora 300 mixedBids
     = (inl (ApiError 404 BidsService.notWithdrawable), mixedBids).
Proof.
  apply (update_and_withdraw_need_pending_bid_and_its_freelancer mixedBids
           (sampleBid bid3 dora rejected) bid3 (bidRequest logoGig) dora 300);
    [exact mixedBids_uniqueIds | listed | reflexivity | reflexivity
    | reflexivity |].
  left. discriminate.
Defined.

Lemma no_pending_bid_after_acceptance :
  Forall (fun b => bid_gigId b = logoGig -> bid_status b <> pending)
         (Bids (snd (BidsService.updateBidStatus bid2 accept anna 200
                                                 threePending))).
Proof.
  apply Forall_forall.
  apply (accept_leaves_no_pending_bid_on_the_gig threePending
           (sampleBid bid2 carl pending) bid2 anna 200);
    [exact threePending_uniqueIds | listed | reflexivity | reflexivity
    | reflexivity | reflexivity | reflexivity].
Defined.

Lemma refused_withdrawal_writes_nothing :
  runBidOp (OpWithdrawBid bid2 carl 300) mixedBids = mixedBids.
Proof.
  apply (failed_bid_call_writes_nothing (OpWithdrawBid bid2 carl 300)
           mixedBids (ApiError 404 BidsService.notWithdrawable)).
  reflexivity.
Defined.

Lemma bobs_bid_is_stored :
  getBid bid1 bobHasBid = Some (sampleBid bid1 bob pending)
  /\ bidSchema_validate (sampleBid bid1 bob pending) = true.
Proof.
  destruct (created_bid_is_stored_and_valid gigsOnly (bidRequest logoGig)
              bob bid1 100 (sampleBid bid1 bob pending) bobHasBid)
    as (Hget & Hvalid & _); [reflexivity|].
  split; [exact Hget | exact Hvalid].
Defined.

(** Carl is no party of Bob's bid. *)
Lemma carl_may_not_see_bobs_bid :
  BidsServiceReads.getBidById bid1 carl people
  = inl (Raised (ApiError 403 "You do not have permission to view this bid")).
Proof.
  apply (proj2 (bid_is_shown_to_its_parties_only people bid1 carl)
           (sampleBid bid1 bob pending));
    [exact threePending_uniqueIds | listed | reflexivity | reflexivity
    | discriminate | discriminate | discriminate | discriminate].
Defined.

Lemma bob_bids_through_the_controller :
  BidsHandlers.createBid bidBody bob bid1 100 gigsOnly
  = (inr (sampleBid bid1 bob pending), bobHasBid)
  /\ bid_status (sampleBid bid1 bob pending) = pending
  /\ getBid bid1 bobHasBid = Some (sampleBid bid1 bob pending).
Proof.
  split; [reflexivity|].
  assert (Hnew := controller_creates_pending_bids_for_the_caller gigsOnly
                    bidBody bob bid1 100 (inr (sampleBid bid1 bob pending))
                    bobHasBid).
  cbv beta iota in Hnew.
  destruct Hnew as (Hst & _ & _ & _ & Hget & _); [reflexivity|].
  split; [exact Hst | exact Hget].
Defined.

Lemma deleted_logo_gig_keeps_its_bids :
  Bids logoGigDeleted = Bids threePending
  /\ BidsService.createBid (bidRequest logoGig) bob bid4 300 logoGigDeleted
     = (inl (ApiError 404 "Gig not found or is not active"), logoGigDeleted).
Proof.
  destruct (deleted_gig_takes_no_bids_and_keeps_its_bids threePending
              logoGig anna logoGigDeleted threePending_uniqueGigIds)
    as (_ & _ & _ & Hbids & _ & Hcreate & _); [reflexivity|].
  split; [exact Hbids|].
  apply (Hcreate (bidRequest logoGig) logoGig); reflexivity.
Defined.

Lemma bob_cannot_change_annas_gig :
  GigsService.updateGig logoGig pauseGig bob gigsOnly
  = (inl (ApiError 404
       "Gig not found or you do not have permission to update it"), gigsOnly)
  /\ GigsService.deleteGig logoGig bob gigsOnly
     = (inl (ApiError 404
          "Gig not found or you do not have permission to delete it"),
        gigsOnly).
Proof.
  apply (gig_changes_need_the_owner gigsOnly logoGig bob pauseGig);
    [reflexivity | reflexivity |].
  intros g Hg Hid. simpl in Hg. destruct Hg as [<-|[<-|[]]]; discriminate.
Defined.

Lemma paused_logo_gig_takes_no_bids :
  BidsService.createBid (bidRequest logoGig) bob bid4 300 logoGigPaused
  = (inl (ApiError 404 "Gig not found or is not active"), logoGigPaused).
Proof.
  destruct (deactivated_gig_takes_no_bids threePending logoGig anna pauseGig
              (Some (populateOwner (mkGig logoGig "Logo design" anna false)
                                   logoGigPaused)) logoGigPaused
              threePending_uniqueGigIds)
    as (_ & _ & Hcreate); [reflexivity|].
  apply (Hcreate eq_refl [] (bidRequest logoGig) logoGig); reflexivity.
Defined.

Lemma annaAt5_stored : In annaAt5 (Users annaLoggedIn).
Proof. left. reflexivity. Defined.


Lemma refused_login_writes_nothing :
  runAuthOp (OpLogin "anna@example.com" "Wrong1" false 6000) annaLoggedIn
  = annaLoggedIn.
Proof.
  apply (failed_auth_call_writes_nothing
           (OpLogin "anna@example.com" "Wrong1" false 6000) annaLoggedIn
           (ApiError 401 "Invalid email or password")).
  reflexivity.
Defined.

Lemma logout_revokes_annas_token :
  AuthService.refreshToken annaToken5 7000 annaLoggedOut
  = (inl (ApiError 401 "Invalid refresh token"), annaLoggedOut).
Proof.
  destruct (logout_revokes_every_refresh_token annaLoggedIn annaAt5 6000
              (inr tt) annaLoggedOut annaLoggedIn_wf annaAt5_stored)
    as (_ & _ & Hrefused); [reflexivity|].
  now apply Hrefused.
Defined.

Lemma annas_access_token_names_an_active_user :
  exists u, In u (Users annaLoggedIn) /\ user_id u = anna
            /\ user_isActive u = true.
Proof.
  destruct (authenticate_admits_active_users_only (Bearer annaAccess5) 6000
              annaLoggedIn
              (mkReqUser anna (Some "anna@example.com") (Some freelancer))
              annaLoggedIn)
    as (_ & p & iat & exp & u & _ & _ & _ & Hin & Hid & Hact);
    [vm_compute; reflexivity|].
  exists u. split; [exact Hin|]. split; [exact Hid | exact Hact].
Defined.

Lemma deactivated_anna_is_locked_out :
  AuthService.login "anna@example.com" "Secret1" false 8000 annaDeactivated
  = (inl (ApiError 401 "Invalid email or password"), annaDeactivated)
  /\ AuthService.refreshToken annaToken5 8000 annaDeactivated
     = (inl (ApiError 401 "Invalid refresh token"), annaDeactivated)
  /\ exists message,
       AuthMiddleware.authenticate (Bearer annaAccess5) 8000 annaDeactivated
       = (inl (ApiError 401 message), annaDeactivated).
Proof.
  destruct (deactivation_locks_the_account annaLoggedIn annaAt5 6000
              (inr tt) annaDeactivated annaLoggedIn_wf
              annaLoggedIn_uniqueEmails annaAt5_stored)
    as (_ & Hrefresh & Hauth & Hlogin & _); [reflexivity|].
  split; [now apply Hlogin|]. split; [now apply Hrefresh|].
  now apply (Hauth _ annaAccess5).
Defined.

Lemma annas_refresh_token_works_at_6000 :
  exists tokens db'',
    AuthService.refreshToken annaToken5 6000 annaLoggedIn
    = (inr tokens, db'').
Proof.
  refine (proj1 (login_refresh_token_lives_until_it_expires annaRegistered
                   "anna@example.com" "Secret1" false 5000
                   (userResponse annaAt5) annaAccess5 annaToken5 annaLoggedIn
                   6000 _ _) _).
  - apply (oneUser_wf (set_refreshToken
                         (Some (JwtSigned (RefreshClaims anna) 1
                                          (1 + 30 * 86400)
                                          "your-refresh-secret-key"))
                         (hashPassword "salt" (User_new annaData anna 1000))));
      reflexivity.
  - reflexivity.
  - reflexivity.
Defined.

Lemma annas_access_token_passes_at_6000 :
  AuthMiddleware.authenticate (Bearer annaAccess5) 6000 annaLoggedIn
  = (inr (mkReqUser anna (Some "anna@example.com") (Some freelancer)),
     annaLoggedIn).
Proof.
  refine (eq_trans
            (login_access_token_passes_authenticate annaRegistered
               "anna@example.com" "Secret1" false 5000
               (userResponse annaAt5) annaAccess5 annaToken5 annaLoggedIn
               6000 _ _) _).
  - apply (oneUser_wf (set_refreshToken
                         (Some (JwtSigned (RefreshClaims anna) 1
                                          (1 + 30 * 86400)
                                          "your-refresh-secret-key"))
                         (hashPassword "salt" (User_new annaData anna 1000))));
      reflexivity.
  - reflexivity.
  - reflexivity.
Defined.

Lemma annas_access_token_does_not_refresh :
  AuthService.refreshToken annaAccess5 6000 annaLoggedIn
  = (inl (ApiError 401 "Invalid refresh token"), annaLoggedIn).
Proof.
  apply (access_token_is_no_refresh_token annaAccess5 6000 annaLoggedIn).
  - discriminate.
  - left. eexists. eexists. reflexivity.
Defined.

Lemma annas_refresh_token_does_not_authenticate :
  AuthMiddleware.authenticate (Bearer annaToken5) 7000 annaLoggedIn
  = (inl (ApiError 401 "Invalid or expired token"), annaLoggedIn).
Proof.
  refine (proj1 (refresh_token_is_no_access_token annaToken5 6000
                   annaLoggedIn
                   (JwtSigned (AuthClaims anna "anna@example.com" freelancer)
                              6 (6 + 7 * 86400) (jwt_secret defaultConfig),
                    JwtSigned (RefreshClaims anna) 6 (6 + 30 * 86400)
                              (jwt_refreshSecret defaultConfig))
                   (snd (AuthService.refreshToken annaToken5 6000
                                                  annaLoggedIn))
                   _ _ 7000 annaLoggedIn)).
  - discriminate.
  - vm_compute. reflexivity.
Defined.

Lemma anna_logs_in_after_registering :
  (exists r' db'',
      AuthService.login "anna@example.com" "Secret1" false 5000 annaRegistered
      = (inr r', db''))
  /\ AuthService.login "anna@example.com" "secret1" false 5000 annaRegistered
     = (inl (ApiError 401 "Invalid email or password"), annaRegistered).
Proof.
  split.
  - refine (proj1 (registered_user_logs_in_with_own_password_only annaData
                     anna "salt" 1000 gigsOnly _ annaRegistered "Secret1"
                     false 5000 testPlatform_bcryptCorrect _) eq_refl).
    vm_compute. reflexivity.
  - refine (proj2 (registered_user_logs_in_with_own_password_only annaData
                     anna "salt" 1000 gigsOnly _ annaRegistered "secret1"
                     false 5000 testPlatform_bcryptCorrect _) _).
    + vm_compute. reflexivity.
    + discriminate.
Defined.


Lemma anna_logs_in_with_the_reset_password :
  exists r db'',
    AuthService.login "anna@example.com" "NewSecret2" false 30000 annaReset
    = (inr r, db'').
Proof.
  destruct (reset_password_becomes_the_password annaForgot "r4nd0m"
              "NewSecret2" "salt2" 20000 annaReset
              annaForgot_uniqueUserIds annaForgot_uniqueEmails)
    as (u & Hu & _ & Hlogin); [reflexivity|].
  simpl in Hu. destruct Hu as [<-|[]].
  apply (Hlogin "anna@example.com" "NewSecret2" false 30000); reflexivity.
Defined.

Lemma annas_first_reset_token_is_replaced :
  AuthService.resetPassword "r4nd0m" "NewSecret2" "salt2" 13000
                            annaForgotAgain
  = (inl (ApiError 400 "Invalid or expired reset token"), annaForgotAgain).
Proof.
  apply (newer_reset_token_replaces_the_older annaForgot "anna@example.com"
           "r4nd0m" "n3w3r" 12000 "n3w3r" annaForgotAgain "NewSecret2" "salt2"
           13000 annaForgot_uniqueUserIds annaForgot_uniqueEmails).
  - intros v Hv _. simpl in Hv. destruct Hv as [<-|[]]. reflexivity.
  - discriminate.
  - reflexivity.
Defined.

Lemma notes_txt_is_refused :
  fileFilter (mkUploadFile "attachments" "notes.txt" "text/plain")
  = inl (ApiError 400
           "Only image and document files are allowed for attachments").
Proof.
  apply (plain_text_and_word_attachments_are_refused
           (mkUploadFile "attachments" "notes.txt" "text/plain"));
    [reflexivity | listed | discriminate | discriminate].
Defined.

(** A PDF goes through, whatever the case of its extension. *)
Example pdf_attachment_is_accepted :
  fileFilter (mkUploadFile "attachments" "offer.PDF" "application/pdf")
  = inr true.
Proof. reflexivity. Qed.
End MoreScenarios.
